(** * Shared-paper quiz service: scoring engine, access codes, two-tier store

    A shallow embedding of the Python sources
      - [utils/access_code_util.py]      (access-code format check),
      - [utils/paper_utils.py]           (answer hiding, task building),
      - [service/analyze_paper_service.py] (per-question scoring, banding),
      - [dao/paper_dao.py], [utils/redis_util.py], [model/paper.py]
                                         (durable tables and cache),
      - [service/shared_paper_service.py] (get_paper, submit_answers),
    followed by the properties established about them.

    Conventions of the embedding.
      - A Python [str] is a [string] holding its UTF-8 bytes.  Byte-wise
        lexicographic order on UTF-8 agrees with Python's code-point order,
        and splitting on an ASCII separator is the same on both views.
      - A JSON object read with [d.get(k, default)] is a record whose field
        holds the default when the key is missing.
      - The scores [10.0], [5.0], [0.0] and their sums are integer-valued
        floats (exact far beyond any paper size); they are kept in [Z].
      - [json.dumps]/[json.loads] round trips are the identity on the
        structured value; a text column that is empty or does not parse is
        [None].
      - A cache entry whose TTL has run out is a key absent from the map;
        the sliding [expire] refresh therefore leaves the map as it is.
      - Calls run one after another on an explicit [World]; a database
        statement succeeds unless it breaks a key constraint of the
        tables, and a cache command always succeeds.
      - The timestamps [datetime.now()] and the server's [now()] are
        readings of one clock that moves on at every reading. *)

From stdpp Require Import base gmap sets list strings sorting pretty.
From Stdlib Require Import ZArith Lia.
From Stdlib Require Ascii String.

Set Warnings "-clear-no-such-hyp".

Local Open Scope Z_scope.
Local Open Scope stdpp_scope.

(** ** Python string helpers *)

Module PyStr.

Definition bytes (s : string) : list Ascii.ascii := String.list_ascii_of_string s.
Definition of_bytes (l : list Ascii.ascii) : string := String.string_of_list_ascii l.

Definition byte (n : nat) : Ascii.ascii := Ascii.ascii_of_nat n.

(** UTF-8 encodings of the code points [str.isspace] accepts, which are
    the ones [str.strip()] removes: U+0009..U+000D, U+001C..U+0020,
    U+0085, U+00A0, U+1680, U+2000..U+200A, U+2028, U+2029, U+202F,
    U+205F, U+3000. *)
Definition whitespace : list (list Ascii.ascii) :=
  ((λ n, [byte n]) <$> [9; 10; 11; 12; 13; 28; 29; 30; 31; 32]%nat)
  ++ [[byte 194; byte 133]; [byte 194; byte 160]; [byte 225; byte 154; byte 128]]
  ++ ((λ n, [byte 226; byte 128; byte n])
        <$> [128; 129; 130; 131; 132; 133; 134; 135; 136; 137; 138;
             168; 169; 175]%nat)
  ++ [[byte 226; byte 129; byte 159]; [byte 227; byte 128; byte 128]].

Fixpoint starts_with (p l : list Ascii.ascii) : bool :=
  match p, l with
  | [], _ => true
  | a :: p', b :: l' => Ascii.eqb a b && starts_with p' l'
  | _ :: _, [] => false
  end.

(** Drops one leading whitespace code point, if there is one. *)
Definition drop_space (ws : list (list Ascii.ascii)) (l : list Ascii.ascii)
  : option (list Ascii.ascii) :=
  (λ p, drop (length p) l) <$> List.find (λ p, starts_with p l) ws.

Fixpoint lstrip_with (ws : list (list Ascii.ascii)) (fuel : nat) (l : list Ascii.ascii)
  : list Ascii.ascii :=
  match fuel with
  | O => l
  | S fuel' =>
      match drop_space ws l with
      | Some l' => lstrip_with ws fuel' l'
      | None => l
      end
  end.

Definition lstrip_bytes (l : list Ascii.ascii) : list Ascii.ascii :=
  lstrip_with whitespace (length l) l.

(** Trailing whitespace is leading whitespace of the reversed bytes,
    matched against the reversed encodings (UTF-8 is self-synchronising,
    so a suffix that spells a code point is that code point). *)
Definition rstrip_bytes (l : list Ascii.ascii) : list Ascii.ascii :=
  rev (lstrip_with ((λ p, rev p) <$> whitespace) (length l) (rev l)).

(** [s.strip()] *)
Definition strip (s : string) : string :=
  of_bytes (rstrip_bytes (lstrip_bytes (bytes s))).

(** the separator [','] *)
Definition comma : Ascii.ascii := byte 44.

(** [s.split(sep)] for a one-character separator: never empty, and an
    empty string yields one empty field. *)
Fixpoint split (sep : Ascii.ascii) (s : string) : list string :=
  match s with
  | EmptyString => [EmptyString]
  | String c r =>
      if Ascii.eqb c sep then EmptyString :: split sep r
      else match split sep r with
           | h :: t => String c h :: t
           | [] => [String c EmptyString]
           end
  end.

(** [sep.join(l)] *)
Fixpoint join (sep : string) (l : list string) : string :=
  match l with
  | [] => ""
  | [x] => x
  | x :: r => x +:+ sep +:+ join sep r
  end.

(** [sorted(l)] on strings: insertion into an ascending list, compared
    with [String.leb] (code-point order). *)
Fixpoint insert_sorted (x : string) (l : list string) : list string :=
  match l with
  | [] => [x]
  | y :: r => if String.leb x y then x :: l else y :: insert_sorted x r
  end.

Definition sorted (l : list string) : list string :=
  foldr insert_sorted [] l.

(** truthiness of a [str] *)
Definition truthy (s : string) : bool :=
  match s with EmptyString => false | _ => true end.

End PyStr.





(** ** Data model ([schemas/paper_schemas.py], the JSON held in the stores) *)

(** One choice of a question.  [opt_is_correct] is the ground truth and
    [opt_explanation] the static rationale ([None] for JSON [null]). *)
Record QuestionOption := {
  opt_id : string;
  opt_text : string;
  opt_is_correct : bool;
  opt_explanation : option string
}.

Record Question := {
  question_id : string;
  question_type : string;
  question_text : string;
  options : list QuestionOption
}.

(** [user_answer: str | list]; the elements of a list are option ids,
    hence strings.  Any other JSON value is kept with its [str()]
    rendering, which is all the scoring code looks at.  A list holding
    something other than strings (a nested list or an object, on which
    [set()] raises) is not represented. *)
Inductive PyAnswer :=
| AnsStr (s : string)
| AnsList (l : list string)
| AnsOther (repr : string).

Record UserAnswerItem := {
  ans_question_id : string;
  ans_user_answer : PyAnswer
}.

Record AnalysisTask := {
  task_question_id : string;
  task_question_type : string;
  task_question_text : string;
  task_user_answer : PyAnswer;
  task_options : list QuestionOption
}.

(** [correct_answer: str | list] *)
Inductive CorrectAnswer :=
| CorrectStr (s : string)
| CorrectList (l : list string).

Record ScoreInfo := {
  is_correct : bool;
  score : Z;
  correct_answer : CorrectAnswer;
  explanation : option string;
  chinese_type : string
}.

(** ** Scoring engine ([service/analyze_paper_service.py]) *)

Definition base_score : Z := 10.

Definition type_mapping : gmap string string :=
  list_to_map
    [("single_choice", "单选题"); ("multiple_choice", "多选题");
     ("true_false", "判断题"); ("fill_blank", "填空题");
     ("单选题", "单选题"); ("多选题", "多选题");
     ("判断题", "判断题"); ("填空题", "填空题")].

Definition is_single_choice (question_type : string) : bool :=
  bool_decide (question_type ∈ ["single_choice"; "单选题"]).

Definition is_multiple_choice (question_type : string) : bool :=
  bool_decide (question_type ∈ ["multiple_choice"; "多选题"]).

(** [[opt.get('id', '') for opt in options if opt.get('is_correct', False)]] *)
Definition flagged_ids (opts : list QuestionOption) : list string :=
  opt_id <$> List.filter opt_is_correct opts.

(** [{opt.get('id', '') for opt in options if opt.get('is_correct', False)}] *)
Definition correct_set (opts : list QuestionOption) : gset string :=
  list_to_set (flagged_ids opts).

(** Single choice: a list is reduced to its first element (or ['']),
    anything else to [str(user_answer).strip()]. *)
Definition single_choice_answer (a : PyAnswer) : string :=
  match a with
  | AnsList l => match l with x :: _ => x | [] => "" end
  | AnsStr s => PyStr.strip s
  | AnsOther repr => PyStr.strip repr
  end.

(** Multiple choice: a string is stripped and split on commas, a list is
    used as it is, anything else is the empty set. *)
Definition multiple_choice_answer (a : PyAnswer) : gset string :=
  match a with
  | AnsStr s => list_to_set (PyStr.split PyStr.comma (PyStr.strip s))
  | AnsList l => list_to_set l
  | AnsOther _ => ∅
  end.

Definition score_single_choice
    (chinese : string) (a : PyAnswer) (opts : list QuestionOption) : ScoreInfo :=
  let user_answer := single_choice_answer a in
  let correct_options := flagged_ids opts in
  let correct := match correct_options with x :: _ => x | [] => "" end in
  match List.find (λ o, bool_decide (opt_id o = user_answer)) opts with
  | Some option =>
      {| is_correct := opt_is_correct option;
         score := if opt_is_correct option then base_score else 0;
         correct_answer := CorrectStr correct;
         explanation := opt_explanation option;
         chinese_type := chinese |}
  | None =>
      {| is_correct := false;
         score := 0;
         correct_answer := CorrectStr correct;
         explanation := Some "答案格式错误";
         chinese_type := chinese |}
  end.

(** The [if/elif] chain over the user's set and the correct set. *)
Definition multiple_choice_verdict (user_options correct_options : gset string)
  : bool * Z :=
  let has_wrong_answer :=
    bool_decide (0 < size (user_options ∖ correct_options))%nat in
  let all_correct_answered :=
    bool_decide (size (correct_options ∖ user_options) = 0)%nat in
  let correct_answered_count := size (user_options ∩ correct_options) in
  if has_wrong_answer then (false, 0)
  else if all_correct_answered
          && bool_decide (size user_options = size correct_options)
       then (true, base_score)
  else if bool_decide (0 < correct_answered_count)%nat then (true, 5)
  else (false, 0).

Definition score_multiple_choice
    (chinese : string) (a : PyAnswer) (opts : list QuestionOption) : ScoreInfo :=
  let user_options := multiple_choice_answer a in
  let correct_options := correct_set opts in
  let correct := PyStr.sorted (elements correct_options) in
  let verdict := multiple_choice_verdict user_options correct_options in
  {| is_correct := verdict.1;
     score := verdict.2;
     correct_answer := CorrectList correct;
     explanation := Some ("正确答案包含选项：" +:+ PyStr.join ", " correct);
     chinese_type := chinese |}.

Definition score_unknown_type
    (chinese : string) (opts : list QuestionOption) : ScoreInfo :=
  {| is_correct := false;
     score := 0;
     correct_answer := CorrectStr (PyStr.join "" (flagged_ids opts));
     explanation := Some "未知题目类型";
     chinese_type := chinese |}.

Definition calculate_question_score (analysis_task : AnalysisTask) : ScoreInfo :=
  let question_type := task_question_type analysis_task in
  let user_answer := task_user_answer analysis_task in
  let opts := task_options analysis_task in
  let chinese := default question_type (type_mapping !! question_type) in
  if is_single_choice question_type then
    score_single_choice chinese user_answer opts
  else if is_multiple_choice question_type then
    score_multiple_choice chinese user_answer opts
  else
    score_unknown_type chinese opts.

(** The two tasks of the module's own self-test. *)
Definition opt (i : string) (c : bool) : QuestionOption :=
  {| opt_id := i; opt_text := "option " +:+ i; opt_is_correct := c;
     opt_explanation := Some ("about " +:+ i) |}.

Definition test_task_1 : AnalysisTask :=
  {| task_question_id := "1"; task_question_type := "single_choice";
     task_question_text := "q1"; task_user_answer := AnsStr "C";
     task_options := [opt "A" false; opt "B" false; opt "C" true; opt "D" false] |}.

Definition test_task_2 : AnalysisTask :=
  {| task_question_id := "2"; task_question_type := "multiple_choice";
     task_question_text := "q2"; task_user_answer := AnsStr "ADE";
     task_options := [opt "A" true; opt "B" false; opt "C" false;
                      opt "D" true; opt "E" true] |}.

(** *** Aggregation and banding *)

(** One entry of the generator's [results] array, after
    [str(item.get('question_id', ''))] and [item.get('explanation', '')]. *)
Record AiItem := {
  ai_question_id : string;
  ai_explanation : string
}.

Record QuestionAnalysis := {
  qa_question_id : string;
  qa_question_type : string;
  qa_question_text : string;
  qa_user_answer : PyAnswer;
  qa_is_correct : bool;
  qa_score : Z;
  qa_correct_answer : CorrectAnswer;
  qa_explanation : string
}.

Record AnalysisResult := {
  analysis_results : list QuestionAnalysis;
  total_score : Z;
  correct_count : nat;
  total_count : nat;
  overall_feedback : string
}.

(** [explanation_map[question_id] = ...] in a loop: a later entry for the
    same id replaces an earlier one. *)
Definition explanation_map (ai_explanations : list AiItem) : gmap string string :=
  foldl (λ m item, <[ai_question_id item := ai_explanation item]> m)
        ∅ ai_explanations.

Definition feedback_90 : string := "专业功底扎实,细节把控近乎完美!".
Definition feedback_80 : string := "专业基础良好,对知识点掌握较为全面!".
Definition feedback_70 : string := "基本掌握相关知识,仍有提升空间!".
Definition feedback_60 : string := "部分知识点掌握,需要加强学习!".
Definition feedback_low : string := "需要系统复习,建议重点关注错误题目!".

(** The [if total_score >= 90: ... elif ... else ...] chain. *)
Definition overall_feedback_for (total : Z) : string :=
  if bool_decide (total >= 90) then feedback_90
  else if bool_decide (total >= 80) then feedback_80
  else if bool_decide (total >= 70) then feedback_70
  else if bool_decide (total >= 60) then feedback_60
  else feedback_low.

Definition no_feedback : string := "未能生成个性化反馈".

(** Body of [for task in analysis_tasks]: the accumulator is
    [(final_results, total_score, correct_count)]. *)
Definition analyse_task (explanations : gmap string string)
    (acc : list QuestionAnalysis * Z * nat) (task : AnalysisTask)
  : list QuestionAnalysis * Z * nat :=
  let '(final_results, total, correct) := acc in
  let score_info := calculate_question_score task in
  let ai_feedback :=
    default no_feedback (explanations !! task_question_id task) in
  let result :=
    {| qa_question_id := task_question_id task;
       qa_question_type := chinese_type score_info;
       qa_question_text := task_question_text task;
       qa_user_answer := task_user_answer task;
       qa_is_correct := is_correct score_info;
       qa_score := score score_info;
       qa_correct_answer := correct_answer score_info;
       qa_explanation := ai_feedback |} in
  (final_results ++ [result],
   total + score score_info,
   if is_correct score_info then S correct else correct).

Definition process_ai_analysis_results
    (ai_explanations : list AiItem) (analysis_tasks : list AnalysisTask)
  : AnalysisResult :=
  let '(final_results, total, correct) :=
    foldl (analyse_task (explanation_map ai_explanations)) ([], 0, 0%nat)
          analysis_tasks in
  {| analysis_results := final_results;
     total_score := total;
     correct_count := correct;
     total_count := length analysis_tasks;
     overall_feedback := overall_feedback_for total |}.

(** What the explanation generator does for one batch: the call raises or
    its text does not repair to an object whose [results] can be read
    ([LlmFails]), or it yields the [results] array ([LlmResults]; an
    object without that key is [LlmResults []]). *)
Inductive LlmReply :=
| LlmFails
| LlmResults (results : list AiItem).

(** [analyze_paper_answers]: the [except] branch only logs, so the
    function then falls off its end and returns Python's [None]. *)
Definition analyze_paper_answers
    (reply : LlmReply) (analysis_tasks : list AnalysisTask)
  : option AnalysisResult :=
  match reply with
  | LlmResults results =>
      Some (process_ai_analysis_results results analysis_tasks)
  | LlmFails => None
  end.

(** ** Access codes ([utils/access_code_util.py]) *)

Module AccessCode.

(** alphabet of [generate_access_code] *)
Definition chars : string := "ABCDEFGHJKLMNPQRSTUVWXYZ23456789".

Definition ascii_uppercase : string := "ABCDEFGHIJKLMNOPQRSTUVWXYZ".
Definition digits : string := "0123456789".

(** [set(string.ascii_uppercase + string.digits)] *)
Definition allowed_chars : list Ascii.ascii :=
  PyStr.bytes (ascii_uppercase +:+ digits).

(** [len(s)]: code points, i.e. bytes that are not UTF-8 continuation
    bytes [10xxxxxx]. *)
Definition len (s : string) : nat :=
  length (List.filter
            (λ c, negb ((128 <=? Ascii.nat_of_ascii c)%nat
                        && (Ascii.nat_of_ascii c <? 192)%nat))
            (PyStr.bytes s)).

(** [all(c in allowed_chars for c in access_code)]: a character outside
    ASCII has only bytes from 128 up, none of which is allowed, so the
    test over bytes and the test over characters agree. *)
Definition validate_access_code (access_code : string) : bool :=
  if negb (PyStr.truthy access_code) then false
  else if (len access_code <? 4)%nat || (10 <? len access_code)%nat then false
  else forallb (λ c, bool_decide (c ∈ allowed_chars)) (PyStr.bytes access_code).

End AccessCode.

(** ** Answer hiding and task building ([utils/paper_utils.py]) *)

(** [QuestionOptionForFrontend] *)
Record OptionView := {
  view_id : string;
  view_text : string
}.

(** [QuestionForFrontend] *)
Record QuestionView := {
  qv_question_id : string;
  qv_question_type : string;
  qv_question_text : string;
  qv_options : list OptionView
}.

Definition hide_option (option : QuestionOption) : OptionView :=
  {| view_id := opt_id option; view_text := opt_text option |}.

Definition hide_question (question : Question) : QuestionView :=
  {| qv_question_id := question_id question;
     qv_question_type := question_type question;
     qv_question_text := question_text question;
     qv_options := hide_option <$> options question |}.

Definition hide_correct_answers (questions : list Question) : list QuestionView :=
  hide_question <$> questions.

Inductive PyExc :=
| ValueError (msg : string)
| AttributeError (msg : string)
| IntegrityError (msg : string).

(** [question_map[question_id] = question] in a loop. *)
Definition question_map (cached_questions : list Question) : gmap string Question :=
  foldl (λ m question, <[question_id question := question]> m)
        ∅ cached_questions.

(** The loop over the user's answers; the first id missing from the map
    raises. *)
Fixpoint build_tasks (qmap : gmap string Question)
    (user_answers : list UserAnswerItem) : PyExc + list AnalysisTask :=
  match user_answers with
  | [] => inr []
  | user_answer :: rest =>
      let qid := ans_question_id user_answer in
      match qmap !! qid with
      | None => inl (ValueError ("题目ID " +:+ qid +:+ " 在缓存中不存在"))
      | Some cached_question =>
          match build_tasks qmap rest with
          | inl e => inl e
          | inr tasks =>
              inr ({| task_question_id := qid;
                      task_question_type := question_type cached_question;
                      task_question_text := question_text cached_question;
                      task_user_answer := ans_user_answer user_answer;
                      task_options := options cached_question |} :: tasks)
          end
      end
  end.

Definition build_analysis_tasks_from_cache
    (cached_questions : list Question) (user_answers : list UserAnswerItem)
  : PyExc + list AnalysisTask :=
  build_tasks (question_map cached_questions) user_answers.

(** ** Durable tables ([model/paper.py]) and cache entries *)

(** A timestamp is a reading of the world's clock. *)
Definition Timestamp := nat.

(** Row of [papers].  [paper_questions] is the JSON text column, parsed. *)
Record Paper := {
  paper_id : string;
  paper_questions : option (list Question);
  paper_total_count : nat;
  paper_created_at : option Timestamp;
  paper_status : string;
  paper_access_code : string;
  paper_user_id : option string
}.

(** Row of [user_answers]; [ua_id] is the autoincrement key.  Nothing
    makes [(paper_id, user_id)] unique in the table itself. *)
Record UserAnswer := {
  ua_id : nat;
  ua_paper_id : string;
  ua_user_id : string;
  ua_answers : option (list UserAnswerItem);
  ua_score : option Z;
  ua_correct_count : option nat;
  ua_total_count : option nat;
  ua_analysis_results : option (list QuestionAnalysis);
  ua_overall_feedback : option string;
  ua_submitted_at : Timestamp
}.

(** The [answer_data] dictionary handed to the DAO: a field is [None]
    when its key is missing. *)
Record AnswerData := {
  ad_paper_id : string;
  ad_user_id : string;
  ad_answers : option (list UserAnswerItem);
  ad_score : option Z;
  ad_correct_count : option nat;
  ad_total_count : option nat;
  ad_analysis_results : option (list QuestionAnalysis);
  ad_overall_feedback : option string
}.

(** Value stored under [SHARED_PAPER:<paper_id>]. *)
Record CachedPaper := {
  cp_paper_id : string;
  cp_questions : list Question;
  cp_total_count : nat;
  cp_access_code : string;
  cp_user_id : option string;
  cp_created_at : option Timestamp;
  cp_documents : list string;
  cp_document_count : nat
}.

(** Value stored under [USER_ANSWER:<paper_id>:<user_id>] by
    [submit_answers]: a copy of [answer_data] plus [submitted_at]. *)
Record CachedAnswer := {
  ca_data : AnswerData;
  ca_submitted_at : Timestamp
}.

(** The two tiers and the clock.  The three cache families live under
    distinct key prefixes, so each has its own map; paper entries are
    keyed by [paper_id], mappings by access code, answers by the text
    [<paper_id>:<user_id>] that follows their prefix. *)
Record World := {
  db_papers : list Paper;
  db_user_answers : list UserAnswer;
  db_next_id : nat;
  redis_papers : gmap string CachedPaper;
  redis_codes : gmap string string;
  redis_answers : gmap string CachedAnswer;
  clock : Timestamp
}.

Definition with_db_papers (w : World) (v : list Paper) : World :=
  {| db_papers := v; db_user_answers := db_user_answers w;
     db_next_id := db_next_id w; redis_papers := redis_papers w;
     redis_codes := redis_codes w; redis_answers := redis_answers w;
     clock := clock w |}.

Definition with_db_user_answers (w : World) (v : list UserAnswer) : World :=
  {| db_papers := db_papers w; db_user_answers := v;
     db_next_id := db_next_id w; redis_papers := redis_papers w;
     redis_codes := redis_codes w; redis_answers := redis_answers w;
     clock := clock w |}.

Definition with_db_next_id (w : World) (v : nat) : World :=
  {| db_papers := db_papers w; db_user_answers := db_user_answers w;
     db_next_id := v; redis_papers := redis_papers w;
     redis_codes := redis_codes w; redis_answers := redis_answers w;
     clock := clock w |}.

Definition with_redis_papers (w : World) (v : gmap string CachedPaper) : World :=
  {| db_papers := db_papers w; db_user_answers := db_user_answers w;
     db_next_id := db_next_id w; redis_papers := v;
     redis_codes := redis_codes w; redis_answers := redis_answers w;
     clock := clock w |}.

Definition with_redis_codes (w : World) (v : gmap string string) : World :=
  {| db_papers := db_papers w; db_user_answers := db_user_answers w;
     db_next_id := db_next_id w; redis_papers := redis_papers w;
     redis_codes := v; redis_answers := redis_answers w;
     clock := clock w |}.

Definition with_redis_answers (w : World) (v : gmap string CachedAnswer) : World :=
  {| db_papers := db_papers w; db_user_answers := db_user_answers w;
     db_next_id := db_next_id w; redis_papers := redis_papers w;
     redis_codes := redis_codes w; redis_answers := v;
     clock := clock w |}.

Definition with_clock (w : World) (v : Timestamp) : World :=
  {| db_papers := db_papers w; db_user_answers := db_user_answers w;
     db_next_id := db_next_id w; redis_papers := redis_papers w;
     redis_codes := redis_codes w; redis_answers := redis_answers w;
     clock := v |}.

Definition empty_world : World :=
  {| db_papers := []; db_user_answers := []; db_next_id := 1%nat;
     redis_papers := ∅; redis_codes := ∅; redis_answers := ∅; clock := 0%nat |}.

(** [datetime.now()] / the server's [now()]: read the clock, which then
    moves on. *)
Definition now (w : World) : Timestamp * World := (clock w, with_clock w (S (clock w))).

(** Outcome of an operation that may raise. *)
Inductive Outcome (A : Type) :=
| Returned (a : A) (w : World)
| Raised (e : PyExc) (w : World).
Arguments Returned {A} a w.
Arguments Raised {A} e w.

(** ** [PaperDao] and [UserAnswerDao] ([dao/paper_dao.py]) *)

Module PaperDao.

Definition get_paper_by_id (w : World) (pid : string) : option Paper :=
  List.find (λ p, bool_decide (paper_id p = pid)) (db_papers w).

Definition get_paper_by_access_code (w : World) (code : string) : option Paper :=
  List.find (λ p, bool_decide (paper_access_code p = code)) (db_papers w).

Definition get_paper_questions (w : World) (pid : string)
  : option (list Question) :=
  match get_paper_by_id w pid with
  | Some paper => paper_questions paper
  | None => None
  end.

(** [create_paper]: the primary key and the unique access code are the
    table's constraints; a violation rolls back and raises. *)
Definition create_paper (w : World) (pid : string) (questions : list Question)
    (total : nat) (code : string) (user : option string) (status : string)
  : Outcome Paper :=
  if bool_decide (is_Some (get_paper_by_id w pid))
     || bool_decide (is_Some (get_paper_by_access_code w code))
  then Raised (IntegrityError "duplicate key") w
  else
    let '(t, w1) := now w in
    let paper :=
      {| paper_id := pid; paper_questions := Some questions;
         paper_total_count := total; paper_created_at := Some t;
         paper_status := status; paper_access_code := code;
         paper_user_id := user |} in
    Returned paper (with_db_papers w1 (db_papers w1 ++ [paper])).

Definition set_status (status : string) (p : Paper) : Paper :=
  {| paper_id := paper_id p; paper_questions := paper_questions p;
     paper_total_count := paper_total_count p;
     paper_created_at := paper_created_at p;
     paper_status := status; paper_access_code := paper_access_code p;
     paper_user_id := paper_user_id p |}.

Fixpoint update_first (pid : string) (f : Paper → Paper) (l : list Paper)
  : list Paper :=
  match l with
  | [] => []
  | p :: rest =>
      if bool_decide (paper_id p = pid) then f p :: rest
      else p :: update_first pid f rest
  end.

Definition update_paper_status (w : World) (pid status : string)
  : bool * World :=
  match get_paper_by_id w pid with
  | Some _ =>
      (true, with_db_papers w (update_first pid (set_status status) (db_papers w)))
  | None => (false, w)
  end.

End PaperDao.

Module UserAnswerDao.

Definition is_key (pid uid : string) (r : UserAnswer) : bool :=
  bool_decide (ua_paper_id r = pid) && bool_decide (ua_user_id r = uid).

Definition get_user_answer (w : World) (pid uid : string) : option UserAnswer :=
  List.find (is_key pid uid) (db_user_answers w).

(** [json.dumps(x) if answer_data.get(k) else None]: a missing key and
    an empty list both give NULL. *)
Definition dumps_if_truthy {A} (x : option (list A)) : option (list A) :=
  match x with
  | Some ((_ :: _) as l) => Some l
  | _ => None
  end.

Definition create_user_answer (w : World) (d : AnswerData) : UserAnswer * World :=
  let '(t, w1) := now w in
  let row :=
    {| ua_id := db_next_id w1;
       ua_paper_id := ad_paper_id d;
       ua_user_id := ad_user_id d;
       ua_answers := dumps_if_truthy (ad_answers d);
       ua_score := ad_score d;
       ua_correct_count := ad_correct_count d;
       ua_total_count := ad_total_count d;
       ua_analysis_results := dumps_if_truthy (ad_analysis_results d);
       ua_overall_feedback := ad_overall_feedback d;
       ua_submitted_at := t |} in
  (row,
   with_db_next_id
     (with_db_user_answers w1 (db_user_answers w1 ++ [row]))
     (S (db_next_id w1))).

(** [if k in answer_data: user_answer.k = answer_data[k]] for the six
    columns the method names. *)
Definition keep_or {A} (new : option A) (old : option A) : option A :=
  match new with
  | Some x => Some x
  | None => old
  end.

Definition apply_update (d : AnswerData) (r : UserAnswer) : UserAnswer :=
  {| ua_id := ua_id r;
     ua_paper_id := ua_paper_id r;
     ua_user_id := ua_user_id r;
     ua_answers := keep_or (ad_answers d) (ua_answers r);
     ua_score := keep_or (ad_score d) (ua_score r);
     ua_correct_count := keep_or (ad_correct_count d) (ua_correct_count r);
     ua_total_count := keep_or (ad_total_count d) (ua_total_count r);
     ua_analysis_results :=
       keep_or (ad_analysis_results d) (ua_analysis_results r);
     ua_overall_feedback :=
       keep_or (ad_overall_feedback d) (ua_overall_feedback r);
     ua_submitted_at := ua_submitted_at r |}.

(** The row [.first()] returned is changed in place. *)
Fixpoint update_first (pid uid : string) (f : UserAnswer → UserAnswer)
    (l : list UserAnswer) : list UserAnswer :=
  match l with
  | [] => []
  | r :: rest =>
      if is_key pid uid r then f r :: rest
      else r :: update_first pid uid f rest
  end.

Definition update_user_answer (w : World) (pid uid : string) (d : AnswerData)
  : bool * World :=
  match get_user_answer w pid uid with
  | Some _ =>
      (true,
       with_db_user_answers w
         (update_first pid uid (apply_update d) (db_user_answers w)))
  | None => (false, w)
  end.

End UserAnswerDao.

(** ** [PaperTestStateProcessor] ([utils/redis_util.py]) *)

Module Redis.

Definition save_shared_paper (w : World) (pid : string) (data : CachedPaper)
  : World :=
  with_redis_papers w (<[pid := data]> (redis_papers w)).

Definition get_shared_paper (w : World) (pid : string) : option CachedPaper :=
  redis_papers w !! pid.

Definition save_access_code_mapping (w : World) (code pid : string) : World :=
  with_redis_codes w (<[code := pid]> (redis_codes w)).

(** [if cached_data:]: an empty value counts as a miss. *)
Definition get_paper_id_by_access_code (w : World) (code : string)
  : option string :=
  match redis_codes w !! code with
  | Some pid => if PyStr.truthy pid then Some pid else None
  | None => None
  end.

Definition answer_key (pid uid : string) : string := pid +:+ ":" +:+ uid.

Definition save_user_answer (w : World) (pid uid : string) (data : CachedAnswer)
  : World :=
  with_redis_answers w (<[answer_key pid uid := data]> (redis_answers w)).

Definition get_user_answer (w : World) (pid uid : string) : option CachedAnswer :=
  redis_answers w !! answer_key pid uid.

Definition delete_shared_paper (w : World) (pid : string) : World :=
  with_redis_papers w (delete pid (redis_papers w)).

End Redis.

(** ** [SharedPaperService] ([service/shared_paper_service.py]) *)

(** What [get_paper_by_id] hands to the caller. *)
Record PaperView := {
  pv_paper_id : string;
  pv_access_code : string;
  pv_questions : list QuestionView;
  pv_total_count : nat;
  pv_created_at : option Timestamp;
  pv_documents : list string;
  pv_document_count : nat
}.

Record PaperSummary := {
  ps_paper_id : string;
  ps_access_code : string;
  ps_access_url : string;
  ps_total_count : nat;
  ps_created_at : Timestamp
}.

Record Receipt := {
  rc_paper_id : string;
  rc_user_id : string;
  rc_submitted_at : Timestamp
}.

Module SharedPaperService.

(** [generate_shared_paper] from the point where the paper id, the
    access code and the generated questions are in hand (they come from
    random draws and the question generator). *)
Definition generate_shared_paper (w : World) (pid code : string)
    (questions : list Question) (user : option string)
    (documents : list string) : Outcome PaperSummary :=
  match questions with
  | [] => Raised (ValueError "生成的试题为空") w
  | _ :: _ =>
      match PaperDao.create_paper w pid questions (length questions)
              code user "active" with
      | Raised e w' => Raised e w'
      | Returned _ w1 =>
          let '(t, w2) := now w1 in
          let cache_data :=
            {| cp_paper_id := pid; cp_questions := questions;
               cp_total_count := length questions; cp_access_code := code;
               cp_user_id := user; cp_created_at := Some t;
               cp_documents := documents;
               cp_document_count := length documents |} in
          let w3 := Redis.save_shared_paper w2 pid cache_data in
          let w4 := Redis.save_access_code_mapping w3 code pid in
          let '(t', w5) := now w4 in
          Returned {| ps_paper_id := pid; ps_access_code := code;
                      ps_access_url := "/paper/access/" +:+ code;
                      ps_total_count := length questions;
                      ps_created_at := t' |} w5
      end
  end.

Definition get_paper_by_id (w : World) (pid : string)
  : option PaperView * World :=
  match Redis.get_shared_paper w pid with
  | Some cached_data =>
      let frontend_questions := hide_correct_answers (cp_questions cached_data) in
      (Some {| pv_paper_id := cp_paper_id cached_data;
               pv_access_code := cp_access_code cached_data;
               pv_questions := frontend_questions;
               pv_total_count := length frontend_questions;
               pv_created_at := cp_created_at cached_data;
               pv_documents := cp_documents cached_data;
               pv_document_count := cp_document_count cached_data |}, w)
  | None =>
      match PaperDao.get_paper_by_id w pid with
      | None => (None, w)
      | Some paper =>
          if negb (bool_decide (paper_status paper = "active")) then (None, w)
          else
            match PaperDao.get_paper_questions w pid with
            | None | Some [] => (None, w)
            | Some questions =>
                let frontend_questions := hide_correct_answers questions in
                let cache_data :=
                  {| cp_paper_id := paper_id paper;
                     cp_questions := questions;
                     cp_total_count := paper_total_count paper;
                     cp_access_code := paper_access_code paper;
                     cp_user_id := paper_user_id paper;
                     cp_created_at := paper_created_at paper;
                     cp_documents := [];
                     cp_document_count := 0 |} in
                let w1 := Redis.save_shared_paper w pid cache_data in
                let w2 :=
                  Redis.save_access_code_mapping w1 (paper_access_code paper) pid in
                (Some {| pv_paper_id := paper_id paper;
                         pv_access_code := paper_access_code paper;
                         pv_questions := frontend_questions;
                         pv_total_count := length frontend_questions;
                         pv_created_at := cp_created_at cache_data;
                         pv_documents := cp_documents cache_data;
                         pv_document_count := cp_document_count cache_data |},
                 w2)
            end
      end
  end.

Definition get_paper_by_access_code (w : World) (code : string)
  : option PaperView * World :=
  match Redis.get_paper_id_by_access_code w code with
  | Some pid => get_paper_by_id w pid
  | None =>
      match PaperDao.get_paper_by_access_code w code with
      | None => (None, w)
      | Some paper =>
          if negb (bool_decide (paper_status paper = "active")) then (None, w)
          else get_paper_by_id w (paper_id paper)
      end
  end.

(** The questions [submit_answers] scores against: the cached paper's,
    else the durable row's; nothing here reads [paper_status]. *)
Definition resolve_questions (w : World) (pid : string)
  : PyExc + list Question :=
  match Redis.get_shared_paper w pid with
  | None =>
      match PaperDao.get_paper_questions w pid with
      | Some ((_ :: _) as questions) => inr questions
      | _ => inl (ValueError ("未找到试题 " +:+ pid))
      end
  | Some cached_data =>
      match cp_questions cached_data with
      | [] => inl (ValueError "试题内容为空")
      | (_ :: _) as questions => inr questions
      end
  end.

Definition answer_data_of (pid uid : string) (answers : list UserAnswerItem)
    (result : AnalysisResult) : AnswerData :=
  {| ad_paper_id := pid;
     ad_user_id := uid;
     ad_answers := Some answers;
     ad_score := Some (total_score result);
     ad_correct_count := Some (correct_count result);
     ad_total_count := Some (total_count result);
     ad_analysis_results := Some (analysis_results result);
     ad_overall_feedback := Some (overall_feedback result) |}.

(** The second half of [submit_answers]: build [answer_data], update the
    existing durable row or create one, cache a copy stamped with
    [datetime.now()], and return the receipt stamped with a later
    [datetime.now()]. *)
Definition store_submission (w : World) (pid uid : string)
    (answers : list UserAnswerItem) (result : AnalysisResult)
  : Receipt * World :=
  let answer_data := answer_data_of pid uid answers result in
  let w1 :=
    match UserAnswerDao.get_user_answer w pid uid with
    | Some _ => (UserAnswerDao.update_user_answer w pid uid answer_data).2
    | None => (UserAnswerDao.create_user_answer w answer_data).2
    end in
  let '(t, w2) := now w1 in
  let w3 :=
    Redis.save_user_answer w2 pid uid
      {| ca_data := answer_data; ca_submitted_at := t |} in
  let '(t', w4) := now w3 in
  ({| rc_paper_id := pid; rc_user_id := uid; rc_submitted_at := t' |}, w4).

(** [result.get(...)] on the [None] that [analyze_paper_answers] returns
    after a generator failure raises [AttributeError]; the enclosing
    [except] logs it and re-raises. *)
Definition submit_answers (w : World) (pid uid : string)
    (answers : list UserAnswerItem) (reply : LlmReply) : Outcome Receipt :=
  match resolve_questions w pid with
  | inl e => Raised e w
  | inr questions =>
      match build_analysis_tasks_from_cache questions answers with
      | inl e => Raised e w
      | inr analysis_tasks =>
          match analyze_paper_answers reply analysis_tasks with
          | None =>
              Raised (AttributeError
                        "'NoneType' object has no attribute 'get'") w
          | Some result =>
              let '(receipt, w') := store_submission w pid uid answers result in
              Returned receipt w'
          end
      end
  end.

End SharedPaperService.

(** ** Statements compared with the code *)

(** The multiple-choice rules read as four separate implications over the
    normalised user set [U] and the correct set [C]. *)
Definition multiple_choice_rules_as_stated (t : AnalysisTask) : Prop :=
  let U := multiple_choice_answer (task_user_answer t) in
  let C := correct_set (task_options t) in
  let r := calculate_question_score t in
  ((∃ x, x ∈ U ∧ x ∉ C) → score r = 0 ∧ is_correct r = false)
  ∧ (U = C → score r = 10 ∧ is_correct r = true)
  ∧ (U ≠ ∅ ∧ U ⊂ C → score r = 5 ∧ is_correct r = true)
  ∧ (U ∩ C = ∅ → score r = 0 ∧ is_correct r = false).

(** The single-choice rules read as three implications over the options
    that carry the chosen id, with the reported correct answer. *)
Definition single_choice_rules_as_stated (t : AnalysisTask) : Prop :=
  let chosen := single_choice_answer (task_user_answer t) in
  let r := calculate_question_score t in
  (∀ o, o ∈ task_options t → opt_id o = chosen → opt_is_correct o = true →
        score r = 10 ∧ is_correct r = true)
  ∧ (∀ o, o ∈ task_options t → opt_id o = chosen → opt_is_correct o = false →
          score r = 0 ∧ is_correct r = false)
  ∧ (chosen ∉ opt_id <$> task_options t →
     score r = 0 ∧ is_correct r = false
     ∧ explanation r = Some "答案格式错误")
  ∧ correct_answer r
    = CorrectStr
        (default "" (opt_id <$> List.find opt_is_correct (task_options t))).

(** A single-choice question two of whose options carry the id A, the
    second of them flagged correct, answered with A. *)
Definition duplicate_id_task : AnalysisTask :=
  {| task_question_id := "1"; task_question_type := "single_choice";
     task_question_text := "q"; task_user_answer := AnsStr "A";
     task_options := [opt "A" false; opt "A" true] |}.

(** A byte of a printable ASCII character other than the blank. *)
Definition graphic (c : Ascii.ascii) : Prop :=
  (33 ≤ Ascii.nat_of_ascii c ≤ 126)%nat.

(** [' ' * n] *)
Definition blanks (n : nat) : list Ascii.ascii := replicate n (PyStr.byte 32).

(** [' ' * n + core + ' ' * m] *)
Definition padded (n m : nat) (core : string) : string :=
  PyStr.of_bytes (blanks n ++ PyStr.bytes core ++ blanks m).

(** A non-empty string that begins and ends with a graphic character. *)
Definition graphic_ends (core : string) : Prop :=
  (∃ c, head (PyStr.bytes core) = Some c ∧ graphic c)
  ∧ (∃ d, last (PyStr.bytes core) = Some d ∧ graphic d).

(** The first self-test question answered with blanks around the id. *)
Definition padded_task : AnalysisTask :=
  {| task_question_id := "1"; task_question_type := "single_choice";
     task_question_text := "q1"; task_user_answer := AnsStr "  C ";
     task_options := [opt "A" false; opt "B" false; opt "C" true; opt "D" false] |}.

(** A multiple-choice question none of whose options is flagged correct,
    answered with the empty list. *)
Definition unflagged_task : AnalysisTask :=
  {| task_question_id := "1"; task_question_type := "multiple_choice";
     task_question_text := "q"; task_user_answer := AnsList [];
     task_options := [opt "A" false; opt "B" false] |}.

(** A multiple-choice question with correct options A and C, answered
    with A alone. *)
Definition partial_task : AnalysisTask :=
  {| task_question_id := "2"; task_question_type := "multiple_choice";
     task_question_text := "q"; task_user_answer := AnsList ["A"];
     task_options := [opt "A" true; opt "B" false; opt "C" true] |}.

(** The sum of the per-question scores, written directly. *)
Definition raw_score_sum (tasks : list AnalysisTask) : Z :=
  foldr (λ task acc, score (calculate_question_score task) + acc) 0 tasks.

(** The number of tasks scored as correct, written directly. *)
Definition raw_correct_count (tasks : list AnalysisTask) : nat :=
  length (List.filter (λ task, is_correct (calculate_question_score task)) tasks).

Definition five_bands : list string :=
  [feedback_90; feedback_80; feedback_70; feedback_60; feedback_low].

(** A paper with one single-choice question (correct option B) and one
    multiple-choice question (correct options A and C), and a submission
    answering B and A. *)
Definition example_questions : list Question :=
  [ {| question_id := "1"; question_type := "single_choice";
       question_text := "first";
       options := [opt "A" false; opt "B" true; opt "C" false] |};
    {| question_id := "2"; question_type := "multiple_choice";
       question_text := "second";
       options := [opt "A" true; opt "B" false; opt "C" true] |} ].

Definition example_answers : list UserAnswerItem :=
  [ {| ans_question_id := "1"; ans_user_answer := AnsList ["B"] |};
    {| ans_question_id := "2"; ans_user_answer := AnsList ["A"] |} ].

Definition example_tasks : list AnalysisTask :=
  match build_analysis_tasks_from_cache example_questions example_answers with
  | inr tasks => tasks
  | inl _ => []
  end.

(** The access-code check read as: length 4 to 10 and every character in
    the generation alphabet. *)
Definition access_code_rule_as_stated (code : string) : Prop :=
  AccessCode.validate_access_code code = true
  ↔ (4 ≤ AccessCode.len code ≤ 10)%nat
    ∧ Forall (λ c, c ∈ PyStr.bytes AccessCode.chars) (PyStr.bytes code).

Definition is_upper_or_digit (c : Ascii.ascii) : Prop :=
  let n := Ascii.nat_of_ascii c in
  (65 ≤ n ≤ 90)%nat ∨ (48 ≤ n ≤ 57)%nat.

(** *** Erasing the ground truth

    Two worlds are the same apart from the answers when they agree once
    every option's [is_correct] and [explanation] are blanked, in the
    durable rows and in the cached papers alike. *)
Definition scrub_option (o : QuestionOption) : QuestionOption :=
  {| opt_id := opt_id o; opt_text := opt_text o;
     opt_is_correct := false; opt_explanation := None |}.

Definition scrub_question (q : Question) : Question :=
  {| question_id := question_id q; question_type := question_type q;
     question_text := question_text q;
     options := scrub_option <$> options q |}.

Definition scrub_paper (p : Paper) : Paper :=
  {| paper_id := paper_id p;
     paper_questions :=
       (λ qs : list Question, scrub_question <$> qs) <$> paper_questions p;
     paper_total_count := paper_total_count p;
     paper_created_at := paper_created_at p;
     paper_status := paper_status p;
     paper_access_code := paper_access_code p;
     paper_user_id := paper_user_id p |}.

Definition scrub_cached (c : CachedPaper) : CachedPaper :=
  {| cp_paper_id := cp_paper_id c;
     cp_questions := scrub_question <$> cp_questions c;
     cp_total_count := cp_total_count c;
     cp_access_code := cp_access_code c;
     cp_user_id := cp_user_id c;
     cp_created_at := cp_created_at c;
     cp_documents := cp_documents c;
     cp_document_count := cp_document_count c |}.

Definition scrub_world (w : World) : World :=
  {| db_papers := scrub_paper <$> db_papers w;
     db_user_answers := db_user_answers w;
     db_next_id := db_next_id w;
     redis_papers := scrub_cached <$> redis_papers w;
     redis_codes := redis_codes w;
     redis_answers := redis_answers w;
     clock := clock w |}.

Definition same_apart_from_answers (w1 w2 : World) : Prop :=
  scrub_world w1 = scrub_world w2.

(** *** Sample worlds *)

Definition outcome_world {A} (o : Outcome A) : World :=
  match o with
  | Returned _ w => w
  | Raised _ w => w
  end.

Definition sample_id : string := "PAPER_20240101_0A1B2C3D".
Definition sample_code : string := "ABCDEF".

(** The example paper, generated into an empty system. *)
Definition published_world : World :=
  outcome_world
    (SharedPaperService.generate_shared_paper empty_world sample_id sample_code
       example_questions (Some "teacher") ["notes.pdf"]).

(** The same paper with another ground truth. *)
Definition other_questions : list Question :=
  [ {| question_id := "1"; question_type := "single_choice";
       question_text := "first";
       options := [opt "A" true; opt "B" false; opt "C" false] |};
    {| question_id := "2"; question_type := "multiple_choice";
       question_text := "second";
       options := [opt "A" false; opt "B" true; opt "C" false] |} ].

Definition other_published_world : World :=
  outcome_world
    (SharedPaperService.generate_shared_paper empty_world sample_id sample_code
       other_questions (Some "teacher") ["notes.pdf"]).

(** The published paper after [update_paper_status(..., 'inactive')]:
    the durable row changes, the cache entry stays. *)
Definition retired_world : World :=
  (PaperDao.update_paper_status published_world sample_id "inactive").2.

(** The same once its cache entry is gone. *)
Definition archived_world : World :=
  Redis.delete_shared_paper retired_world sample_id.

(** *** Guards on submission, as stated *)

Definition paper_absent (w : World) (pid : string) : Prop :=
  Redis.get_shared_paper w pid = None ∧ PaperDao.get_paper_by_id w pid = None.

Definition paper_inactive (w : World) (pid : string) : Prop :=
  ∃ p, PaperDao.get_paper_by_id w pid = Some p ∧ paper_status p ≠ "active".

(** Submission fails, leaving both tiers' submission records as they
    were, for a paper that does not exist or is inactive. *)
Definition submit_guard_as_stated (w : World) (pid uid : string)
    (answers : list UserAnswerItem) (reply : LlmReply) : Prop :=
  paper_absent w pid ∨ paper_inactive w pid →
  ∃ e w',
    SharedPaperService.submit_answers w pid uid answers reply = Raised e w'
    ∧ db_user_answers w' = db_user_answers w
    ∧ redis_answers w' = redis_answers w.

(** *** Submission records *)

Definition rows_for (pid uid : string) (rows : list UserAnswer) : list UserAnswer :=
  List.filter (UserAnswerDao.is_key pid uid) rows.

Definition at_most_one_per_key (rows : list UserAnswer) : Prop :=
  ∀ pid uid, (length (rows_for pid uid rows) ≤ 1)%nat.

(** The scoring result a submission computes before it stores anything. *)
Definition scored (w : World) (pid : string) (answers : list UserAnswerItem)
    (reply : LlmReply) : option AnalysisResult :=
  match SharedPaperService.resolve_questions w pid with
  | inl _ => None
  | inr questions =>
      match build_analysis_tasks_from_cache questions answers with
      | inl _ => None
      | inr analysis_tasks => analyze_paper_answers reply analysis_tasks
      end
  end.


(** A second submission for the example paper: both questions exactly. *)
Definition second_answers : list UserAnswerItem :=
  [ {| ans_question_id := "1"; ans_user_answer := AnsStr "B" |};
    {| ans_question_id := "2"; ans_user_answer := AnsStr "A,C" |} ].

Definition submitted_world : World :=
  outcome_world
    (SharedPaperService.submit_answers published_world sample_id "u1"
       example_answers (LlmResults [])).

Definition resubmitted_world : World :=
  outcome_world
    (SharedPaperService.submit_answers submitted_world sample_id "u1"
       second_answers (LlmResults [])).

(** * Further functions of the same modules *)

(** ** [convert_question_type_to_chinese] ([utils/paper_utils.py]) *)

Definition chinese_labels : gmap string string :=
  list_to_map
    [("single_choice", "单选题"); ("multiple_choice", "多选题");
     ("true_false", "判断题"); ("fill_blank", "填空题")].

Definition convert_question_type_to_chinese (question_type : string) : string :=
  default question_type (chinese_labels !! question_type).

Definition with_task_type (t : AnalysisTask) (question_type : string) : AnalysisTask :=
  {| task_question_id := task_question_id t;
     task_question_type := question_type;
     task_question_text := task_question_text t;
     task_user_answer := task_user_answer t;
     task_options := task_options t |}.

(** The labels for which [calculate_question_score] has a scoring rule. *)
Definition scored_labels : list string :=
  ["single_choice"; "单选题"; "multiple_choice"; "多选题"].

(** The entry of a list that a loop of dictionary assignments keeps for a
    key: the last one carrying it. *)
Definition last_with {A} (key : A → string) (k : string) (l : list A) : option A :=
  last (filter (λ x, key x = k) l).

(** The per-question outcome built for one task, given the explanations. *)
Definition outcome_of (explanations : gmap string string) (task : AnalysisTask)
  : QuestionAnalysis :=
  let score_info := calculate_question_score task in
  {| qa_question_id := task_question_id task;
     qa_question_type := chinese_type score_info;
     qa_question_text := task_question_text task;
     qa_user_answer := task_user_answer task;
     qa_is_correct := is_correct score_info;
     qa_score := score score_info;
     qa_correct_answer := correct_answer score_info;
     qa_explanation :=
       default no_feedback (explanations !! task_question_id task) |}.

(** Ascending in Python's string order. *)
Definition ascending (l : list string) : Prop :=
  StronglySorted (λ a b, String.leb a b = true) l.

(** A true/false question, a type the label table knows but the scoring
    does not. *)
Definition true_false_task : AnalysisTask :=
  {| task_question_id := "3"; task_question_type := "true_false";
     task_question_text := "third"; task_user_answer := AnsStr "A";
     task_options := [opt "A" true; opt "B" false] |}.

(** ** Issuing identifiers ([utils/access_code_util.py]) *)

(** The random source: its raw draws, by position.  [random.choice(seq)]
    takes the element at a drawn index below [len(seq)]. *)
Definition Rng := nat → nat.

Definition choice (seq : list Ascii.ascii) (draw : nat) : Ascii.ascii :=
  nth (draw `mod` length seq) seq (PyStr.byte 0).

(** [''.join(random.choice(chars) for _ in range(length))], reading the
    source from position [pos]; returns the next position too. *)
Fixpoint draw_chars (rng : Rng) (pos n : nat) : list Ascii.ascii :=
  match n with
  | O => []
  | S n' => choice (PyStr.bytes AccessCode.chars) (rng pos)
            :: draw_chars rng (S pos) n'
  end.

Definition generate_access_code (rng : Rng) (pos length : nat) : string * nat :=
  (PyStr.of_bytes (draw_chars rng pos length), (pos + length)%nat).

(** The [for attempt in range(max_attempts)] loop; [None] when the loop
    runs out. *)
Fixpoint draw_until_free (check_exists_func : option (string → bool))
    (rng : Rng) (pos attempts : nat) : option string * nat :=
  match attempts with
  | O => (None, pos)
  | S attempts' =>
      let '(access_code, pos') := generate_access_code rng pos 6 in
      match check_exists_func with
      | None => (Some access_code, pos')
      | Some exists_ =>
          if negb (exists_ access_code) then (Some access_code, pos')
          else draw_until_free check_exists_func rng pos' attempts'
      end
  end.

Definition generate_unique_access_code
    (check_exists_func : option (string → bool)) (max_attempts : nat)
    (rng : Rng) (pos : nat) : (PyExc + string) * nat :=
  match draw_until_free check_exists_func rng pos max_attempts with
  | (Some access_code, pos') => (inr access_code, pos')
  | (None, pos') =>
      (inl (ValueError ("无法在" +:+ pretty max_attempts
                        +:+ "次尝试内生成唯一访问码")), pos')
  end.

(** The [k]-th code the loop draws when it starts at [pos]. *)
Definition candidate (rng : Rng) (pos k : nat) : string :=
  (generate_access_code rng (pos + 6 * k) 6).1.

(** [base_url.endswith('/')] and [base_url[:-1]] *)
Definition ends_with_slash (s : string) : bool :=
  match last (PyStr.bytes s) with
  | Some c => Ascii.eqb c (PyStr.byte 47)
  | None => false
  end.

Definition drop_last (s : string) : string :=
  PyStr.of_bytes (removelast (PyStr.bytes s)).

Definition format_access_code_url (access_code base_url : string) : string :=
  let base_url := if ends_with_slash base_url then drop_last base_url else base_url in
  base_url +:+ "/paper/access/" +:+ access_code.

(** [s.upper()] on ASCII text. *)
Definition upper_byte (c : Ascii.ascii) : Ascii.ascii :=
  let n := Ascii.nat_of_ascii c in
  if (97 <=? n)%nat && (n <=? 122)%nat then PyStr.byte (n - 32) else c.

Definition upper (s : string) : string :=
  PyStr.of_bytes (upper_byte <$> PyStr.bytes s).

(** [generate_paper_id], given what [strftime('%Y%m%d')] and
    [uuid.uuid4().hex] return. *)
Definition generate_paper_id (today hex : string) : string :=
  "PAPER_" +:+ today +:+ "_"
  +:+ upper (PyStr.of_bytes (take 8 (PyStr.bytes hex))).

Definition is_digit (c : Ascii.ascii) : Prop :=
  (48 ≤ Ascii.nat_of_ascii c ≤ 57)%nat.

Definition is_lower_hex (c : Ascii.ascii) : Prop :=
  is_digit c ∨ (97 ≤ Ascii.nat_of_ascii c ≤ 102)%nat.

(** The characters a paper id is made of. *)
Definition is_paper_id_char (c : Ascii.ascii) : Prop :=
  is_upper_or_digit c ∨ Ascii.nat_of_ascii c = 95%nat.

(** A source of draws and an existence check used in examples: the
    check knows the first code the source yields. *)
Definition sample_rng : Rng := λ i, (7 * i + 3)%nat.

Definition sample_taken (code : string) : bool :=
  bool_decide (code = candidate sample_rng 0 0).

(** ** [generate_training_questions] ([service/generate_paper_service.py]) *)

(** What one call of the question generator comes to, once the messages
    are built: the call or the reading of its text raises; the text
    repairs to a JSON value that is not an object (named by its Python
    type); or it is an object, whose [questions] array is kept ([[]]
    when the key is missing). *)
Inductive GeneratorReply :=
| GenRaises (e : PyExc)
| GenNotObject (type_name : string)
| GenObject (questions : list Question).

Definition set_question_type (q : Question) (t : string) : Question :=
  {| question_id := question_id q; question_type := t;
     question_text := question_text q; options := options q |}.

(** One retry, and only after an exception: the inner [try] covers the
    call and [json_repair.loads]; the [.get('questions', [])] that fails
    on a non-object comes after it.  The question types are then turned
    into their Chinese labels. *)
Definition generate_training_questions (first second : GeneratorReply)
  : PyExc + list Question :=
  let reply := match first with GenRaises _ => second | _ => first end in
  match reply with
  | GenRaises e => inl e
  | GenNotObject type_name =>
      inl (AttributeError
             ("'" +:+ type_name +:+ "' object has no attribute 'get'"))
  | GenObject questions =>
      inr ((λ q, set_question_type q
                   (convert_question_type_to_chinese (question_type q)))
             <$> questions)
  end.



(** ** The remaining DAO methods ([dao/paper_dao.py]) *)

Fixpoint remove_first {A} (P : A → bool) (l : list A) : list A :=
  match l with
  | [] => []
  | x :: rest => if P x then rest else x :: remove_first P rest
  end.

(** [delete_paper]: the answers of the paper go first, then the paper,
    in one commit.  When there is no such paper the method returns
    [False] without committing, and the session's pending deletion is
    dropped when the request's session is closed. *)
Definition delete_paper (w : World) (pid : string) : bool * World :=
  match PaperDao.get_paper_by_id w pid with
  | Some _ =>
      (true,
       with_db_papers
         (with_db_user_answers w
            (List.filter (λ r, negb (bool_decide (ua_paper_id r = pid)))
                         (db_user_answers w)))
         (remove_first (λ p, bool_decide (paper_id p = pid)) (db_papers w)))
  | None => (false, w)
  end.

Definition get_paper_all_answers (w : World) (pid : string) : list UserAnswer :=
  List.filter (λ r, bool_decide (ua_paper_id r = pid)) (db_user_answers w).

Definition delete_user_answer (w : World) (pid uid : string) : bool * World :=
  match UserAnswerDao.get_user_answer w pid uid with
  | Some _ =>
      (true,
       with_db_user_answers w
         (remove_first (UserAnswerDao.is_key pid uid) (db_user_answers w)))
  | None => (false, w)
  end.

(** The key constraints of [papers]: primary key and unique access code. *)
Definition paper_keys_unique (w : World) : Prop :=
  NoDup (paper_id <$> db_papers w) ∧ NoDup (paper_access_code <$> db_papers w).

(** The published paper after [delete_paper]: the durable row is gone,
    the cache entry stays until it expires. *)
Definition deleted_world : World := (delete_paper published_world sample_id).2.

(** ** The shared-paper endpoints ([controller/paper_router.py]) *)

Inductive HttpResult (A : Type) :=
| HttpOk (data : A)
| HttpError (status_code : nat) (detail : string).
Arguments HttpOk {A} data.
Arguments HttpError {A} status_code detail.

(** [GetPaperResponse]: the documents of the service's view are not part
    of it. *)
Record GetPaperResponse := {
  gp_paper_id : string;
  gp_access_code : string;
  gp_questions : list QuestionView;
  gp_total_count : nat;
  gp_created_at : option Timestamp
}.

Definition paper_response (v : PaperView) : GetPaperResponse :=
  {| gp_paper_id := pv_paper_id v; gp_access_code := pv_access_code v;
     gp_questions := pv_questions v; gp_total_count := pv_total_count v;
     gp_created_at := pv_created_at v |}.

Definition get_shared_paper_by_id (w : World) (pid : string)
  : HttpResult GetPaperResponse * World :=
  match SharedPaperService.get_paper_by_id w pid with
  | (Some result, w') => (HttpOk (paper_response result), w')
  | (None, w') => (HttpError 404 "试题不存在或已失效", w')
  end.

Definition get_shared_paper_by_access_code (w : World) (code : string)
  : HttpResult GetPaperResponse * World :=
  match SharedPaperService.get_paper_by_access_code w code with
  | (Some result, w') => (HttpOk (paper_response result), w')
  | (None, w') => (HttpError 404 "试题不存在或访问码无效", w')
  end.



(** ** Cache keys *)

Definition colon_free (s : string) : Prop :=
  PyStr.byte 58 ∉ PyStr.bytes s.

(** A submission naming a question the example paper does not have. *)
Definition stray_answers : list UserAnswerItem :=
  [ {| ans_question_id := "1"; ans_user_answer := AnsStr "B" |};
    {| ans_question_id := "9"; ans_user_answer := AnsStr "A" |} ].

(** ** Object names ([utils/file_download_util.py]) *)

Definition slash : Ascii.ascii := PyStr.byte 47.

(** [s.strip('/')] *)
Fixpoint lstrip_char (c : Ascii.ascii) (l : list Ascii.ascii) : list Ascii.ascii :=
  match l with
  | x :: rest => if Ascii.eqb x c then lstrip_char c rest else l
  | [] => []
  end.

Definition strip_char (c : Ascii.ascii) (s : string) : string :=
  PyStr.of_bytes (rev (lstrip_char c (rev (lstrip_char c (PyStr.bytes s))))).

(** [extract_object_name_from_url], from the path component that
    [urlparse(file_url).path] gives. *)
Definition extract_object_name (path file_url : string) : PyExc + string :=
  let path_parts := PyStr.split slash (strip_char slash path) in
  if (3 <=? length path_parts)%nat
  then inr (PyStr.join "/" (drop 1 path_parts))
  else inl (ValueError ("URL格式不正确，无法解析object_name: " +:+ file_url)).

Definition slash_free (s : string) : Prop := slash ∉ PyStr.bytes s.
Example strip_ex : PyStr.strip "  A,B　 " = "A,B".
Proof. vm_compute. reflexivity. Qed.

Example split_ex : PyStr.split PyStr.comma "A,B,,C" = ["A"; "B"; ""; "C"].
Proof. reflexivity. Qed.

Example split_empty_ex : PyStr.split PyStr.comma "" = [""].
Proof. reflexivity. Qed.

Example sorted_ex : PyStr.sorted ["C"; "A"; "B"] = ["A"; "B"; "C"].
Proof. reflexivity. Qed.

Example test_task_1_score :
  calculate_question_score test_task_1
  = {| is_correct := true; score := 10; correct_answer := CorrectStr "C";
       explanation := Some "about C"; chinese_type := "单选题" |}.
Proof. vm_compute. reflexivity. Qed.

Example test_task_2_score :
  calculate_question_score test_task_2
  = {| is_correct := false; score := 0;
       correct_answer := CorrectList ["A"; "D"; "E"];
       explanation := Some "正确答案包含选项：A, D, E";
       chinese_type := "多选题" |}.
Proof. vm_compute. reflexivity. Qed.

Example unflagged_task_score :
  score (calculate_question_score unflagged_task) = 10
  ∧ is_correct (calculate_question_score unflagged_task) = true.
Proof. by vm_compute. Qed.

Example comma_string_answer :
  multiple_choice_answer (AnsStr " A,C ") = multiple_choice_answer (AnsList ["C"; "A"; "A"]).
Proof. by vm_compute. Qed.

Example validate_examples :
  AccessCode.validate_access_code "ABC" = false
  ∧ AccessCode.validate_access_code "ABCDEF" = true
  ∧ AccessCode.validate_access_code "abcdef" = false
  ∧ AccessCode.validate_access_code "ABCDEFGHJKL" = false
  ∧ AccessCode.validate_access_code "AB0O" = true.
Proof. by vm_compute. Qed.

Example resolve_published :
  SharedPaperService.resolve_questions published_world sample_id
  = inr example_questions.
Proof. by vm_compute. Qed.

Example resolve_archived :
  SharedPaperService.resolve_questions archived_world sample_id
  = inr example_questions.
Proof. by vm_compute. Qed.

(** After the cache entry is lost, the durable branch serves the paper
    and seeds the cache again. *)
Example get_paper_reseeds :
  let evicted := Redis.delete_shared_paper published_world sample_id in
  Redis.get_shared_paper evicted sample_id = None
  ∧ (pv_questions
       <$> (SharedPaperService.get_paper_by_id evicted sample_id).1)
    = Some (hide_correct_answers example_questions)
  ∧ (cp_questions
       <$> Redis.get_shared_paper
             (SharedPaperService.get_paper_by_id evicted sample_id).2 sample_id)
    = Some example_questions.
Proof. by vm_compute. Qed.

Example first_submission :
  (ua_score <$> db_user_answers submitted_world) = [Some 15]
  ∧ (ua_submitted_at <$> db_user_answers submitted_world) = [3%nat].
Proof. by vm_compute. Qed.

Example second_submission :
  (ua_score <$> db_user_answers resubmitted_world) = [Some 20]
  ∧ (ua_submitted_at <$> db_user_answers resubmitted_world) = [3%nat]
  ∧ (ca_submitted_at
       <$> Redis.get_user_answer resubmitted_world sample_id "u1")
    = Some 6%nat.
Proof. by vm_compute. Qed.

(** * Properties *)

(** ** Scoring: multiple choice *)

Section MultipleChoice.

Implicit Types U C : gset string.

Lemma size_pos_iff U : (0 < size U)%nat ↔ ∃ x, x ∈ U.
Proof.
  split.
  - apply size_pos_elem_of.
  - intros [x Hx]. apply Nat.neq_0_lt_0. rewrite size_non_empty_iff.
    set_solver.
Qed.

Lemma verdict_wrong U C x : x ∈ U → x ∉ C → multiple_choice_verdict U C = (false, 0).
Proof.
  intros HU HC. unfold multiple_choice_verdict.
  rewrite bool_decide_eq_true_2; [done|].
  apply size_pos_iff. exists x. set_solver.
Qed.

Lemma verdict_exact U : multiple_choice_verdict U U = (true, 10).
Proof.
  unfold multiple_choice_verdict.
  replace (U ∖ U) with (∅ : gset string) by set_solver.
  rewrite size_empty. simpl.
  rewrite !bool_decide_eq_true_2; done.
Qed.

Lemma verdict_partial U C : U ≠ ∅ → U ⊂ C → multiple_choice_verdict U C = (true, 5).
Proof.
  intros Hne Hsub. unfold multiple_choice_verdict.
  rewrite (bool_decide_eq_false_2 (0 < size (U ∖ C))%nat); last first.
  { rewrite size_pos_iff. set_solver. }
  rewrite (bool_decide_eq_false_2 (size (C ∖ U) = 0)%nat); last first.
  { rewrite size_empty_iff. intros He. apply Hsub. set_solver. }
  simpl. rewrite bool_decide_eq_true_2; [done|].
  apply size_pos_iff. apply set_choose_L in Hne as [x Hx].
  exists x. set_solver.
Qed.

Lemma verdict_nothing_right U C :
  U ∩ C = ∅ → U ≠ C → multiple_choice_verdict U C = (false, 0).
Proof.
  intros Hdisj Hne. unfold multiple_choice_verdict.
  case_bool_decide as Hw; [done|].
  assert (U = ∅) as ->.
  { rewrite size_pos_iff in Hw. set_solver. }
  rewrite (bool_decide_eq_false_2 (size (C ∖ ∅) = 0)%nat); last first.
  { rewrite size_empty_iff. set_solver. }
  simpl. rewrite bool_decide_eq_false_2; [done|].
  rewrite size_pos_iff. set_solver.
Qed.

Lemma multiple_choice_dispatch t :
  task_question_type t ∈ ["multiple_choice"; "多选题"] →
  calculate_question_score t
  = score_multiple_choice
      (default (task_question_type t) (type_mapping !! task_question_type t))
      (task_user_answer t) (task_options t).
Proof.
  intros Hty. unfold calculate_question_score.
  assert (is_single_choice (task_question_type t) = false) as ->.
  { apply bool_decide_eq_false_2. intros Hs.
    set_unfold. destruct Hty as [Hty|[Hty|[]]], Hs as [Hs|[Hs|[]]];
      rewrite Hty in Hs; discriminate Hs. }
  unfold is_multiple_choice. by rewrite bool_decide_eq_true_2.
Qed.

End MultipleChoice.

(** C1, as stated, fails: with no option flagged correct and the empty
    answer, both sets are empty; their intersection is empty, for which
    the statement promises score 0, yet the code takes the equal-sets
    branch and returns 10 and [is_correct = true]. *)
Lemma multiple_choice_empty_sets_score_10 :
  ¬ multiple_choice_rules_as_stated unflagged_task.
Proof.
  intros (_ & _ & _ & H).
  assert (multiple_choice_answer (task_user_answer unflagged_task)
            ∩ correct_set (task_options unflagged_task) = ∅) as Hdisj
    by (vm_compute; reflexivity).
  destruct (H Hdisj) as [Hscore _].
  vm_compute in Hscore. discriminate Hscore.
Qed.

(** C1 (amended): for a multiple-choice question, with [U] the normalised
    user set and [C] the set of ids flagged correct, the score is 0 and
    not correct when [U] has an id outside [C]; 10 and correct when
    [U = C]; 5 and correct when [U] is a non-empty strict subset of [C];
    0 and not correct when [U ∩ C] is empty and [U] differs from [C]. *)
Theorem multiple_choice_scoring (t : AnalysisTask) :
  task_question_type t ∈ ["multiple_choice"; "多选题"] →
  let U := multiple_choice_answer (task_user_answer t) in
  let C := correct_set (task_options t) in
  let r := calculate_question_score t in
  ((∃ x, x ∈ U ∧ x ∉ C) → score r = 0 ∧ is_correct r = false)
  ∧ (U = C → score r = 10 ∧ is_correct r = true)
  ∧ (U ≠ ∅ ∧ U ⊂ C → score r = 5 ∧ is_correct r = true)
  ∧ (U ∩ C = ∅ → U ≠ C → score r = 0 ∧ is_correct r = false).
Proof.
  intros Hty U C r. subst r. rewrite (multiple_choice_dispatch t Hty).
  unfold score_multiple_choice. cbn [score is_correct]. fold U C.
  repeat split.
  - destruct H as (x & HU & HC). by rewrite (verdict_wrong U C x).
  - destruct H as (x & HU & HC). by rewrite (verdict_wrong U C x).
  - rewrite H. by rewrite verdict_exact.
  - rewrite H. by rewrite verdict_exact.
  - destruct H as [Hne Hsub]. by rewrite verdict_partial.
  - destruct H as [Hne Hsub]. by rewrite verdict_partial.
  - by rewrite verdict_nothing_right.
  - by rewrite verdict_nothing_right.
Qed.

Lemma multiple_choice_scoring_witness :
  task_question_type partial_task ∈ ["multiple_choice"; "多选题"]
  ∧ score (calculate_question_score partial_task) = 5
  ∧ is_correct (calculate_question_score partial_task) = true.
Proof.
  assert (task_question_type partial_task ∈ ["multiple_choice"; "多选题"])
    as Hty by (vm_compute; left).
  split; [exact Hty|].
  refine (proj1 (proj2 (proj2 (multiple_choice_scoring partial_task Hty))) _).
  split; compute_done.
Defined.

(** ** Scoring: single choice *)

Section SingleChoice.

Lemma find_unique_id (opts : list QuestionOption) (o : QuestionOption) :
  NoDup (opt_id <$> opts) → o ∈ opts →
  List.find (λ o', bool_decide (opt_id o' = opt_id o)) opts = Some o.
Proof.
  induction opts as [|o' opts IH]; intros Hnd Hin.
  - by apply elem_of_nil in Hin.
  - apply NoDup_cons in Hnd as [Hfresh Hnd]. simpl.
    apply elem_of_cons in Hin as [->|Hin].
    + by rewrite bool_decide_eq_true_2.
    + rewrite bool_decide_eq_false_2; [by apply IH|].
      intros Heq. apply Hfresh. rewrite Heq.
      by apply list_elem_of_fmap_2.
Qed.

Lemma find_absent_id (opts : list QuestionOption) (i : string) :
  i ∉ opt_id <$> opts →
  List.find (λ o', bool_decide (opt_id o' = i)) opts = None.
Proof.
  induction opts as [|o' opts IH]; intros Hni; [done|].
  simpl. rewrite fmap_cons, not_elem_of_cons in Hni.
  destruct Hni as [Hne Hni].
  rewrite bool_decide_eq_false_2; [by apply IH | done].
Qed.

Lemma first_flagged (opts : list QuestionOption) :
  match flagged_ids opts with x :: _ => x | [] => "" end
  = default "" (opt_id <$> List.find opt_is_correct opts).
Proof.
  unfold flagged_ids.
  induction opts as [|o opts IH]; [done|].
  simpl. by destruct (opt_is_correct o).
Qed.

Lemma single_choice_dispatch t :
  task_question_type t ∈ ["single_choice"; "单选题"] →
  calculate_question_score t
  = score_single_choice
      (default (task_question_type t) (type_mapping !! task_question_type t))
      (task_user_answer t) (task_options t).
Proof.
  intros Hty. unfold calculate_question_score, is_single_choice.
  by rewrite bool_decide_eq_true_2.
Qed.

Lemma find_first_id (pre : list QuestionOption) o post (i : string) :
  i ∉ opt_id <$> pre → opt_id o = i →
  List.find (λ o', bool_decide (opt_id o' = i)) (pre ++ o :: post) = Some o.
Proof.
  intros Hpre Hid. induction pre as [|p pre IH]; simpl.
  - by rewrite bool_decide_eq_true_2.
  - rewrite fmap_cons, not_elem_of_cons in Hpre. destruct Hpre as [Hne Hpre].
    rewrite bool_decide_eq_false_2 by done. by apply IH.
Qed.

End SingleChoice.

Section Strip.

Import PyStr.

Lemma drop_space_blank l :
  drop_space whitespace (byte 32 :: l) = Some l.
Proof. reflexivity. Qed.

Lemma drop_space_blank_rev l :
  drop_space ((λ p, rev p) <$> whitespace) (byte 32 :: l) = Some l.
Proof. reflexivity. Qed.

Lemma drop_space_graphic c l :
  graphic c → drop_space whitespace (c :: l) = None.
Proof.
  unfold graphic. intros Hc.
  destruct c as [[] [] [] [] [] [] [] []];
    try reflexivity; exfalso; vm_compute in Hc; lia.
Qed.

Lemma drop_space_graphic_rev c l :
  graphic c → drop_space ((λ p, rev p) <$> whitespace) (c :: l) = None.
Proof.
  unfold graphic. intros Hc.
  destruct c as [[] [] [] [] [] [] [] []];
    try reflexivity; exfalso; vm_compute in Hc; lia.
Qed.

Lemma lstrip_with_blanks ws n c l fuel :
  (∀ l', drop_space ws (byte 32 :: l') = Some l') →
  drop_space ws (c :: l) = None →
  (n < fuel)%nat →
  lstrip_with ws fuel (blanks n ++ c :: l) = c :: l.
Proof.
  intros Hb Hc. revert fuel.
  induction n as [|n IH]; intros fuel Hf.
  - destruct fuel as [|fuel]; [lia|]. simpl. by rewrite Hc.
  - destruct fuel as [|fuel]; [lia|].
    change (blanks (S n) ++ c :: l) with (byte 32 :: (blanks n ++ c :: l)).
    cbn [lstrip_with]. rewrite Hb. apply IH. lia.
Qed.

Lemma rev_blanks n : rev (blanks n) = blanks n.
Proof.
  unfold blanks. induction n as [|n IH]; [done|].
  simpl. rewrite IH. clear IH.
  induction n as [|n IH]; [done|]. simpl. by rewrite IH.
Qed.

(** [(' ' * n + core + ' ' * m).strip() == core] *)
Lemma strip_padded n m core :
  graphic_ends core → strip (padded n m core) = core.
Proof.
  intros [(c & Hc & Hgc) (d & Hd & Hgd)].
  unfold strip, padded, bytes, of_bytes.
  rewrite String.list_ascii_of_string_of_list_ascii.
  fold (bytes core).
  destruct (bytes core) as [|c' rest] eqn:Hcore; [done|].
  injection Hc as ->.
  unfold lstrip_bytes.
  rewrite (lstrip_with_blanks whitespace n c (rest ++ blanks m));
    [|exact drop_space_blank|by apply drop_space_graphic|
     unfold blanks; rewrite length_app, length_replicate; simpl; lia].
  unfold rstrip_bytes.
  change (c :: rest ++ blanks m) with ((c :: rest) ++ blanks m).
  rewrite rev_app_distr, rev_blanks.
  destruct (rev (c :: rest)) as [|d' rest'] eqn:Hrev.
  { apply (f_equal length) in Hrev. rewrite length_rev in Hrev. done. }
  assert (d' = d) as ->.
  { rewrite <- (rev_involutive (c :: rest)), Hrev in Hd.
    simpl in Hd. rewrite last_snoc in Hd. by injection Hd. }
  rewrite (lstrip_with_blanks _ m d rest');
    [|exact drop_space_blank_rev|by apply drop_space_graphic_rev|
     rewrite ?length_rev, ?length_app; unfold blanks;
     rewrite ?length_replicate; simpl; lia].
  rewrite <- Hrev, rev_involutive, <- Hcore.
  apply String.string_of_list_ascii_of_string.
Qed.

End Strip.

(** C5, as stated, fails: when two options carry the chosen id and only
    the second is flagged correct, the answer names an option flagged
    correct, for which the statement promises 10, yet the loop stops at
    the first option with that id and the score is 0 while the reported
    correct answer is the very id chosen. *)
Lemma duplicate_option_id_scores_first :
  ¬ single_choice_rules_as_stated duplicate_id_task
  ∧ score (calculate_question_score duplicate_id_task) = 0
  ∧ correct_answer (calculate_question_score duplicate_id_task)
    = CorrectStr "A".
Proof.
  split; [|by vm_compute].
  intros (H & _).
  destruct (H (opt "A" true)) as [Hscore _].
  - set_solver.
  - by vm_compute.
  - reflexivity.
  - vm_compute in Hscore. discriminate Hscore.
Qed.

(** C5 (amended): for a single-choice question, with [chosen] the first
    element of a list answer (the empty string for an empty list) or
    else the stripped string form of the answer, the first option in
    order that carries the chosen id decides: the answer is correct
    exactly when that option is flagged, the score is 10 then and 0
    otherwise, and the explanation is that option's.  When the option
    ids are distinct this is the option chosen: a flagged one gives 10
    and [true], any other existing one 0 and [false].  An id naming no
    option gives 0, [false] and the format-error explanation.  The
    reported correct answer is the id of the first flagged option, or
    the empty string when none is flagged.  Blanks around a string answer
    that begins and ends with a graphic character do not count. *)
Theorem single_choice_scoring (t : AnalysisTask) :
  task_question_type t ∈ ["single_choice"; "单选题"] →
  let chosen := match task_user_answer t with
                | AnsList l => default "" (head l)
                | AnsStr s => PyStr.strip s
                | AnsOther repr => PyStr.strip repr
                end in
  let r := calculate_question_score t in
  (∀ pre o post, task_options t = pre ++ o :: post →
     chosen ∉ opt_id <$> pre → opt_id o = chosen →
     is_correct r = opt_is_correct o
     ∧ score r = (if opt_is_correct o then 10 else 0)
     ∧ explanation r = opt_explanation o)
  ∧ (NoDup (opt_id <$> task_options t) →
     ∀ o, o ∈ task_options t → opt_id o = chosen →
       (opt_is_correct o = true → score r = 10 ∧ is_correct r = true)
       ∧ (opt_is_correct o = false → score r = 0 ∧ is_correct r = false))
  ∧ (chosen ∉ opt_id <$> task_options t →
     score r = 0 ∧ is_correct r = false
     ∧ explanation r = Some "答案格式错误")
  ∧ correct_answer r
    = CorrectStr
        (default "" (opt_id <$> List.find opt_is_correct (task_options t)))
  ∧ (∀ n m core, graphic_ends core →
       task_user_answer t = AnsStr (padded n m core) → chosen = core).
Proof.
  intros Hty chosen r. subst r.
  rewrite (single_choice_dispatch t Hty). unfold score_single_choice.
  assert (single_choice_answer (task_user_answer t) = chosen) as ->.
  { subst chosen. destruct (task_user_answer t) as [s|[|x l]|repr]; done. }
  rewrite first_flagged.
  split; [|split; [|split; [|split]]].
  - intros pre o post Hopts Hpre Hid.
    rewrite Hopts, (find_first_id pre o post chosen Hpre Hid). cbn.
    by destruct (opt_is_correct o).
  - intros Hnd o Hin Hid. rewrite <- Hid.
    rewrite (find_unique_id _ o Hnd Hin). cbn.
    split; by intros ->.
  - intros Habs. by rewrite (find_absent_id _ _ Habs).
  - by destruct (List.find _ (task_options t)).
  - intros n m core Hcore Hans. subst chosen. rewrite Hans.
    by apply strip_padded.
Qed.

Lemma single_choice_scoring_witness :
  task_question_type padded_task ∈ ["single_choice"; "单选题"]
  ∧ score (calculate_question_score padded_task) = 10
  ∧ is_correct (calculate_question_score padded_task) = true.
Proof.
  assert (task_question_type padded_task ∈ ["single_choice"; "单选题"])
    as Hty by (vm_compute; left).
  split; [exact Hty|].
  destruct (proj1 (single_choice_scoring padded_task Hty)
              [opt "A" false; opt "B" false] (opt "C" true) [opt "D" false])
    as (Hc & Hs & _).
  - reflexivity.
  - vm_compute. set_solver.
  - vm_compute. reflexivity.
  - split; [exact Hs | exact Hc].
Defined.

(** ** Aggregate banding *)

Section Banding.

Lemma analyse_tasks_total explanations tasks results total correct :
  (foldl (analyse_task explanations) (results, total, correct) tasks).1.2
  = total + raw_score_sum tasks.
Proof.
  revert results total correct.
  induction tasks as [|task tasks IH]; intros results total correct.
  - simpl. lia.
  - simpl. rewrite IH. simpl. lia.
Qed.

Lemma process_total_score items tasks :
  total_score (process_ai_analysis_results items tasks) = raw_score_sum tasks.
Proof.
  unfold process_ai_analysis_results.
  pose proof (analyse_tasks_total (explanation_map items) tasks [] 0 0%nat) as H.
  destruct (foldl _ _ tasks) as [[results total] correct].
  simpl in *. lia.
Qed.

Lemma process_overall_feedback items tasks :
  overall_feedback (process_ai_analysis_results items tasks)
  = overall_feedback_for (total_score (process_ai_analysis_results items tasks)).
Proof.
  unfold process_ai_analysis_results.
  by destruct (foldl _ _ tasks) as [[results total] correct].
Qed.

Lemma analyse_tasks_correct explanations tasks results total correct :
  (foldl (analyse_task explanations) (results, total, correct) tasks).2
  = (correct + raw_correct_count tasks)%nat.
Proof.
  revert results total correct. unfold raw_correct_count.
  induction tasks as [|task tasks IH]; intros results total correct.
  - simpl. lia.
  - simpl. rewrite IH.
    destruct (is_correct (calculate_question_score task)); simpl; lia.
Qed.

Lemma process_correct_count items tasks :
  correct_count (process_ai_analysis_results items tasks)
  = raw_correct_count tasks.
Proof.
  unfold process_ai_analysis_results.
  pose proof (analyse_tasks_correct (explanation_map items) tasks [] 0 0%nat) as H.
  destruct (foldl _ _ tasks) as [[results total] correct].
  simpl in *. lia.
Qed.

Lemma process_total_count items tasks :
  total_count (process_ai_analysis_results items tasks) = length tasks.
Proof.
  unfold process_ai_analysis_results.
  by destruct (foldl _ _ tasks) as [[results total] correct].
Qed.

Lemma band_ranges (total : Z) :
  (90 ≤ total → overall_feedback_for total = feedback_90)
  ∧ (80 ≤ total < 90 → overall_feedback_for total = feedback_80)
  ∧ (70 ≤ total < 80 → overall_feedback_for total = feedback_70)
  ∧ (60 ≤ total < 70 → overall_feedback_for total = feedback_60)
  ∧ (total < 60 → overall_feedback_for total = feedback_low).
Proof.
  unfold overall_feedback_for.
  repeat split; intros; repeat case_bool_decide; try lia; reflexivity.
Qed.

Lemma band_among_five (total : Z) : overall_feedback_for total ∈ five_bands.
Proof.
  unfold overall_feedback_for, five_bands.
  repeat case_bool_decide; set_solver.
Qed.

End Banding.

(** C4: the feedback band is a function of the raw sum of per-question
    scores, compared with 90, 80, 70 and 60 in descending order; the
    strings it can yield are exactly five distinct ones; and the
    two-question paper scored 10 + 5 = 15, with both questions counted
    correct, lands in the lowest band. *)
Theorem overall_feedback_banding :
  (∀ items tasks,
      let r := process_ai_analysis_results items tasks in
      total_score r = raw_score_sum tasks
      ∧ overall_feedback r = overall_feedback_for (raw_score_sum tasks))
  ∧ (∀ total : Z,
        (90 ≤ total → overall_feedback_for total = feedback_90)
        ∧ (80 ≤ total < 90 → overall_feedback_for total = feedback_80)
        ∧ (70 ≤ total < 80 → overall_feedback_for total = feedback_70)
        ∧ (60 ≤ total < 70 → overall_feedback_for total = feedback_60)
        ∧ (total < 60 → overall_feedback_for total = feedback_low))
  ∧ (NoDup five_bands
     ∧ ∀ s, s ∈ five_bands ↔ ∃ total, overall_feedback_for total = s)
  ∧ (∀ items,
        let r := process_ai_analysis_results items example_tasks in
        (qa_score <$> analysis_results r) = [10; 5]
        ∧ total_score r = 15
        ∧ correct_count r = 2%nat
        ∧ total_count r = 2%nat
        ∧ overall_feedback r = feedback_low).
Proof.
  split; [|split; [|split]].
  - intros items tasks r. subst r.
    by rewrite process_overall_feedback, process_total_score.
  - apply band_ranges.
  - split; [compute_done|].
    intros s. split.
    + unfold five_bands. rewrite !elem_of_cons, elem_of_nil.
      intros [->|[->|[->|[->|[->|[]]]]]];
        [exists 90|exists 80|exists 70|exists 60|exists 0]; reflexivity.
    + intros [total <-]. apply band_among_five.
  - intros items r. subst r.
    rewrite process_overall_feedback, process_total_score,
      process_correct_count, process_total_count.
    split; [|by vm_compute].
    unfold process_ai_analysis_results. reflexivity.
Qed.

Lemma overall_feedback_banding_witness :
  80 ≤ 85 < 90 ∧ overall_feedback_for 85 = feedback_80.
Proof.
  assert (80 ≤ 85 < 90) as H by lia.
  split; [exact H|].
  exact (proj1 (proj2 (proj1 (proj2 overall_feedback_banding) 85)) H).
Defined.

(** ** Access-code format check *)

Section AccessCodeFormat.

Lemma allowed_chars_spec (c : Ascii.ascii) :
  c ∈ AccessCode.allowed_chars ↔ is_upper_or_digit c.
Proof.
  unfold is_upper_or_digit. cbv zeta.
  destruct c as [[] [] [] [] [] [] [] []]; compute_done.
Qed.

Lemma forallb_allowed (l : list Ascii.ascii) :
  forallb (λ c, bool_decide (c ∈ AccessCode.allowed_chars)) l = true
  ↔ Forall is_upper_or_digit l.
Proof.
  rewrite forallb_forall, Forall_forall.
  split; intros H c Hc.
  - apply allowed_chars_spec. apply list_elem_of_In in Hc.
    specialize (H c Hc). by apply bool_decide_eq_true in H.
  - apply bool_decide_eq_true. apply allowed_chars_spec.
    apply H. by apply list_elem_of_In.
Qed.

End AccessCodeFormat.

(** C9, as stated, fails: the check accepts the code AB01, whose
    characters 0 and 1 are not in the generation alphabet. *)
Lemma ambiguous_characters_accepted : ¬ access_code_rule_as_stated "AB01".
Proof.
  intros [H _].
  assert (AccessCode.validate_access_code "AB01" = true) as Hv
    by (vm_compute; reflexivity).
  destruct (H Hv) as [_ Hall].
  revert Hall. compute_done.
Qed.

(** C9 (amended): the check returns true exactly when the code has 4 to
    10 characters and each is an uppercase ASCII letter or a decimal
    digit; this includes 0, O, I and 1, which generation never emits. *)
Theorem validate_access_code_spec :
  (∀ code,
      AccessCode.validate_access_code code = true
      ↔ (4 ≤ AccessCode.len code ≤ 10)%nat
        ∧ Forall is_upper_or_digit (PyStr.bytes code))
  ∧ AccessCode.validate_access_code "O0I1" = true
  ∧ Forall (λ c, c ∉ PyStr.bytes AccessCode.chars) (PyStr.bytes "O0I1")
  ∧ Forall is_upper_or_digit (PyStr.bytes AccessCode.chars).
Proof.
  split; [|split; [by vm_compute|split]].
  - intros code. unfold AccessCode.validate_access_code.
    destruct code as [|c code].
    + simpl. split; [done|]. intros [H _]. vm_compute in H. lia.
    + cbn [PyStr.truthy negb].
      destruct (Nat.ltb_spec (AccessCode.len (String c code)) 4) as [Hlo|Hlo].
      { simpl. split; [done|]. intros [? _]. lia. }
      destruct (Nat.ltb_spec 10 (AccessCode.len (String c code))) as [Hhi|Hhi].
      { simpl. split; [done|]. intros [? _]. lia. }
      cbn [orb]. rewrite forallb_allowed. split.
      * intros H. split; [lia | done].
      * by intros [_ H].
  - compute_done.
  - apply forallb_allowed. by vm_compute.
Qed.

(** ** Answer hiding on the read paths *)

Section AnswerHiding.

Lemma find_fmap {A B} (f : B → bool) (g : A → B) (l : list A) :
  List.find f (g <$> l) = g <$> List.find (λ x, f (g x)) l.
Proof.
  induction l as [|x l IH]; [done|].
  simpl. by destruct (f (g x)).
Qed.

Lemma hide_scrub_question q : hide_question (scrub_question q) = hide_question q.
Proof.
  unfold hide_question, scrub_question. cbn. f_equal.
  rewrite <- list_fmap_compose. by apply list_fmap_ext.
Qed.

Lemma hide_scrub qs :
  hide_correct_answers (scrub_question <$> qs) = hide_correct_answers qs.
Proof.
  unfold hide_correct_answers. rewrite <- list_fmap_compose.
  apply list_fmap_ext. intros ? q _. apply hide_scrub_question.
Qed.

Lemma dao_get_paper_by_id_scrub w pid :
  PaperDao.get_paper_by_id (scrub_world w) pid
  = scrub_paper <$> PaperDao.get_paper_by_id w pid.
Proof. unfold PaperDao.get_paper_by_id. cbn. by rewrite find_fmap. Qed.

Lemma dao_get_paper_by_access_code_scrub w code :
  PaperDao.get_paper_by_access_code (scrub_world w) code
  = scrub_paper <$> PaperDao.get_paper_by_access_code w code.
Proof. unfold PaperDao.get_paper_by_access_code. cbn. by rewrite find_fmap. Qed.

(** The view depends on the world only through its scrubbed form. *)
Lemma get_paper_by_id_scrub w pid :
  (SharedPaperService.get_paper_by_id (scrub_world w) pid).1
  = (SharedPaperService.get_paper_by_id w pid).1.
Proof.
  unfold SharedPaperService.get_paper_by_id, Redis.get_shared_paper,
    PaperDao.get_paper_questions.
  rewrite dao_get_paper_by_id_scrub.
  cbn [redis_papers scrub_world]. rewrite lookup_fmap.
  destruct (redis_papers w !! pid) as [c|]; cbn.
  { by rewrite hide_scrub. }
  destruct (PaperDao.get_paper_by_id w pid) as [p|]; cbn; [|done].
  destruct (bool_decide (paper_status p = "active")); cbn; [|done].
  destruct (paper_questions p) as [[|q qs]|]; cbn; [done| |done].
  by rewrite hide_scrub_question, hide_scrub.
Qed.

Lemma get_paper_by_access_code_scrub w code :
  (SharedPaperService.get_paper_by_access_code (scrub_world w) code).1
  = (SharedPaperService.get_paper_by_access_code w code).1.
Proof.
  unfold SharedPaperService.get_paper_by_access_code,
    Redis.get_paper_id_by_access_code.
  rewrite dao_get_paper_by_access_code_scrub.
  cbn [redis_codes scrub_world].
  destruct (redis_codes w !! code) as [pid|].
  - destruct (PyStr.truthy pid); [apply get_paper_by_id_scrub|].
    destruct (PaperDao.get_paper_by_access_code w code) as [p|]; cbn; [|done].
    destruct (bool_decide (paper_status p = "active")); cbn; [|done].
    apply get_paper_by_id_scrub.
  - destruct (PaperDao.get_paper_by_access_code w code) as [p|]; cbn; [|done].
    destruct (bool_decide (paper_status p = "active")); cbn; [|done].
    apply get_paper_by_id_scrub.
Qed.

End AnswerHiding.

(** C3: on every read path of get_paper (cache hit, or durable fallback
    that re-seeds the cache; by paper id or by access code) the returned
    view is the same for two worlds that differ only in options'
    [is_correct] and [explanation] fields: nothing of those fields is
    exposed.  Each option of the view is an [OptionView], which has an id
    and a text and nothing else. *)
Theorem get_paper_hides_answers (w1 w2 : World) :
  same_apart_from_answers w1 w2 →
  (∀ pid,
      (SharedPaperService.get_paper_by_id w1 pid).1
      = (SharedPaperService.get_paper_by_id w2 pid).1)
  ∧ (∀ code,
        (SharedPaperService.get_paper_by_access_code w1 code).1
        = (SharedPaperService.get_paper_by_access_code w2 code).1).
Proof.
  unfold same_apart_from_answers. intros Heq. split.
  - intros pid.
    rewrite <- (get_paper_by_id_scrub w1), <- (get_paper_by_id_scrub w2).
    by rewrite Heq.
  - intros code.
    rewrite <- (get_paper_by_access_code_scrub w1),
      <- (get_paper_by_access_code_scrub w2).
    by rewrite Heq.
Qed.

Lemma get_paper_hides_answers_witness :
  same_apart_from_answers published_world other_published_world
  ∧ published_world ≠ other_published_world
  ∧ (SharedPaperService.get_paper_by_id published_world sample_id).1
    = (SharedPaperService.get_paper_by_id other_published_world sample_id).1.
Proof.
  assert (same_apart_from_answers published_world other_published_world) as H
    by (vm_compute; reflexivity).
  split; [exact H|]. split.
  - intros Heq. apply (f_equal db_papers) in Heq. vm_compute in Heq.
    discriminate Heq.
  - exact (proj1 (get_paper_hides_answers _ _ H) sample_id).
Defined.

(** ** Status filtering on the read paths *)

(** Without a cache entry, a paper whose durable status is not active is
    not served. *)
Lemma get_paper_by_id_uncached_inactive w pid p :
  Redis.get_shared_paper w pid = None →
  PaperDao.get_paper_by_id w pid = Some p →
  paper_status p ≠ "active" →
  SharedPaperService.get_paper_by_id w pid = (None, w).
Proof.
  intros Hc Hp Hs. unfold SharedPaperService.get_paper_by_id.
  rewrite Hc, Hp. by rewrite bool_decide_eq_false_2.
Qed.

(** C6 fails on the cache-hit path: the paper generated into an empty
    system and then set inactive in the durable store is still served,
    by id and by access code, because the cache branch of
    [get_paper_by_id] returns before any status test; only once the
    cache entry is gone does the durable branch refuse it. *)
Theorem inactive_cached_paper_is_served :
  paper_status <$> PaperDao.get_paper_by_id retired_world sample_id
  = Some "inactive"
  ∧ is_Some (SharedPaperService.get_paper_by_id retired_world sample_id).1
  ∧ is_Some
      (SharedPaperService.get_paper_by_access_code retired_world sample_code).1
  ∧ (SharedPaperService.get_paper_by_id archived_world sample_id).1 = None
  ∧ (SharedPaperService.get_paper_by_access_code archived_world sample_code).1
    = None.
Proof.
  split; [by vm_compute|].
  split; [vm_compute; eauto|].
  split; [vm_compute; eauto|].
  split; by vm_compute.
Qed.

(** ** Submission *)

(** C2 fails: when the explanation generator fails, [analyze_paper_answers]
    returns nothing, and [submit_answers] raises whatever the world, paper
    and answers are; the world is left as it was, so nothing is scored or
    stored and no receipt is returned. *)
Theorem generator_failure_aborts_submit :
  (∀ w pid uid answers,
      ∃ e, SharedPaperService.submit_answers w pid uid answers LlmFails
           = Raised e w)
  ∧ SharedPaperService.submit_answers published_world sample_id "u1"
      example_answers LlmFails
    = Raised (AttributeError "'NoneType' object has no attribute 'get'")
        published_world.
Proof.
  split; [|by vm_compute].
  intros w pid uid answers. unfold SharedPaperService.submit_answers.
  destruct (SharedPaperService.resolve_questions w pid) as [e|qs]; [by eexists|].
  destruct (build_analysis_tasks_from_cache qs answers) as [e|tasks];
    [by eexists|].
  cbn. by eexists.
Qed.

Section StatusBlind.

Lemma questions_update_first pid pid0 status l :
  match List.find (λ p, bool_decide (paper_id p = pid))
          (PaperDao.update_first pid0 (PaperDao.set_status status) l) with
  | Some paper => paper_questions paper
  | None => None
  end
  = match List.find (λ p, bool_decide (paper_id p = pid)) l with
    | Some paper => paper_questions paper
    | None => None
    end.
Proof.
  induction l as [|p l IH]; [done|].
  cbn [PaperDao.update_first]. case_bool_decide as H0.
  - cbn [List.find PaperDao.set_status paper_id].
    by destruct (bool_decide (paper_id p = pid)).
  - cbn [List.find]. by destruct (bool_decide (paper_id p = pid)).
Qed.

Lemma resolve_questions_status w pid pid0 status :
  SharedPaperService.resolve_questions
    (PaperDao.update_paper_status w pid0 status).2 pid
  = SharedPaperService.resolve_questions w pid.
Proof.
  unfold PaperDao.update_paper_status.
  destruct (PaperDao.get_paper_by_id w pid0); [|done]. cbn [snd].
  unfold SharedPaperService.resolve_questions, PaperDao.get_paper_questions,
    PaperDao.get_paper_by_id.
  change (Redis.get_shared_paper (with_db_papers w ?l) pid)
    with (Redis.get_shared_paper w pid).
  change (db_papers (with_db_papers w ?l)) with l.
  by rewrite questions_update_first.
Qed.

Lemma store_submission_papers w ps pid uid answers result :
  SharedPaperService.store_submission (with_db_papers w ps) pid uid answers result
  = ((SharedPaperService.store_submission w pid uid answers result).1,
     with_db_papers
       (SharedPaperService.store_submission w pid uid answers result).2 ps).
Proof.
  unfold SharedPaperService.store_submission, UserAnswerDao.update_user_answer,
    UserAnswerDao.create_user_answer, UserAnswerDao.get_user_answer.
  change (db_user_answers (with_db_papers w ps)) with (db_user_answers w).
  destruct (List.find _ (db_user_answers w)); reflexivity.
Qed.

End StatusBlind.

(** C7 fails for papers that are not active: [submit_answers] never reads
    a paper's status.  Setting the status of the paper to any value
    changes neither the receipt nor the records a submission writes, nor
    the error it raises.  So the example paper, made inactive, still takes
    a submission, whether its cache entry is still there or not, and a
    durable row and a cache entry are written, where the statement
    promises a failure.  Nor is the first half of the statement whole: a
    paper deleted from the durable store takes a submission for as long
    as its cache entry lives.  What does hold is that a paper in neither
    tier is refused with the not-found error and nothing is written. *)
Theorem submit_ignores_paper_status :
  (∀ w pid uid answers reply status,
     let w_s := (PaperDao.update_paper_status w pid status).2 in
     match SharedPaperService.submit_answers w pid uid answers reply with
     | Returned rc w' =>
         ∃ w_s',
           SharedPaperService.submit_answers w_s pid uid answers reply
           = Returned rc w_s'
           ∧ db_user_answers w_s' = db_user_answers w'
           ∧ redis_answers w_s' = redis_answers w'
     | Raised e _ =>
         SharedPaperService.submit_answers w_s pid uid answers reply
         = Raised e w_s
     end)
  ∧ ¬ submit_guard_as_stated archived_world sample_id "u1" example_answers
        (LlmResults [])
  ∧ (paper_inactive archived_world sample_id
     ∧ Redis.get_shared_paper archived_world sample_id = None
     ∧ db_user_answers archived_world = []
     ∧ ∃ rc w',
         SharedPaperService.submit_answers archived_world sample_id "u1"
           example_answers (LlmResults []) = Returned rc w'
         ∧ length (rows_for sample_id "u1" (db_user_answers w')) = 1%nat
         ∧ is_Some (Redis.get_user_answer w' sample_id "u1"))
  ∧ (paper_inactive retired_world sample_id
     ∧ is_Some (Redis.get_shared_paper retired_world sample_id)
     ∧ ∃ rc w',
         SharedPaperService.submit_answers retired_world sample_id "u1"
           example_answers (LlmResults []) = Returned rc w'
         ∧ length (rows_for sample_id "u1" (db_user_answers w')) = 1%nat
         ∧ is_Some (Redis.get_user_answer w' sample_id "u1"))
  ∧ (PaperDao.get_paper_by_id deleted_world sample_id = None
     ∧ ∃ rc w',
         SharedPaperService.submit_answers deleted_world sample_id "u1"
           example_answers (LlmResults []) = Returned rc w'
         ∧ length (rows_for sample_id "u1" (db_user_answers w')) = 1%nat
         ∧ is_Some (Redis.get_user_answer w' sample_id "u1"))
  ∧ (∀ w pid uid answers reply,
       paper_absent w pid →
       SharedPaperService.submit_answers w pid uid answers reply
       = Raised (ValueError ("未找到试题 " +:+ pid)) w).
Proof.
  assert (paper_inactive archived_world sample_id) as Harchived.
  { eexists. split; [by vm_compute|]. intros Hs. discriminate Hs. }
  assert (paper_inactive retired_world sample_id) as Hretired.
  { eexists. split; [by vm_compute|]. intros Hs. discriminate Hs. }
  split; [|split; [|split; [|split; [|split]]]].
  - intros w pid uid answers reply status. cbv zeta.
    unfold SharedPaperService.submit_answers.
    rewrite resolve_questions_status.
    destruct (SharedPaperService.resolve_questions w pid) as [e|qs]; [done|].
    destruct (build_analysis_tasks_from_cache qs answers) as [e|tasks];
      [done|].
    destruct (analyze_paper_answers reply tasks) as [result|]; [|done].
    unfold PaperDao.update_paper_status.
    destruct (PaperDao.get_paper_by_id w pid); cbn [snd].
    + rewrite store_submission_papers.
      destruct (SharedPaperService.store_submission w pid uid answers result)
        as [rc w'].
      cbn [fst snd]. eexists. split; [reflexivity|]. by split.
    + destruct (SharedPaperService.store_submission w pid uid answers result)
        as [rc w'].
      eexists. split; [reflexivity|]. by split.
  - intros H. destruct H as (e & w' & Heq & _); [by right|].
    vm_compute in Heq. discriminate Heq.
  - split; [exact Harchived|]. split; [by vm_compute|]. split; [by vm_compute|].
    destruct (SharedPaperService.submit_answers archived_world sample_id "u1"
                example_answers (LlmResults [])) as [rc w'|e w'] eqn:Hsub;
      [|vm_compute in Hsub; discriminate Hsub].
    exists rc, w'. split; [done|].
    injection Hsub as _ <-. split; [by vm_compute|].
    apply (bool_decide_unpack _). by vm_compute.
  - split; [exact Hretired|].
    split; [apply (bool_decide_unpack _); by vm_compute|].
    destruct (SharedPaperService.submit_answers retired_world sample_id "u1"
                example_answers (LlmResults [])) as [rc w'|e w'] eqn:Hsub;
      [|vm_compute in Hsub; discriminate Hsub].
    exists rc, w'. split; [done|].
    injection Hsub as _ <-. split; [by vm_compute|].
    apply (bool_decide_unpack _). by vm_compute.
  - split; [by vm_compute|].
    destruct (SharedPaperService.submit_answers deleted_world sample_id "u1"
                example_answers (LlmResults [])) as [rc w'|e w'] eqn:Hsub;
      [|vm_compute in Hsub; discriminate Hsub].
    exists rc, w'. split; [done|].
    injection Hsub as _ <-. split; [by vm_compute|].
    apply (bool_decide_unpack _). by vm_compute.
  - intros w pid uid answers reply [Hc Hp].
    unfold SharedPaperService.submit_answers,
      SharedPaperService.resolve_questions, PaperDao.get_paper_questions.
    by rewrite Hc, Hp.
Qed.

(** ** Re-submission *)

Section Resubmission.

Import UserAnswerDao.

Implicit Types (rows : list UserAnswer) (d : AnswerData).

Lemma apply_update_key d p u r :
  is_key p u (apply_update d r) = is_key p u r.
Proof. reflexivity. Qed.




Lemma find_update_first pid uid d rows :
  List.find (is_key pid uid) (update_first pid uid (apply_update d) rows)
  = apply_update d <$> List.find (is_key pid uid) rows.
Proof.
  induction rows as [|r rows IH]; [done|].
  simpl. destruct (is_key pid uid r) eqn:Hk; simpl.
  - by rewrite apply_update_key, Hk.
  - by rewrite Hk.
Qed.

Lemma find_head_rows_for pid uid rows :
  List.find (is_key pid uid) rows = head (rows_for pid uid rows).
Proof.
  unfold rows_for.
  induction rows as [|r rows IH]; [done|].
  simpl. by destruct (is_key pid uid r).
Qed.

Lemma rows_for_app p u rows rows' :
  rows_for p u (rows ++ rows') = rows_for p u rows ++ rows_for p u rows'.
Proof. unfold rows_for. apply List.filter_app. Qed.

(** Each row after the update is the row before it, or that row with
    the six result columns replaced. *)
Lemma update_first_rows pid uid d rows :
  Forall2 (λ r r', r' = r ∨ r' = apply_update d r)
          rows (update_first pid uid (apply_update d) rows).
Proof.
  induction rows as [|r rows IH]; [constructor|].
  simpl. destruct (is_key pid uid r).
  - constructor; [by right|]. apply Forall2_same_length_lookup_2; [done|].
    intros i x y Hx Hy. left. congruence.
  - constructor; [by left | done].
Qed.

Lemma update_first_fixed_columns pid uid d rows :
  let rows' := update_first pid uid (apply_update d) rows in
  ua_id <$> rows' = ua_id <$> rows
  ∧ ua_paper_id <$> rows' = ua_paper_id <$> rows
  ∧ ua_user_id <$> rows' = ua_user_id <$> rows
  ∧ ua_submitted_at <$> rows' = ua_submitted_at <$> rows.
Proof.
  induction rows as [|r rows IH]; [done|].
  simpl. destruct (is_key pid uid r); [done|].
  simpl in IH. destruct IH as (H1 & H2 & H3 & H4).
  cbn. by rewrite H1, H2, H3, H4.
Qed.

(** What a successful submit did. *)
Lemma submit_returned w pid uid answers reply rc w' :
  SharedPaperService.submit_answers w pid uid answers reply = Returned rc w' →
  ∃ result,
    scored w pid answers reply = Some result
    ∧ SharedPaperService.store_submission w pid uid answers result = (rc, w').
Proof.
  unfold SharedPaperService.submit_answers, scored.
  destruct (SharedPaperService.resolve_questions w pid) as [e|qs]; [done|].
  destruct (build_analysis_tasks_from_cache qs answers) as [e|tasks]; [done|].
  destruct (analyze_paper_answers reply tasks) as [result|]; [|done].
  destruct (SharedPaperService.store_submission w pid uid answers result)
    as [rc0 w0] eqn:Hs.
  intros [= <- <-]. by exists result.
Qed.

(** The durable rows after storing a submission. *)
Lemma store_submission_rows w pid uid answers result :
  let d := SharedPaperService.answer_data_of pid uid answers result in
  db_user_answers
    (SharedPaperService.store_submission w pid uid answers result).2
  = match get_user_answer w pid uid with
    | Some _ => update_first pid uid (apply_update d) (db_user_answers w)
    | None => db_user_answers w ++ [(create_user_answer w d).1]
    end.
Proof.
  unfold SharedPaperService.store_submission, update_user_answer.
  destruct (get_user_answer w pid uid); reflexivity.
Qed.

Lemma store_submission_cache w pid uid answers result :
  let d := SharedPaperService.answer_data_of pid uid answers result in
  let w' := (SharedPaperService.store_submission w pid uid answers result).2 in
  Redis.get_user_answer w' pid uid
  = Some {| ca_data := d;
            ca_submitted_at :=
              match get_user_answer w pid uid with
              | Some _ => clock w
              | None => S (clock w)
              end |}.
Proof.
  unfold SharedPaperService.store_submission, update_user_answer,
    Redis.get_user_answer.
  destruct (get_user_answer w pid uid); cbn; by rewrite lookup_insert_eq.
Qed.

Lemma store_submission_clock w pid uid answers result :
  clock (SharedPaperService.store_submission w pid uid answers result).2
  = match get_user_answer w pid uid with
    | Some _ => S (S (clock w))
    | None => S (S (S (clock w)))
    end.
Proof.
  unfold SharedPaperService.store_submission, update_user_answer.
  destruct (get_user_answer w pid uid); reflexivity.
Qed.

Lemma created_row_key w d :
  is_key (ad_paper_id d) (ad_user_id d) (create_user_answer w d).1 = true.
Proof.
  unfold is_key. cbn. by rewrite !bool_decide_eq_true_2.
Qed.


End Resubmission.



(** C10: the durable update changes no column other than answers, score,
    correct_count, total_count, analysis_results and overall_feedback:
    every row is left as it was or has exactly those replaced, so id,
    paper_id, user_id and submitted_at are the same in every row and
    nothing else in the world moves.  On a re-submission through submit
    the durable row therefore keeps the submitted_at it had, while the
    cached copy is stamped with the clock reading of this call; after a
    first and a second submit the durable submitted_at is the first
    call's reading and the cached one is strictly later. *)
Theorem resubmission_keeps_submitted_at :
  (∀ w pid uid d,
      let w' := (UserAnswerDao.update_user_answer w pid uid d).2 in
      Forall2 (λ r r', r' = r ∨ r' = UserAnswerDao.apply_update d r)
              (db_user_answers w) (db_user_answers w')
      ∧ ua_id <$> db_user_answers w' = ua_id <$> db_user_answers w
      ∧ ua_paper_id <$> db_user_answers w' = ua_paper_id <$> db_user_answers w
      ∧ ua_user_id <$> db_user_answers w' = ua_user_id <$> db_user_answers w
      ∧ ua_submitted_at <$> db_user_answers w'
        = ua_submitted_at <$> db_user_answers w
      ∧ w' = with_db_user_answers w (db_user_answers w'))
  ∧ (∀ w pid uid answers reply rc w' old,
        UserAnswerDao.get_user_answer w pid uid = Some old →
        SharedPaperService.submit_answers w pid uid answers reply
        = Returned rc w' →
        ua_submitted_at <$> db_user_answers w'
        = ua_submitted_at <$> db_user_answers w
        ∧ (∃ new, UserAnswerDao.get_user_answer w' pid uid = Some new
                  ∧ ua_submitted_at new = ua_submitted_at old)
        ∧ (∃ c, Redis.get_user_answer w' pid uid = Some c
                ∧ ca_submitted_at c = clock w))
  ∧ (∀ w pid uid answers1 reply1 rc1 w1 answers2 reply2 rc2 w2,
        UserAnswerDao.get_user_answer w pid uid = None →
        SharedPaperService.submit_answers w pid uid answers1 reply1
        = Returned rc1 w1 →
        SharedPaperService.submit_answers w1 pid uid answers2 reply2
        = Returned rc2 w2 →
        ∃ row c,
          UserAnswerDao.get_user_answer w2 pid uid = Some row
          ∧ ua_submitted_at row = clock w
          ∧ Redis.get_user_answer w2 pid uid = Some c
          ∧ ca_submitted_at c = clock w1
          ∧ (ua_submitted_at row < ca_submitted_at c)%nat).
Proof.
  split; [|split].
  - intros w pid uid d w'. subst w'. unfold UserAnswerDao.update_user_answer.
    destruct (UserAnswerDao.get_user_answer w pid uid); cbn.
    + pose proof (update_first_fixed_columns pid uid d (db_user_answers w))
        as (H1 & H2 & H3 & H4).
      split; [apply update_first_rows|]. by repeat split.
    + split; [|by destruct w].
      apply Forall2_same_length_lookup_2; [done|].
      intros i x y Hx Hy. left. congruence.
  - intros w pid uid answers reply rc w' old Hold Hsub.
    destruct (submit_returned _ _ _ _ _ _ _ Hsub) as (result & _ & Hstore).
    pose proof (store_submission_rows w pid uid answers result) as Hrows.
    pose proof (store_submission_cache w pid uid answers result) as Hcache.
    rewrite Hstore in Hrows, Hcache. cbv zeta in Hrows, Hcache.
    rewrite Hold in Hrows, Hcache. cbn [snd] in Hrows, Hcache.
    split; [|split].
    + rewrite Hrows. apply update_first_fixed_columns.
    + unfold UserAnswerDao.get_user_answer in *.
      rewrite Hrows, find_update_first, Hold. by eexists.
    + by eexists.
  - intros w pid uid answers1 reply1 rc1 w1 answers2 reply2 rc2 w2
      Hnone Hsub1 Hsub2.
    destruct (submit_returned _ _ _ _ _ _ _ Hsub1) as (result1 & _ & Hstore1).
    destruct (submit_returned _ _ _ _ _ _ _ Hsub2) as (result2 & _ & Hstore2).
    pose proof (store_submission_rows w pid uid answers1 result1) as Hrows1.
    pose proof (store_submission_clock w pid uid answers1 result1) as Hclock1.
    rewrite Hstore1 in Hrows1, Hclock1. cbv zeta in Hrows1.
    rewrite Hnone in Hrows1, Hclock1. cbn [snd] in Hrows1, Hclock1.
    set (row1 := (UserAnswerDao.create_user_answer w
                    (SharedPaperService.answer_data_of pid uid answers1
                       result1)).1) in *.
    assert (UserAnswerDao.get_user_answer w1 pid uid = Some row1) as Hget1.
    { unfold UserAnswerDao.get_user_answer in *. rewrite Hrows1.
      rewrite find_head_rows_for, rows_for_app.
      rewrite find_head_rows_for in Hnone.
      destruct (rows_for pid uid (db_user_answers w)); [|done].
      pose proof (created_row_key w
        (SharedPaperService.answer_data_of pid uid answers1 result1)) as Hk.
      cbn [ad_paper_id ad_user_id SharedPaperService.answer_data_of] in Hk.
      fold row1 in Hk. unfold rows_for. cbn [List.filter app].
      by rewrite Hk. }
    pose proof (store_submission_rows w1 pid uid answers2 result2) as Hrows2.
    pose proof (store_submission_cache w1 pid uid answers2 result2) as Hcache2.
    rewrite Hstore2 in Hrows2, Hcache2. cbv zeta in Hrows2, Hcache2.
    rewrite Hget1 in Hrows2, Hcache2. cbn [snd] in Hrows2, Hcache2.
    eexists. eexists. split; [|split; [|split; [exact Hcache2|]]].
    + unfold UserAnswerDao.get_user_answer in *.
      rewrite Hrows2, find_update_first, Hget1. reflexivity.
    + reflexivity.
    + cbn. split; [reflexivity|]. rewrite Hclock1. lia.
Qed.

Lemma resubmission_keeps_submitted_at_witness :
  (ua_submitted_at <$> db_user_answers resubmitted_world)
  = (ua_submitted_at <$> db_user_answers submitted_world)
  ∧ (ca_submitted_at <$> Redis.get_user_answer resubmitted_world sample_id "u1")
    = Some (clock submitted_world).
Proof.
  assert (SharedPaperService.submit_answers submitted_world sample_id "u1"
            second_answers (LlmResults [])
          = Returned {| rc_paper_id := sample_id; rc_user_id := "u1";
                        rc_submitted_at := 7%nat |} resubmitted_world)
    as Hsub by (vm_compute; reflexivity).
  destruct (UserAnswerDao.get_user_answer submitted_world sample_id "u1")
    as [old|] eqn:Hold; [|vm_compute in Hold; discriminate Hold].
  destruct (proj1 (proj2 resubmission_keeps_submitted_at)
              _ _ _ _ _ _ _ old Hold Hsub) as (Hcol & _ & (c & Hc & Hat)).
  split; [exact Hcol|]. rewrite Hc. cbn. by rewrite Hat.
Defined.

(** * Further properties *)

(** ** Question-type labels *)

Section TypeLabels.

Lemma type_mapping_convert (t : string) :
  default t (type_mapping !! t) = convert_question_type_to_chinese t.
Proof.
  unfold convert_question_type_to_chinese.
  destruct (decide (t ∈ ["single_choice"; "multiple_choice"; "true_false";
                         "fill_blank"; "单选题"; "多选题"; "判断题"; "填空题"]))
    as [Hin|Hout].
  - set_unfold.
    destruct Hin as [->|[->|[->|[->|[->|[->|[->|[->|[]]]]]]]]];
      vm_compute; reflexivity.
  - assert (type_mapping !! t = None) as ->.
    { apply not_elem_of_list_to_map_1. cbn. set_solver. }
    assert (chinese_labels !! t = None) as ->; [|done].
    apply not_elem_of_list_to_map_1. cbn. set_solver.
Qed.

Lemma convert_cases (t : string) :
  (t = "single_choice" ∧ convert_question_type_to_chinese t = "单选题")
  ∨ (t = "multiple_choice" ∧ convert_question_type_to_chinese t = "多选题")
  ∨ (t = "true_false" ∧ convert_question_type_to_chinese t = "判断题")
  ∨ (t = "fill_blank" ∧ convert_question_type_to_chinese t = "填空题")
  ∨ ((t ∉ ["single_choice"; "multiple_choice"; "true_false"; "fill_blank"])
     ∧ convert_question_type_to_chinese t = t).
Proof.
  unfold convert_question_type_to_chinese.
  destruct (decide (t ∈ ["single_choice"; "multiple_choice"; "true_false";
                         "fill_blank"])) as [Hin|Hout].
  - set_unfold.
    destruct Hin as [->|[->|[->|[->|[]]]]]; vm_compute; tauto.
  - assert (chinese_labels !! t = None) as ->.
    { apply not_elem_of_list_to_map_1. cbn. set_solver. }
    repeat right. done.
Qed.

Lemma is_single_choice_convert t :
  is_single_choice (convert_question_type_to_chinese t) = is_single_choice t.
Proof.
  destruct (convert_cases t) as [[-> ->]|[[-> ->]|[[-> ->]|[[-> ->]|[_ ->]]]]];
    reflexivity.
Qed.

Lemma is_multiple_choice_convert t :
  is_multiple_choice (convert_question_type_to_chinese t) = is_multiple_choice t.
Proof.
  destruct (convert_cases t) as [[-> ->]|[[-> ->]|[[-> ->]|[[-> ->]|[_ ->]]]]];
    reflexivity.
Qed.

Lemma convert_idempotent t :
  convert_question_type_to_chinese (convert_question_type_to_chinese t)
  = convert_question_type_to_chinese t.
Proof.
  destruct (convert_cases t) as [[-> ->]|[[-> ->]|[[-> ->]|[[-> ->]|[_ H]]]]];
    try reflexivity.
  by rewrite !H.
Qed.

End TypeLabels.

(** X1: the label the scoring reports for a question is the one
    [convert_question_type_to_chinese] gives, for every type string;
    the conversion is idempotent; and a question scores the same before
    and after its type is converted, as the question generator does
    before a paper is stored. *)
Theorem scoring_commutes_with_type_conversion (t : AnalysisTask) :
  chinese_type (calculate_question_score t)
  = convert_question_type_to_chinese (task_question_type t)
  ∧ convert_question_type_to_chinese
      (convert_question_type_to_chinese (task_question_type t))
    = convert_question_type_to_chinese (task_question_type t)
  ∧ calculate_question_score
      (with_task_type t (convert_question_type_to_chinese (task_question_type t)))
    = calculate_question_score t.
Proof.
  split; [|split; [apply convert_idempotent|]].
  - unfold calculate_question_score. rewrite type_mapping_convert.
    destruct (is_single_choice _).
    + unfold score_single_choice. by destruct (List.find _ _).
    + by destruct (is_multiple_choice _).
  - unfold calculate_question_score. cbn [with_task_type task_question_type
      task_user_answer task_options].
    rewrite is_single_choice_convert, is_multiple_choice_convert.
    by rewrite !type_mapping_convert, convert_idempotent.
Qed.

(** ** Score values *)

Section ScoreValues.

Lemma unknown_type_dispatch t :
  task_question_type t ∉ scored_labels →
  calculate_question_score t
  = score_unknown_type
      (convert_question_type_to_chinese (task_question_type t))
      (task_options t).
Proof.
  intros Hout. unfold calculate_question_score.
  rewrite type_mapping_convert. unfold scored_labels in Hout.
  unfold is_single_choice, is_multiple_choice.
  rewrite !bool_decide_eq_false_2; [done| |]; set_solver.
Qed.

Lemma score_cases t :
  let r := calculate_question_score t in
  (score r = 0 ∧ is_correct r = false)
  ∨ (score r = 5 ∧ is_correct r = true
     ∧ is_multiple_choice (task_question_type t) = true)
  ∨ (score r = 10 ∧ is_correct r = true).
Proof.
  cbv zeta. unfold calculate_question_score.
  destruct (is_single_choice _).
  - unfold score_single_choice.
    destruct (List.find _ _) as [o|]; cbn; [|by left].
    destruct (opt_is_correct o); [by repeat right | by left].
  - destruct (is_multiple_choice _); [|by left].
    unfold score_multiple_choice, multiple_choice_verdict. cbn.
    destruct (bool_decide (0 < _)%nat); [by left|].
    destruct (_ && _); [by repeat right|].
    destruct (bool_decide (0 < _)%nat); [by right; left | by left].
Qed.

Lemma raw_score_sum_bounds tasks :
  5 * Z.of_nat (raw_correct_count tasks) ≤ raw_score_sum tasks
  ∧ raw_score_sum tasks ≤ 10 * Z.of_nat (raw_correct_count tasks)
  ∧ (raw_correct_count tasks ≤ length tasks)%nat
  ∧ (raw_score_sum tasks `mod` 5 = 0).
Proof.
  unfold raw_correct_count, raw_score_sum.
  induction tasks as [|t tasks IH]; [by cbn|].
  cbn [foldr List.filter length].
  destruct IH as (H1 & H2 & H3 & H4).
  apply Z.mod_divide in H4 as [k Hk]; [|done].
  destruct (score_cases t) as [[Hs Hc]|[(Hs & Hc & _)|[Hs Hc]]];
    rewrite Hs, Hc; cbn [length];
    (repeat split; [lia|lia|lia|]);
    rewrite Hk; apply Z.mod_divide; try done.
  - exists k. lia.
  - exists (k + 1). lia.
  - exists (k + 2). lia.
Qed.

End ScoreValues.

(** X2: a question whose type is none of single_choice, multiple_choice
    or their two Chinese labels - true_false and fill_blank included - is
    scored 0 and not correct whatever the answer; the reported correct
    answer is the flagged ids run together and the explanation says the
    type is unknown. *)
Theorem unscored_types_score_zero (t : AnalysisTask) :
  task_question_type t ∉ scored_labels →
  let r := calculate_question_score t in
  score r = 0 ∧ is_correct r = false
  ∧ correct_answer r = CorrectStr (PyStr.join "" (flagged_ids (task_options t)))
  ∧ explanation r = Some "未知题目类型".
Proof. intros Hout r. subst r. by rewrite unknown_type_dispatch. Qed.

Lemma unscored_types_score_zero_witness :
  (task_question_type true_false_task ∉ scored_labels)
  ∧ score (calculate_question_score true_false_task) = 0
  ∧ is_correct (calculate_question_score true_false_task) = false.
Proof.
  assert (task_question_type true_false_task ∉ scored_labels) as H
    by (apply (bool_decide_unpack _); vm_compute; exact I).
  split; [exact H|].
  destruct (unscored_types_score_zero true_false_task H) as (Hs & Hc & _).
  by split.
Defined.

(** X3: every per-question score is 0, 5 or 10, a question counts as
    correct exactly when its score is positive, and 5 is given only to
    multiple-choice questions; hence over any batch the total is a
    multiple of 5 between 5 and 10 times the number of questions counted
    correct, which is at most the number of tasks. *)
Theorem score_bounds :
  (∀ t, let r := calculate_question_score t in
        score r ∈ [0; 5; 10]
        ∧ (is_correct r = true ↔ 0 < score r)
        ∧ (score r = 5 → is_multiple_choice (task_question_type t) = true))
  ∧ (∀ items tasks,
        let r := process_ai_analysis_results items tasks in
        5 * Z.of_nat (correct_count r) ≤ total_score r
        ∧ total_score r ≤ 10 * Z.of_nat (correct_count r)
        ∧ (correct_count r ≤ total_count r)%nat
        ∧ total_score r `mod` 5 = 0).
Proof.
  split.
  - intros t r. subst r.
    destruct (score_cases t) as [[Hs Hc]|[(Hs & Hc & Hm)|[Hs Hc]]];
      rewrite Hs, Hc; (split; [set_solver|]); (split; [|done]); split;
        first [done | lia | discriminate].
  - intros items tasks r. subst r.
    rewrite process_total_score, process_correct_count, process_total_count.
    apply raw_score_sum_bounds.
Qed.

(** X4: with fewer than six scored tasks the overall feedback is the
    lowest band whatever the answers, since the bands compare the raw
    sum, at most 10 per task, with 60 and more. *)
Theorem short_batches_get_lowest_band items tasks :
  (length tasks < 6)%nat →
  overall_feedback (process_ai_analysis_results items tasks) = feedback_low.
Proof.
  intros Hlen.
  rewrite process_overall_feedback, process_total_score.
  pose proof (raw_score_sum_bounds tasks) as (_ & H2 & H3 & _).
  apply band_ranges. lia.
Qed.

Lemma short_batches_get_lowest_band_witness :
  (length [test_task_1; partial_task] < 6)%nat
  ∧ overall_feedback
      (process_ai_analysis_results [] [test_task_1; partial_task])
    = feedback_low.
Proof.
  assert (length [test_task_1; partial_task] < 6)%nat as H by (cbn; lia).
  split; [exact H|].
  exact (short_batches_get_lowest_band [] [test_task_1; partial_task] H).
Defined.

(** ** Dictionaries filled in a loop *)

Section DictLoops.

Context {A B : Type}.

Lemma dict_loop_lookup (key : A → string) (val : A → B) (l : list A) (k : string) :
  foldl (λ m x, <[key x := val x]> m) (∅ : gmap string B) l !! k
  = val <$> last_with key k l.
Proof.
  unfold last_with. induction l as [|x l IH] using rev_ind; [done|].
  rewrite foldl_app. cbn [foldl]. rewrite lookup_insert, filter_app.
  case_decide as Hk.
  - rewrite filter_cons_True by done. rewrite filter_nil.
    by rewrite last_snoc.
  - rewrite filter_cons_False by done. rewrite filter_nil, app_nil_r.
    apply IH.
Qed.

Lemma last_with_elem (key : A → string) (k : string) (l : list A) (x : A) :
  last_with key k l = Some x → x ∈ l ∧ key x = k.
Proof.
  unfold last_with. intros H. apply last_Some_elem_of in H.
  by apply list_elem_of_filter in H as [? ?].
Qed.

Lemma last_with_is_Some (key : A → string) (k : string) (l : list A) :
  is_Some (last_with key k l) ↔ k ∈ key <$> l.
Proof.
  unfold last_with. rewrite last_is_Some. split.
  - intros Hne. destruct (filter _ l) as [|x r] eqn:Hf; [done|].
    assert (x ∈ filter (λ x, key x = k) l) as Hx by (rewrite Hf; left).
    apply list_elem_of_filter in Hx as [<- Hx].
    by apply list_elem_of_fmap_2.
  - intros Hin. apply list_elem_of_fmap in Hin as (x & -> & Hx).
    intros Hnil.
    assert (x ∈ filter (λ y, key y = key x) l) as Hf
      by (by apply list_elem_of_filter).
    rewrite Hnil in Hf. by apply elem_of_nil in Hf.
Qed.

End DictLoops.

(** ** Per-question outcomes *)

Section Outcomes.

Lemma analyse_tasks_results e tasks results total correct :
  (foldl (analyse_task e) (results, total, correct) tasks).1.1
  = results ++ (outcome_of e <$> tasks).
Proof.
  revert results total correct.
  induction tasks as [|task tasks IH]; intros results total correct.
  - by rewrite app_nil_r.
  - cbn [foldl analyse_task]. rewrite IH, <- app_assoc. reflexivity.
Qed.

End Outcomes.

(** X5: the analysis results are one outcome per task, in task order,
    each carrying the task's id, text and answer with its computed
    score; the explanation of each is the text of the last generator
    entry for that question id, or the placeholder when the generator
    returned none - never an option's stored explanation. *)
Theorem results_follow_tasks (items : list AiItem) (tasks : list AnalysisTask) :
  analysis_results (process_ai_analysis_results items tasks)
  = outcome_of (explanation_map items) <$> tasks
  ∧ (∀ k, explanation_map items !! k
          = ai_explanation <$> last_with ai_question_id k items)
  ∧ (∀ task, (task_question_id task ∉ ai_question_id <$> items) →
             qa_explanation (outcome_of (explanation_map items) task)
             = no_feedback).
Proof.
  assert (∀ k, explanation_map items !! k
               = ai_explanation <$> last_with ai_question_id k items) as Hmap.
  { intros k. unfold explanation_map. apply dict_loop_lookup. }
  split; [|split; [exact Hmap|]].
  - unfold process_ai_analysis_results.
    pose proof (analyse_tasks_results (explanation_map items) tasks [] 0 0%nat)
      as H.
    by destruct (foldl _ _ tasks) as [[results total] correct].
  - intros task Hout. cbn. rewrite Hmap.
    destruct (last_with ai_question_id (task_question_id task) items)
      as [it|] eqn:Hl; [|done].
    exfalso. apply Hout. apply last_with_is_Some. by rewrite Hl.
Qed.

(** ** Task building *)

Section TaskBuilding.

Lemma question_map_lookup qs k :
  question_map qs !! k = last_with question_id k qs.
Proof.
  unfold question_map.
  rewrite (dict_loop_lookup question_id (λ q, q) qs k).
  by destruct (last_with question_id k qs).
Qed.

Lemma build_tasks_inr qmap answers tasks :
  build_tasks qmap answers = inr tasks →
  Forall2 (λ a t,
             task_question_id t = ans_question_id a
             ∧ task_user_answer t = ans_user_answer a
             ∧ ∃ q, qmap !! ans_question_id a = Some q
                    ∧ task_question_type t = question_type q
                    ∧ task_question_text t = question_text q
                    ∧ task_options t = options q)
          answers tasks.
Proof.
  revert tasks. induction answers as [|a answers IH]; intros tasks.
  - intros [= <-]. constructor.
  - cbn [build_tasks].
    destruct (qmap !! ans_question_id a) as [q|] eqn:Hq; [|done].
    destruct (build_tasks qmap answers) as [e|ts]; [done|].
    intros [= <-]. constructor; [|by apply IH].
    cbn. repeat split; eauto 10.
Qed.

Lemma build_tasks_success qmap answers :
  is_Some (match build_tasks qmap answers with inr ts => Some ts | inl _ => None end)
  ↔ Forall (λ a, is_Some (qmap !! ans_question_id a)) answers.
Proof.
  induction answers as [|a answers IH]; cbn [build_tasks].
  - split; [constructor | by eexists].
  - rewrite Forall_cons.
    destruct (qmap !! ans_question_id a) as [q|] eqn:Hq.
    + destruct (build_tasks qmap answers) as [e|ts].
      * split; [by intros [? ?]|]. intros [_ H]. apply IH in H.
        by destruct H.
      * split; [|by eexists]. intros _. split; [by eexists|].
        apply IH. by eexists.
    + split; [by intros [? ?]|]. by intros [[? ?] _].
Qed.

End TaskBuilding.

(** X6: building the analysis tasks succeeds exactly when every
    submitted question id names a question of the paper; the tasks then
    follow the submitted answers one for one and in order (an answer
    given twice is a task twice, an unanswered question is no task),
    each with the user's answer untouched and the type, text and options
    of the last question of the paper carrying that id. *)
Theorem tasks_follow_answers (questions : list Question)
    (answers : list UserAnswerItem) :
  ((∃ tasks, build_analysis_tasks_from_cache questions answers = inr tasks)
   ↔ Forall (λ a, ans_question_id a ∈ question_id <$> questions) answers)
  ∧ (∀ tasks,
        build_analysis_tasks_from_cache questions answers = inr tasks →
        length tasks = length answers
        ∧ Forall2 (λ a t,
                     task_question_id t = ans_question_id a
                     ∧ task_user_answer t = ans_user_answer a
                     ∧ ∃ q, last_with question_id (ans_question_id a) questions
                            = Some q
                            ∧ task_question_type t = question_type q
                            ∧ task_question_text t = question_text q
                            ∧ task_options t = options q)
                  answers tasks).
Proof.
  unfold build_analysis_tasks_from_cache. split.
  - pose proof (build_tasks_success (question_map questions) answers) as H.
    split.
    + intros [tasks Ht]. rewrite Ht in H.
      assert (is_Some (Some tasks)) as Hs by (by eexists).
      apply H in Hs. eapply Forall_impl; [exact Hs|].
      intros a Ha. cbn in Ha. rewrite question_map_lookup in Ha.
      by apply last_with_is_Some in Ha.
    + intros Hall.
      assert (Forall (λ a, is_Some (question_map questions !! ans_question_id a))
                answers) as Hs.
      { eapply Forall_impl; [exact Hall|]. intros a Ha. cbn.
        rewrite question_map_lookup. by apply last_with_is_Some. }
      apply H in Hs.
      destruct (build_tasks (question_map questions) answers) as [e|ts];
        [by destruct Hs | by exists ts].
  - intros tasks Ht. apply build_tasks_inr in Ht.
    split; [symmetry; by eapply Forall2_length|].
    eapply Forall2_impl; [exact Ht|].
    intros a t (H1 & H2 & q & Hq & H3). split; [done|]. split; [done|].
    exists q. by rewrite <- question_map_lookup.
Qed.

Lemma tasks_follow_answers_witness :
  build_analysis_tasks_from_cache example_questions example_answers
  = inr example_tasks
  ∧ length example_tasks = length example_answers.
Proof.
  assert (build_analysis_tasks_from_cache example_questions example_answers
          = inr example_tasks) as H by (vm_compute; reflexivity).
  split; [exact H|].
  exact (proj1 (proj2 (tasks_follow_answers example_questions example_answers)
                  example_tasks H)).
Defined.

(** ** The reported correct answer of a multiple-choice question *)

Section SortedAnswer.

Lemma string_compare_trans_le (a b c : string) :
  String.compare a b ≠ Gt → String.compare b c ≠ Gt → String.compare a c ≠ Gt.
Proof.
  revert b c. induction a as [|x a IH]; intros [|y b] [|z c]; cbn; try done.
  unfold Ascii.compare.
  destruct (N.compare_spec (Ascii.N_of_ascii x) (Ascii.N_of_ascii y)) as [Hxy|Hxy|Hxy];
    destruct (N.compare_spec (Ascii.N_of_ascii y) (Ascii.N_of_ascii z)) as [Hyz|Hyz|Hyz];
    destruct (N.compare_spec (Ascii.N_of_ascii x) (Ascii.N_of_ascii z)) as [Hxz|Hxz|Hxz];
    try done; try lia.
  apply IH.
Qed.

Lemma string_leb_le (a b : string) :
  String.leb a b = true ↔ String.compare a b ≠ Gt.
Proof. unfold String.leb. by destruct (String.compare a b). Qed.

#[local] Instance string_leb_trans : Transitive (λ a b, String.leb a b = true).
Proof.
  intros a b c. rewrite !string_leb_le. apply string_compare_trans_le.
Qed.

#[local] Instance string_leb_antisym : AntiSymm (=) (λ a b, String.leb a b = true).
Proof. intros a b Hab Hba. by apply String.leb_antisym. Qed.

Lemma insert_sorted_perm x l : PyStr.insert_sorted x l ≡ₚ x :: l.
Proof.
  induction l as [|y l IH]; [done|].
  cbn. destruct (String.leb x y); [done|].
  rewrite IH. apply Permutation_swap.
Qed.

Lemma sorted_perm l : PyStr.sorted l ≡ₚ l.
Proof.
  unfold PyStr.sorted. induction l as [|x l IH]; [done|].
  cbn. by rewrite insert_sorted_perm, IH.
Qed.

Lemma insert_sorted_ascending x l : ascending l → ascending (PyStr.insert_sorted x l).
Proof.
  unfold ascending. induction l as [|y l IH]; intros Hl.
  - repeat constructor.
  - cbn. destruct (String.leb x y) eqn:Hxy.
    + constructor; [done|]. apply StronglySorted_inv in Hl as [_ Hy].
      constructor; [done|]. eapply Forall_impl; [exact Hy|].
      intros z Hz. cbn in *. by apply (string_leb_trans x y z).
    + apply StronglySorted_inv in Hl as [Hl Hy].
      constructor; [by apply IH|].
      rewrite insert_sorted_perm. constructor; [|done].
      destruct (String.leb_total x y) as [H|H]; [congruence | done].
Qed.

Lemma sorted_ascending l : ascending (PyStr.sorted l).
Proof.
  unfold PyStr.sorted. induction l as [|x l IH]; [constructor|].
  cbn. by apply insert_sorted_ascending.
Qed.

Lemma flagged_ids_perm opts opts' :
  opts ≡ₚ opts' → flagged_ids opts ≡ₚ flagged_ids opts'.
Proof.
  intros H. unfold flagged_ids. apply fmap_Permutation.
  induction H as [|x l l' H IH|x y l|l l' l'' H1 IH1 H2 IH2]; cbn.
  - done.
  - destruct (opt_is_correct x); by rewrite ?IH.
  - destruct (opt_is_correct x), (opt_is_correct y);
      try done. apply Permutation_swap.
  - by etransitivity.
Qed.

Lemma sorted_correct_set_unique opts opts' :
  opts ≡ₚ opts' →
  PyStr.sorted (elements (correct_set opts))
  = PyStr.sorted (elements (correct_set opts')).
Proof.
  intros H.
  apply (StronglySorted_unique (λ a b, String.leb a b = true));
    [apply sorted_ascending | apply sorted_ascending |].
  rewrite !sorted_perm. unfold correct_set.
  apply elements_proper. intros x. rewrite !elem_of_list_to_set.
  by rewrite (flagged_ids_perm _ _ H).
Qed.

End SortedAnswer.

(** X7: for a multiple-choice question the reported correct answer is a
    list holding every id flagged correct exactly once, in ascending
    string order, and the explanation text is that list joined with
    commas; rearranging the options does not change what is reported. *)
Theorem multiple_choice_correct_answer (t : AnalysisTask) :
  task_question_type t ∈ ["multiple_choice"; "多选题"] →
  (∃ l, correct_answer (calculate_question_score t) = CorrectList l
        ∧ explanation (calculate_question_score t)
          = Some ("正确答案包含选项：" +:+ PyStr.join ", " l)
        ∧ ascending l
        ∧ NoDup l
        ∧ ∀ x, x ∈ l ↔ ∃ o, o ∈ task_options t
                             ∧ opt_is_correct o = true ∧ opt_id o = x)
  ∧ (∀ t', task_question_type t' ∈ ["multiple_choice"; "多选题"] →
           task_options t ≡ₚ task_options t' →
           correct_answer (calculate_question_score t')
           = correct_answer (calculate_question_score t)).
Proof.
  intros Hty. rewrite (multiple_choice_dispatch t Hty). split.
  - eexists. split; [reflexivity|]. split; [reflexivity|].
    split; [apply sorted_ascending|].
    split.
    + rewrite sorted_perm. apply NoDup_elements.
    + intros x. rewrite sorted_perm, elem_of_elements.
      unfold correct_set, flagged_ids.
      rewrite elem_of_list_to_set, list_elem_of_fmap.
      split.
      * intros (o & -> & Ho). apply list_elem_of_In, filter_In in Ho as [Ho Hc].
        exists o. by rewrite list_elem_of_In.
      * intros (o & Ho & Hc & <-). exists o. split; [done|].
        apply list_elem_of_In, filter_In. by rewrite <- list_elem_of_In.
  - intros t' Hty' Hperm. rewrite (multiple_choice_dispatch t' Hty').
    unfold score_multiple_choice. cbn [correct_answer]. f_equal.
    symmetry. by apply sorted_correct_set_unique.
Qed.

Lemma multiple_choice_correct_answer_witness :
  task_question_type partial_task ∈ ["multiple_choice"; "多选题"]
  ∧ ∃ l, correct_answer (calculate_question_score partial_task) = CorrectList l
         ∧ ascending l.
Proof.
  assert (task_question_type partial_task ∈ ["multiple_choice"; "多选题"])
    as Hty by (vm_compute; left).
  split; [exact Hty|].
  destruct (proj1 (multiple_choice_correct_answer partial_task Hty))
    as (l & Hl & _ & Hasc & _).
  exists l. by split.
Defined.

(** ** Issuing identifiers *)

Section Identifiers.

Lemma bytes_of_bytes l : PyStr.bytes (PyStr.of_bytes l) = l.
Proof. apply String.list_ascii_of_string_of_list_ascii. Qed.

Lemma of_bytes_bytes s : PyStr.of_bytes (PyStr.bytes s) = s.
Proof. apply String.string_of_list_ascii_of_string. Qed.

Lemma bytes_app s1 s2 : PyStr.bytes (s1 +:+ s2) = PyStr.bytes s1 ++ PyStr.bytes s2.
Proof.
  unfold PyStr.bytes.
  induction s1 as [|c s1 IH]; [done|]. simpl. f_equal. apply IH.
Qed.

Lemma choice_elem (seq : list Ascii.ascii) (draw : nat) :
  seq ≠ [] → choice seq draw ∈ seq.
Proof.
  intros Hne. unfold choice. apply list_elem_of_In, nth_In.
  apply Nat.mod_upper_bound. by destruct seq.
Qed.

Lemma draw_chars_length rng pos n : length (draw_chars rng pos n) = n.
Proof.
  revert pos. induction n as [|n IH]; intros pos; cbn [draw_chars length];
    by rewrite ?IH.
Qed.

Lemma draw_chars_alphabet rng pos n :
  Forall (λ c, c ∈ PyStr.bytes AccessCode.chars) (draw_chars rng pos n).
Proof.
  revert pos. induction n as [|n IH]; intros pos; cbn [draw_chars];
    constructor; [|apply IH].
  by apply choice_elem.
Qed.

Lemma generation_alphabet_allowed :
  Forall is_upper_or_digit (PyStr.bytes AccessCode.chars).
Proof. apply forallb_allowed. by vm_compute. Qed.

Lemma generation_alphabet_unambiguous :
  Forall (λ c, c ∉ PyStr.bytes "0O1I") (PyStr.bytes AccessCode.chars).
Proof. compute_done. Qed.

Lemma ascii_not_continuation (l : list Ascii.ascii) :
  Forall is_upper_or_digit l →
  List.filter
    (λ c, negb ((128 <=? Ascii.nat_of_ascii c)%nat
                && (Ascii.nat_of_ascii c <? 192)%nat)) l = l.
Proof.
  induction 1 as [|c l Hc H IH]; [done|].
  cbn [List.filter]. unfold is_upper_or_digit in Hc. cbv zeta in Hc.
  rewrite (proj2 (Nat.leb_gt 128 _)) by lia.
  cbn [andb negb]. by rewrite IH.
Qed.

Lemma ascii_len (l : list Ascii.ascii) :
  Forall is_upper_or_digit l → AccessCode.len (PyStr.of_bytes l) = length l.
Proof.
  intros H. unfold AccessCode.len.
  by rewrite bytes_of_bytes, ascii_not_continuation.
Qed.

Lemma validate_accepts (l : list Ascii.ascii) :
  (4 ≤ length l ≤ 10)%nat → Forall is_upper_or_digit l →
  AccessCode.validate_access_code (PyStr.of_bytes l) = true.
Proof.
  intros Hlen Hall. unfold AccessCode.validate_access_code.
  rewrite (ascii_len l Hall), bytes_of_bytes.
  destruct l as [|c l]; [cbn in Hlen; lia|].
  cbn [PyStr.of_bytes String.string_of_list_ascii PyStr.truthy negb].
  rewrite (proj2 (Nat.ltb_ge _ _)) by lia.
  rewrite (proj2 (Nat.ltb_ge _ _)) by lia.
  cbn [orb]. by apply forallb_allowed.
Qed.

Lemma generated_code_valid rng pos n :
  (4 ≤ n ≤ 10)%nat →
  AccessCode.validate_access_code (generate_access_code rng pos n).1 = true.
Proof.
  intros Hn. cbn [generate_access_code fst]. apply validate_accepts.
  - by rewrite draw_chars_length.
  - eapply Forall_impl; [apply draw_chars_alphabet|].
    intros c Hc. cbn in Hc.
    by apply (proj1 (Forall_forall _ _) generation_alphabet_allowed).
Qed.

Lemma candidate_shift rng pos j :
  candidate rng (pos + 6) j = candidate rng pos (S j).
Proof. unfold candidate. do 2 f_equal. lia. Qed.

Lemma draw_until_free_spec (f : string → bool) rng pos n :
  match draw_until_free (Some f) rng pos n with
  | (Some code, pos') =>
      ∃ k, (k < n)%nat ∧ code = candidate rng pos k ∧ f code = false
           ∧ (∀ j, (j < k)%nat → f (candidate rng pos j) = true)
           ∧ pos' = (pos + 6 * S k)%nat
  | (None, pos') =>
      (∀ j, (j < n)%nat → f (candidate rng pos j) = true)
      ∧ pos' = (pos + 6 * n)%nat
  end.
Proof.
  revert pos. induction n as [|n IH]; intros pos.
  - cbn. split; [intros j Hj; lia | lia].
  - cbn [draw_until_free generate_access_code].
    assert (PyStr.of_bytes (draw_chars rng pos 6) = candidate rng pos 0) as Hc0.
    { unfold candidate. cbn [generate_access_code fst].
      do 2 f_equal. lia. }
    rewrite Hc0.
    destruct (f (candidate rng pos 0)) eqn:Hf; cbn [negb].
    + specialize (IH (pos + 6)%nat).
      destruct (draw_until_free (Some f) rng (pos + 6) n) as [[code|] pos'].
      * destruct IH as (k & Hk & -> & Hfree & Hprev & ->).
        exists (S k). rewrite candidate_shift.
        rewrite candidate_shift in Hfree.
        split; [lia|]. split; [done|]. split; [done|]. split; [|lia].
        intros [|j] Hj; [done|]. rewrite <- candidate_shift. apply Hprev. lia.
      * destruct IH as [Hall ->]. split; [|lia].
        intros [|j] Hj; [done|]. rewrite <- candidate_shift. apply Hall. lia.
    + exists 0%nat. split; [lia|]. split; [done|]. split; [done|].
      split; [intros j Hj; lia | lia].
Qed.

Lemma upper_byte_hex (c : Ascii.ascii) :
  is_lower_hex c → is_upper_or_digit (upper_byte c).
Proof.
  unfold is_lower_hex, is_digit, is_upper_or_digit, upper_byte. cbv zeta.
  destruct c as [[] [] [] [] [] [] [] []]; compute_done.
Qed.

End Identifiers.

(** X8: a generated access code of any length from 4 to 10 (6 by
    default) passes the format check; it has exactly the requested
    number of characters, all from the generation alphabet, so none of
    0, O, 1, I; and the source of randomness has moved on by one draw
    per character. *)
Theorem generated_codes_validate (rng : Rng) (pos n : nat) :
  (4 ≤ n ≤ 10)%nat →
  let code := (generate_access_code rng pos n).1 in
  AccessCode.validate_access_code code = true
  ∧ AccessCode.len code = n
  ∧ Forall (λ c, c ∈ PyStr.bytes AccessCode.chars) (PyStr.bytes code)
  ∧ Forall (λ c, c ∉ PyStr.bytes "0O1I") (PyStr.bytes code)
  ∧ (generate_access_code rng pos n).2 = (pos + n)%nat.
Proof.
  intros Hn code. subst code.
  split; [by apply generated_code_valid|].
  assert (Forall (λ c, c ∈ PyStr.bytes AccessCode.chars)
            (PyStr.bytes (generate_access_code rng pos n).1)) as Halpha.
  { cbn [generate_access_code fst]. rewrite bytes_of_bytes.
    apply draw_chars_alphabet. }
  split; [|split; [exact Halpha|split; [|done]]].
  - cbn [generate_access_code fst].
    rewrite ascii_len, draw_chars_length; [done|].
    eapply Forall_impl; [apply draw_chars_alphabet|].
    intros c Hc. cbn in Hc.
    by apply (proj1 (Forall_forall _ _) generation_alphabet_allowed).
  - eapply Forall_impl; [exact Halpha|].
    intros c Hc. cbn in Hc.
    by apply (proj1 (Forall_forall _ _) generation_alphabet_unambiguous).
Qed.

Lemma generated_codes_validate_witness :
  (4 ≤ 6 ≤ 10)%nat
  ∧ AccessCode.validate_access_code (generate_access_code sample_rng 0 6).1
    = true.
Proof.
  assert (4 ≤ 6 ≤ 10)%nat as H by lia.
  split; [exact H|].
  exact (proj1 (generated_codes_validate sample_rng 0 6 H)).
Defined.

(** X9: with an existence check, the unique-code generator returns the
    first drawn six-character code the check does not know, having drawn
    no more than that; it raises exactly when each of the first
    [max_attempts] drawn codes is known, after drawing exactly that many.
    Without a check it returns the first code drawn, and with
    [max_attempts = 0] it raises without drawing, check or no check. *)
Theorem generate_unique_access_code_spec :
  (∀ (f : string → bool) max_attempts rng pos,
      match generate_unique_access_code (Some f) max_attempts rng pos with
      | (inr code, pos') =>
          ∃ k, (k < max_attempts)%nat
               ∧ code = candidate rng pos k
               ∧ f code = false
               ∧ AccessCode.validate_access_code code = true
               ∧ (∀ j, (j < k)%nat → f (candidate rng pos j) = true)
               ∧ pos' = (pos + 6 * S k)%nat
      | (inl e, pos') =>
          (∀ j, (j < max_attempts)%nat → f (candidate rng pos j) = true)
          ∧ pos' = (pos + 6 * max_attempts)%nat
          ∧ e = ValueError ("无法在" +:+ pretty max_attempts
                            +:+ "次尝试内生成唯一访问码")
      end)
  ∧ (∀ max_attempts rng pos,
        generate_unique_access_code None (S max_attempts) rng pos
        = (inr (candidate rng pos 0), (pos + 6)%nat))
  ∧ (∀ check rng pos,
        generate_unique_access_code check 0 rng pos
        = (inl (ValueError "无法在0次尝试内生成唯一访问码"), pos)).
Proof.
  split; [|split].
  - intros f max_attempts rng pos. unfold generate_unique_access_code.
    pose proof (draw_until_free_spec f rng pos max_attempts) as H.
    destruct (draw_until_free (Some f) rng pos max_attempts) as [[code|] pos'].
    + destruct H as (k & Hk & -> & Hfree & Hprev & ->).
      exists k. repeat split; try done.
      unfold candidate. apply generated_code_valid. lia.
    + destruct H as [Hall ->]. by repeat split.
  - intros max_attempts rng pos. unfold generate_unique_access_code, candidate.
    replace (pos + 6 * 0)%nat with pos by lia. reflexivity.
  - intros check rng pos. reflexivity.
Qed.

(** X10: the access URL is the base, less one trailing slash if it has
    one, followed by /paper/access/ and the code: a base given with a
    final slash and the same base without it give the same URL, and only
    one slash is dropped. *)
Theorem format_access_code_url_spec (access_code base_url : string) :
  format_access_code_url access_code (base_url +:+ "/")
  = base_url +:+ "/paper/access/" +:+ access_code
  ∧ (ends_with_slash base_url = false →
     format_access_code_url access_code base_url
     = base_url +:+ "/paper/access/" +:+ access_code)
  ∧ format_access_code_url access_code "" = "/paper/access/" +:+ access_code.
Proof.
  split; [|split; [|reflexivity]].
  - unfold format_access_code_url, ends_with_slash, drop_last.
    rewrite bytes_app.
    change (PyStr.bytes "/") with [PyStr.byte 47].
    rewrite last_snoc, Ascii.eqb_refl, removelast_last.
    by rewrite of_bytes_bytes.
  - intros H. unfold format_access_code_url. by rewrite H.
Qed.

Lemma format_access_code_url_spec_witness :
  ends_with_slash "http://host" = false
  ∧ format_access_code_url "ABCDEF" "http://host"
    = format_access_code_url "ABCDEF" "http://host/".
Proof.
  assert (ends_with_slash "http://host" = false) as H by reflexivity.
  split; [exact H|].
  destruct (format_access_code_url_spec "ABCDEF" "http://host") as (H1 & H2 & _).
  rewrite (H2 H). symmetry. exact H1.
Defined.

Lemma generate_paper_id_shape (today hex : string) :
  length (PyStr.bytes today) = 8%nat →
  Forall is_digit (PyStr.bytes today) →
  length (PyStr.bytes hex) = 32%nat →
  Forall is_lower_hex (PyStr.bytes hex) →
  length (PyStr.bytes (generate_paper_id today hex)) = 23%nat
  ∧ Forall is_paper_id_char (PyStr.bytes (generate_paper_id today hex)).
Proof.
  intros Hlt Hdt Hlh Hdh. unfold generate_paper_id, upper.
  rewrite !bytes_app, !bytes_of_bytes.
  split.
  - rewrite !length_app, length_fmap, length_take, Hlt, Hlh. by cbn.
  - rewrite !Forall_app. repeat split.
    + unfold is_paper_id_char, is_upper_or_digit. cbv zeta. compute_done.
    + eapply Forall_impl; [exact Hdt|]. intros c Hc. left. by right.
    + unfold is_paper_id_char, is_upper_or_digit. cbv zeta. compute_done.
    + apply Forall_fmap. eapply Forall_impl; [by apply Forall_take|].
      intros c Hc. left. by apply upper_byte_hex.
Qed.

(** X11: for an eight-digit date stamp and a 32-digit lowercase hex
    string, the paper id is PAPER_, the date, an underscore and the first
    eight hex digits in upper case: 23 characters, each an upper-case
    letter, a digit or an underscore. *)
Theorem generate_paper_id_format (today hex : string) :
  length (PyStr.bytes today) = 8%nat →
  Forall is_digit (PyStr.bytes today) →
  length (PyStr.bytes hex) = 32%nat →
  Forall is_lower_hex (PyStr.bytes hex) →
  let pid := generate_paper_id today hex in
  length (PyStr.bytes pid) = 23%nat
  ∧ Forall is_paper_id_char (PyStr.bytes pid)
  ∧ pid = "PAPER_" +:+ today +:+ "_"
          +:+ upper (PyStr.of_bytes (take 8 (PyStr.bytes hex))).
Proof.
  intros Hlt Hdt Hlh Hdh pid. subst pid.
  destruct (generate_paper_id_shape today hex Hlt Hdt Hlh Hdh) as [H1 H2].
  by repeat split.
Qed.

Lemma generate_paper_id_format_witness :
  generate_paper_id "20240101" "0a1b2c3d4e5f60718293a4b5c6d7e8f9" = sample_id
  ∧ length (PyStr.bytes sample_id) = 23%nat.
Proof.
  assert (Forall is_digit (PyStr.bytes "20240101")) as Hd
    by (unfold is_digit; apply (bool_decide_unpack _); vm_compute; exact I).
  assert (Forall is_lower_hex
            (PyStr.bytes "0a1b2c3d4e5f60718293a4b5c6d7e8f9")) as Hh
    by (unfold is_lower_hex, is_digit; apply (bool_decide_unpack _);
        vm_compute; exact I).
  destruct (generate_paper_id_format "20240101"
              "0a1b2c3d4e5f60718293a4b5c6d7e8f9" eq_refl Hd eq_refl Hh)
    as (Hlen & _ & _).
  split; [reflexivity | exact Hlen].
Defined.

(** ** Submission: what it touches and what it leaves alone *)

Section SubmitFrame.

Import UserAnswerDao.

Lemma build_tasks_first_missing qmap pre a post :
  Forall (λ x, is_Some (qmap !! ans_question_id x)) pre →
  qmap !! ans_question_id a = None →
  build_tasks qmap (pre ++ a :: post)
  = inl (ValueError ("题目ID " +:+ ans_question_id a +:+ " 在缓存中不存在")).
Proof.
  intros Hpre Ha. induction Hpre as [|x pre [q Hq] Hpre IH]; cbn [app build_tasks].
  - by rewrite Ha.
  - by rewrite Hq, IH.
Qed.

Lemma submit_raised_unchanged w pid uid answers reply e w' :
  SharedPaperService.submit_answers w pid uid answers reply = Raised e w' →
  w' = w.
Proof.
  unfold SharedPaperService.submit_answers.
  destruct (SharedPaperService.resolve_questions w pid) as [e0|qs];
    [by intros [= _ <-]|].
  destruct (build_analysis_tasks_from_cache qs answers) as [e0|tasks];
    [by intros [= _ <-]|].
  destruct (analyze_paper_answers reply tasks) as [result|];
    [|by intros [= _ <-]].
  by destruct (SharedPaperService.store_submission w pid uid answers result).
Qed.

Lemma is_key_other pid uid p u r :
  (p, u) ≠ (pid, uid) → is_key pid uid r = true → is_key p u r = false.
Proof.
  unfold is_key. intros Hne Hk.
  apply andb_true_iff in Hk as [H1 H2].
  apply bool_decide_eq_true in H1, H2.
  apply andb_false_iff.
  destruct (decide (p = pid)) as [->|Hp].
  - right. apply bool_decide_eq_false. congruence.
  - left. apply bool_decide_eq_false. congruence.
Qed.


Lemma store_submission_frame w pid uid answers result :
  let w' := (SharedPaperService.store_submission w pid uid answers result).2 in
  db_papers w' = db_papers w
  ∧ redis_papers w' = redis_papers w
  ∧ redis_codes w' = redis_codes w
  ∧ redis_answers w'
    = <[Redis.answer_key pid uid :=
          {| ca_data := SharedPaperService.answer_data_of pid uid answers result;
             ca_submitted_at :=
               match get_user_answer w pid uid with
               | Some _ => clock w
               | None => S (clock w)
               end |}]> (redis_answers w).
Proof.
  unfold SharedPaperService.store_submission, update_user_answer.
  by destruct (get_user_answer w pid uid).
Qed.




End SubmitFrame.

(** X12: when an answer names a question id the resolved paper does not
    have, submit raises the error naming the first such id and leaves the
    world as it was; this happens before the explanation generator is
    consulted, so its reply makes no difference. *)
Theorem unknown_question_aborts_submit w pid uid pre a post reply questions :
  SharedPaperService.resolve_questions w pid = inr questions →
  Forall (λ x, ans_question_id x ∈ question_id <$> questions) pre →
  (ans_question_id a ∉ question_id <$> questions) →
  SharedPaperService.submit_answers w pid uid (pre ++ a :: post) reply
  = Raised (ValueError ("题目ID " +:+ ans_question_id a +:+ " 在缓存中不存在")) w.
Proof.
  intros Hres Hpre Ha. unfold SharedPaperService.submit_answers.
  rewrite Hres. unfold build_analysis_tasks_from_cache.
  rewrite build_tasks_first_missing; [done| |].
  - eapply Forall_impl; [exact Hpre|]. intros x Hx. cbn.
    rewrite question_map_lookup. by apply last_with_is_Some.
  - rewrite question_map_lookup.
    destruct (last_with question_id (ans_question_id a) questions) eqn:Hl;
      [|done].
    exfalso. apply Ha. apply last_with_is_Some. by rewrite Hl.
Qed.

Lemma unknown_question_aborts_submit_witness :
  SharedPaperService.submit_answers published_world sample_id "u1"
    stray_answers LlmFails
  = Raised (ValueError "题目ID 9 在缓存中不存在") published_world.
Proof.
  apply (unknown_question_aborts_submit published_world sample_id "u1"
           [{| ans_question_id := "1"; ans_user_answer := AnsStr "B" |}]
           {| ans_question_id := "9"; ans_user_answer := AnsStr "A" |}
           [] LlmFails example_questions).
  - vm_compute. reflexivity.
  - apply (bool_decide_unpack _). vm_compute. exact I.
  - apply (bool_decide_unpack _). vm_compute. exact I.
Defined.


Lemma scored_tasks w pid answers reply result :
  scored w pid answers reply = Some result →
  ∃ items tasks,
    length tasks = length answers
    ∧ result = process_ai_analysis_results items tasks.
Proof.
  unfold scored.
  destruct (SharedPaperService.resolve_questions w pid) as [e|qs]; [done|].
  destruct (build_analysis_tasks_from_cache qs answers) as [e|tasks] eqn:Hb;
    [done|].
  destruct reply as [|items]; [done|]. cbn [analyze_paper_answers].
  intros [= <-]. exists items, tasks. split; [|done].
  unfold build_analysis_tasks_from_cache in Hb.
  apply build_tasks_inr in Hb. symmetry. by eapply Forall2_length.
Qed.

(** X14: a result computed for a submission counts the answers given,
    not the questions of the paper: its total count and the number of
    per-question results are the number of submitted answers, and the
    score cannot exceed ten times that. *)
Theorem submission_counts_answers w pid answers reply result :
  scored w pid answers reply = Some result →
  total_count result = length answers
  ∧ length (analysis_results result) = length answers
  ∧ (correct_count result ≤ length answers)%nat
  ∧ total_score result ≤ 10 * Z.of_nat (length answers).
Proof.
  intros (items & tasks & Hlen & ->)%scored_tasks.
  rewrite process_total_count, process_correct_count, process_total_score.
  pose proof (raw_score_sum_bounds tasks) as (_ & H2 & H3 & _).
  pose proof (analyse_tasks_results (explanation_map items) tasks [] 0 0%nat)
    as Hres.
  split; [done|]. split; [|split; lia].
  unfold process_ai_analysis_results.
  destruct (foldl _ _ tasks) as [[results total] correct].
  cbn in *. subst results. by rewrite length_fmap.
Qed.

Lemma submission_counts_answers_witness :
  total_count (process_ai_analysis_results [] example_tasks)
  = length example_answers.
Proof.
  apply (submission_counts_answers published_world sample_id example_answers
           (LlmResults []) (process_ai_analysis_results [] example_tasks)).
  vm_compute. reflexivity.
Defined.

(** X15: the first submission for a key appends one row to the durable
    table: it takes the next id, is stamped with the clock reading of the
    insert, and carries the call's score, counts, feedback and results;
    the answers column is NULL for an empty answer list.  The cached copy
    holds the same data and the receipt is stamped later than both. *)
Theorem first_submission_creates_row w pid uid answers reply rc w' :
  UserAnswerDao.get_user_answer w pid uid = None →
  SharedPaperService.submit_answers w pid uid answers reply = Returned rc w' →
  ∃ result row,
    scored w pid answers reply = Some result
    ∧ db_user_answers w' = db_user_answers w ++ [row]
    ∧ db_next_id w' = S (db_next_id w)
    ∧ ua_id row = db_next_id w
    ∧ ua_paper_id row = pid ∧ ua_user_id row = uid
    ∧ ua_submitted_at row = clock w
    ∧ ua_answers row = match answers with [] => None | _ => Some answers end
    ∧ ua_score row = Some (total_score result)
    ∧ ua_correct_count row = Some (correct_count result)
    ∧ ua_total_count row = Some (length answers)
    ∧ ua_overall_feedback row = Some (overall_feedback result)
    ∧ Redis.get_user_answer w' pid uid
      = Some {| ca_data := SharedPaperService.answer_data_of pid uid answers result;
                ca_submitted_at := S (clock w) |}
    ∧ rc = {| rc_paper_id := pid; rc_user_id := uid;
              rc_submitted_at := S (S (clock w)) |}.
Proof.
  intros Hnone Hsub.
  destruct (submit_returned _ _ _ _ _ _ _ Hsub) as (result & Hscored & Hstore).
  assert (total_count result = length answers) as Htotal.
  { destruct (scored_tasks _ _ _ _ _ Hscored) as (items & tasks & Hlen & ->).
    by rewrite process_total_count. }
  pose proof (store_submission_cache w pid uid answers result) as Hcache.
  rewrite Hstore in Hcache. cbv zeta in Hcache. rewrite Hnone in Hcache.
  cbn [snd] in Hcache.
  unfold SharedPaperService.store_submission in Hstore.
  rewrite Hnone in Hstore. cbn in Hstore.
  injection Hstore as <- <-.
  exists result. eexists. split; [done|]. cbn.
  split; [reflexivity|]. rewrite Htotal.
  repeat (split; [reflexivity|]).
  split; [exact Hcache | reflexivity].
Qed.

Lemma first_submission_creates_row_witness :
  length (db_user_answers submitted_world)
  = S (length (db_user_answers published_world)).
Proof.
  assert (SharedPaperService.submit_answers published_world sample_id "u1"
            example_answers (LlmResults [])
          = Returned {| rc_paper_id := sample_id; rc_user_id := "u1";
                        rc_submitted_at := 5%nat |} submitted_world)
    as Hsub by (vm_compute; reflexivity).
  destruct (first_submission_creates_row published_world sample_id "u1"
              example_answers (LlmResults []) _ _ eq_refl Hsub)
    as (result & row & _ & Hrows & _).
  rewrite Hrows, length_app. cbn. lia.
Defined.

(** ** Cache keys of submissions *)

Section AnswerKeys.

Lemma colon_free_cons c s :
  colon_free (String c s) ↔ c ≠ PyStr.byte 58 ∧ colon_free s.
Proof.
  unfold colon_free. cbn [PyStr.bytes String.list_ascii_of_string].
  rewrite not_elem_of_cons. unfold PyStr.bytes. naive_solver.
Qed.

Lemma answer_key_inj p u p' u' :
  colon_free p → colon_free p' →
  Redis.answer_key p u = Redis.answer_key p' u' → p = p' ∧ u = u'.
Proof.
  unfold Redis.answer_key.
  change (":" +:+ u) with (String (PyStr.byte 58) u).
  change (":" +:+ u') with (String (PyStr.byte 58) u').
  revert p'.
  induction p as [|c p IH]; intros [|c' p'] Hp Hp' Heq; simpl in Heq.
  - by injection Heq as ->.
  - injection Heq as Hc _. apply colon_free_cons in Hp' as [Hne _].
    exfalso. apply Hne. by rewrite <- Hc.
  - injection Heq as Hc _. apply colon_free_cons in Hp as [Hne _].
    exfalso. by apply Hne.
  - injection Heq as -> Heq.
    apply colon_free_cons in Hp as [_ Hp].
    apply colon_free_cons in Hp' as [_ Hp'].
    destruct (IH p' Hp Hp' Heq) as [-> ->]. done.
Qed.

Lemma paper_id_char_not_colon (l : list Ascii.ascii) :
  Forall is_paper_id_char l → PyStr.byte 58 ∉ l.
Proof.
  intros H Hin.
  apply (proj1 (Forall_forall _ _) H) in Hin.
  revert Hin. unfold is_paper_id_char, is_upper_or_digit. cbv zeta.
  compute_done.
Qed.

End AnswerKeys.

(** X16: the cache key of a submission determines its (paper, user) pair
    whenever the paper ids hold no colon, as every generated paper id
    does; a submit then leaves the cached answer of every other pair as
    it was.  With a colon in a paper id two pairs can share a key. *)
Theorem cached_answers_keyed_apart :
  (∀ p u p' u',
      colon_free p → colon_free p' →
      Redis.answer_key p u = Redis.answer_key p' u' → p = p' ∧ u = u')
  ∧ (∀ today hex,
        length (PyStr.bytes today) = 8%nat →
        Forall is_digit (PyStr.bytes today) →
        length (PyStr.bytes hex) = 32%nat →
        Forall is_lower_hex (PyStr.bytes hex) →
        colon_free (generate_paper_id today hex))
  ∧ (∀ w pid uid answers reply p u,
        colon_free pid → colon_free p → (p, u) ≠ (pid, uid) →
        Redis.get_user_answer
          (outcome_world
             (SharedPaperService.submit_answers w pid uid answers reply)) p u
        = Redis.get_user_answer w p u)
  ∧ Redis.answer_key "a:b" "c" = Redis.answer_key "a" "b:c".
Proof.
  split; [exact answer_key_inj|]. split; [|split; [|reflexivity]].
  - intros today hex Hlt Hdt Hlh Hdh. unfold colon_free.
    apply paper_id_char_not_colon.
    by apply generate_paper_id_shape.
  - intros w pid uid answers reply p u Hpid Hp Hne.
    unfold Redis.get_user_answer.
    destruct (SharedPaperService.submit_answers w pid uid answers reply)
      as [rc w'|e w'] eqn:Hsub; cbn [outcome_world].
    + destruct (submit_returned _ _ _ _ _ _ _ Hsub) as (result & _ & Hstore).
      pose proof (store_submission_frame w pid uid answers result)
        as (_ & _ & _ & H4).
      rewrite Hstore in H4. cbn [snd] in H4. rewrite H4.
      apply lookup_insert_ne. intros Heq.
      apply Hne. destruct (answer_key_inj _ _ _ _ Hpid Hp Heq) as [-> ->].
      done.
    + by apply submit_raised_unchanged in Hsub as ->.
Qed.

Lemma cached_answers_keyed_apart_witness :
  colon_free sample_id
  ∧ Redis.get_user_answer resubmitted_world sample_id "u2"
    = Redis.get_user_answer submitted_world sample_id "u2".
Proof.
  assert (colon_free sample_id) as Hc
    by (unfold colon_free; apply (bool_decide_unpack _); vm_compute; exact I).
  split; [exact Hc|].
  apply (proj1 (proj2 (proj2 cached_answers_keyed_apart))
           submitted_world sample_id "u1" second_answers (LlmResults [])
           sample_id "u2" Hc Hc).
  intros Heq. discriminate Heq.
Defined.

(** ** Generating a paper and reading it back *)

Section GenerateAndRead.

Lemma find_app_fresh {A} (P : A → bool) (l : list A) (x : A) :
  List.find P l = None → List.find P (l ++ [x]) = if P x then Some x else None.
Proof.
  induction l as [|y l IH]; [done|].
  cbn [List.find app]. destruct (P y); [done|]. exact IH.
Qed.

Lemma find_app_found {A} (P : A → bool) (l l' : list A) (y : A) :
  List.find P l = Some y → List.find P (l ++ l') = Some y.
Proof.
  induction l as [|z l IH]; [done|].
  cbn [List.find app]. destruct (P z); [done|]. exact IH.
Qed.

Lemma find_none_not_elem {A} (key : A → string) (k : string) (l : list A) :
  List.find (λ x, bool_decide (key x = k)) l = None ↔ k ∉ key <$> l.
Proof.
  induction l as [|y l IH]; cbn [List.find fmap list_fmap].
  - split; [intros _; apply not_elem_of_nil | done].
  - rewrite not_elem_of_cons. case_bool_decide as Hk.
    + split; [done|]. intros [Hne _]. by destruct Hne.
    + rewrite IH. naive_solver.
Qed.

Lemma find_key {A} (key : A → string) (k : string) (l : list A) (x : A) :
  List.find (λ x, bool_decide (key x = k)) l = Some x → key x = k ∧ x ∈ l.
Proof.
  intros H. apply find_some in H as [Hin Hk].
  apply bool_decide_eq_true in Hk. by rewrite list_elem_of_In.
Qed.

Lemma create_paper_returned w pid questions total code user status :
  PaperDao.get_paper_by_id w pid = None →
  PaperDao.get_paper_by_access_code w code = None →
  PaperDao.create_paper w pid questions total code user status
  = Returned
      {| paper_id := pid; paper_questions := Some questions;
         paper_total_count := total; paper_created_at := Some (clock w);
         paper_status := status; paper_access_code := code;
         paper_user_id := user |}
      (with_db_papers (with_clock w (S (clock w)))
         (db_papers w
          ++ [{| paper_id := pid; paper_questions := Some questions;
                 paper_total_count := total; paper_created_at := Some (clock w);
                 paper_status := status; paper_access_code := code;
                 paper_user_id := user |}])).
Proof.
  intros Hid Hcode. unfold PaperDao.create_paper. rewrite Hid, Hcode.
  rewrite !bool_decide_eq_false_2 by (by intros [? ?]). reflexivity.
Qed.

Lemma create_paper_raised w pid questions total code user status e w' :
  PaperDao.create_paper w pid questions total code user status = Raised e w' →
  w' = w
  ∧ (is_Some (PaperDao.get_paper_by_id w pid)
     ∨ is_Some (PaperDao.get_paper_by_access_code w code)).
Proof.
  unfold PaperDao.create_paper.
  destruct (bool_decide (is_Some (PaperDao.get_paper_by_id w pid))) eqn:H1.
  - intros [= _ <-]. split; [done|]. left. by apply bool_decide_eq_true in H1.
  - destruct (bool_decide (is_Some (PaperDao.get_paper_by_access_code w code)))
      eqn:H2; [|done].
    intros [= _ <-]. split; [done|]. right. by apply bool_decide_eq_true in H2.
Qed.

Lemma truthy_nonempty s : s ≠ "" → PyStr.truthy s = true.
Proof. by destruct s. Qed.

End GenerateAndRead.

(** X17: generating a paper with at least one question, under a paper id
    and a non-empty access code that the durable store does not hold
    yet, returns the summary (id, code, access URL, count), stores an
    active durable row with the full questions, and makes the paper
    readable at once: by id and by access code the same view comes back,
    with every question in order and the answers hidden, the documents
    attached, and the read changes nothing. *)
Theorem generate_then_read w pid code q qs user documents :
  PaperDao.get_paper_by_id w pid = None →
  PaperDao.get_paper_by_access_code w code = None →
  code ≠ "" →
  ∃ summary w' row,
    SharedPaperService.generate_shared_paper w pid code (q :: qs) user documents
    = Returned summary w'
    ∧ ps_paper_id summary = pid
    ∧ ps_access_code summary = code
    ∧ ps_access_url summary = format_access_code_url code ""
    ∧ ps_total_count summary = length (q :: qs)
    ∧ PaperDao.get_paper_by_id w' pid = Some row
    ∧ paper_status row = "active"
    ∧ paper_questions row = Some (q :: qs)
    ∧ paper_access_code row = code
    ∧ SharedPaperService.get_paper_by_id w' pid
      = (Some {| pv_paper_id := pid; pv_access_code := code;
                 pv_questions := hide_correct_answers (q :: qs);
                 pv_total_count := length (q :: qs);
                 pv_created_at := Some (S (clock w));
                 pv_documents := documents;
                 pv_document_count := length documents |}, w')
    ∧ SharedPaperService.get_paper_by_access_code w' code
      = SharedPaperService.get_paper_by_id w' pid.
Proof.
  intros Hid Hcode Hne.
  unfold SharedPaperService.generate_shared_paper.
  rewrite (create_paper_returned _ _ _ _ _ _ _ Hid Hcode).
  cbn [now clock with_db_papers with_clock].
  eexists. eexists. eexists.
  split; [reflexivity|]. repeat (split; [reflexivity|]).
  split.
  { unfold PaperDao.get_paper_by_id in *. cbn.
    rewrite (find_app_fresh _ _ _ Hid). cbn.
    by rewrite bool_decide_eq_true_2. }
  repeat (split; [reflexivity|]).
  split.
  - unfold SharedPaperService.get_paper_by_id, Redis.get_shared_paper. cbn.
    rewrite lookup_insert_eq. cbn. by rewrite length_fmap.
  - unfold SharedPaperService.get_paper_by_access_code,
      Redis.get_paper_id_by_access_code. cbn.
    rewrite lookup_insert_eq.
    assert (PyStr.truthy pid = true ∨ PyStr.truthy pid = false) as [Ht|Ht]
      by (destruct (PyStr.truthy pid); auto).
    + by rewrite Ht.
    + rewrite Ht. unfold PaperDao.get_paper_by_access_code in *. cbn.
      rewrite (find_app_fresh _ _ _ Hcode). cbn.
      rewrite bool_decide_eq_true_2 by done. cbn. reflexivity.
Qed.

Lemma generate_then_read_witness :
  SharedPaperService.get_paper_by_access_code published_world sample_code
  = SharedPaperService.get_paper_by_id published_world sample_id.
Proof.
  destruct (generate_then_read empty_world sample_id sample_code
              {| question_id := "1"; question_type := "single_choice";
                 question_text := "first";
                 options := [opt "A" false; opt "B" true; opt "C" false] |}
              [{| question_id := "2"; question_type := "multiple_choice";
                  question_text := "second";
                  options := [opt "A" true; opt "B" false; opt "C" true] |}]
              (Some "teacher") ["notes.pdf"] eq_refl eq_refl)
    as (summary & w' & row & Hgen & _ & _ & _ & _ & _ & _ & _ & _ & _ & Hread).
  - intros H. discriminate H.
  - unfold published_world, example_questions. rewrite Hgen.
    cbn [outcome_world]. exact Hread.
Defined.



Section FreshCodes.

Lemma create_paper_keeps_keys w pid questions total code user status paper w' :
  paper_keys_unique w →
  PaperDao.create_paper w pid questions total code user status
  = Returned paper w' →
  paper_keys_unique w'.
Proof.
  intros [Hids Hcodes]. unfold PaperDao.create_paper.
  destruct (bool_decide (is_Some (PaperDao.get_paper_by_id w pid))) eqn:H1;
    [done|].
  destruct (bool_decide (is_Some (PaperDao.get_paper_by_access_code w code)))
    eqn:H2; [done|].
  cbn [orb now]. intros [= <- <-].
  apply bool_decide_eq_false in H1, H2.
  unfold paper_keys_unique. cbn [db_papers with_db_papers with_clock].
  rewrite !fmap_app. cbn [fmap list_fmap paper_id paper_access_code].
  split; apply NoDup_app; (split; [done|]); (split; [|apply NoDup_singleton]).
  - intros x Hx Hx'. apply list_elem_of_singleton in Hx' as ->.
    apply H1. unfold PaperDao.get_paper_by_id.
    destruct (List.find _ (db_papers w)) eqn:Hf; [by eexists|].
    by apply find_none_not_elem in Hf.
  - intros x Hx Hx'. apply list_elem_of_singleton in Hx' as ->.
    apply H2. unfold PaperDao.get_paper_by_access_code.
    destruct (List.find _ (db_papers w)) eqn:Hf; [by eexists|].
    by apply find_none_not_elem in Hf.
Qed.


End FreshCodes.



(** ** Reading through the cache *)

(** X20: reading a paper that is not cached but is active in the durable
    store with a non-empty question list returns its hidden-answer view
    (with no documents) and seeds the cache with the full questions and
    the access-code mapping; a second read then gives the same view from
    the cache and changes nothing more. *)
Theorem read_through_reseeds_cache w pid p q qs :
  Redis.get_shared_paper w pid = None →
  PaperDao.get_paper_by_id w pid = Some p →
  paper_status p = "active" →
  paper_questions p = Some (q :: qs) →
  ∃ v w',
    SharedPaperService.get_paper_by_id w pid = (Some v, w')
    ∧ pv_paper_id v = pid
    ∧ pv_questions v = hide_correct_answers (q :: qs)
    ∧ pv_documents v = []
    ∧ (cp_questions <$> Redis.get_shared_paper w' pid) = Some (q :: qs)
    ∧ redis_codes w' !! paper_access_code p = Some pid
    ∧ SharedPaperService.get_paper_by_id w' pid = (Some v, w').
Proof.
  intros Hmiss Hp Hst Hqs.
  assert (paper_id p = pid) as Hid.
  { unfold PaperDao.get_paper_by_id in Hp. by apply find_key in Hp as [? _]. }
  unfold SharedPaperService.get_paper_by_id at 1.
  unfold PaperDao.get_paper_questions. rewrite Hmiss, Hp, Hst, Hqs.
  cbn [bool_decide negb]. rewrite bool_decide_eq_true_2 by done. cbn [negb].
  eexists. eexists. split; [reflexivity|]. cbn.
  split; [done|]. split; [done|]. split; [done|].
  unfold Redis.get_shared_paper. cbn. rewrite lookup_insert_eq.
  split; [done|]. split; [by rewrite lookup_insert_eq|].
  unfold SharedPaperService.get_paper_by_id, Redis.get_shared_paper. cbn.
  rewrite lookup_insert_eq. cbn. by rewrite length_fmap.
Qed.

Lemma read_through_reseeds_cache_witness :
  let evicted := Redis.delete_shared_paper published_world sample_id in
  (SharedPaperService.get_paper_by_id
     (SharedPaperService.get_paper_by_id evicted sample_id).2 sample_id).1
  = (SharedPaperService.get_paper_by_id evicted sample_id).1.
Proof.
  cbv zeta.
  destruct (read_through_reseeds_cache
              (Redis.delete_shared_paper published_world sample_id) sample_id
              {| paper_id := sample_id;
                 paper_questions := Some example_questions;
                 paper_total_count := 2; paper_created_at := Some 0%nat;
                 paper_status := "active"; paper_access_code := sample_code;
                 paper_user_id := Some "teacher" |}
              {| question_id := "1"; question_type := "single_choice";
                 question_text := "first";
                 options := [opt "A" false; opt "B" true; opt "C" false] |}
              [{| question_id := "2"; question_type := "multiple_choice";
                  question_text := "second";
                  options := [opt "A" true; opt "B" false; opt "C" true] |}])
    as (v & w' & H1 & _ & _ & _ & _ & _ & H2).
  - vm_compute. reflexivity.
  - vm_compute. reflexivity.
  - reflexivity.
  - reflexivity.
  - rewrite H1. cbn [fst snd]. by rewrite H2.
Defined.

Lemma reads_leave_durable_store_aux w :
  (∀ pid, (SharedPaperService.get_paper_by_id w pid).1 = None →
          (SharedPaperService.get_paper_by_id w pid).2 = w)
  ∧ (∀ code, (SharedPaperService.get_paper_by_access_code w code).1 = None →
             (SharedPaperService.get_paper_by_access_code w code).2 = w).
Proof.
  assert (∀ pid, (SharedPaperService.get_paper_by_id w pid).1 = None →
                 (SharedPaperService.get_paper_by_id w pid).2 = w) as Hid.
  { intros pid. unfold SharedPaperService.get_paper_by_id.
    destruct (Redis.get_shared_paper w pid) as [c|]; [done|].
    destruct (PaperDao.get_paper_by_id w pid) as [p|]; [|done].
    destruct (negb _); [done|].
    by destruct (PaperDao.get_paper_questions w pid) as [[|q qs]|]. }
  split; [exact Hid|].
  intros code. unfold SharedPaperService.get_paper_by_access_code.
  destruct (Redis.get_paper_id_by_access_code w code) as [pid|];
    [apply Hid|].
  destruct (PaperDao.get_paper_by_access_code w code) as [p|]; [|done].
  destruct (negb _); [done|]. apply Hid.
Qed.

(** X21: reading a paper, by id or by access code, never writes to the
    durable store, never touches the cached answers and does not read
    the clock; a cache hit and a read that finds nothing leave the whole
    world as it was. *)
Theorem reads_leave_durable_store w :
  (∀ pid,
      let r := SharedPaperService.get_paper_by_id w pid in
      db_papers r.2 = db_papers w
      ∧ db_user_answers r.2 = db_user_answers w
      ∧ db_next_id r.2 = db_next_id w
      ∧ redis_answers r.2 = redis_answers w
      ∧ clock r.2 = clock w
      ∧ (is_Some (Redis.get_shared_paper w pid) → r.2 = w)
      ∧ (r.1 = None → r.2 = w))
  ∧ (∀ code,
        let r := SharedPaperService.get_paper_by_access_code w code in
        db_papers r.2 = db_papers w
        ∧ db_user_answers r.2 = db_user_answers w
        ∧ db_next_id r.2 = db_next_id w
        ∧ redis_answers r.2 = redis_answers w
        ∧ clock r.2 = clock w
        ∧ (r.1 = None → r.2 = w)).
Proof.
  assert (∀ pid,
      let r := SharedPaperService.get_paper_by_id w pid in
      db_papers r.2 = db_papers w
      ∧ db_user_answers r.2 = db_user_answers w
      ∧ db_next_id r.2 = db_next_id w
      ∧ redis_answers r.2 = redis_answers w
      ∧ clock r.2 = clock w
      ∧ (is_Some (Redis.get_shared_paper w pid) → r.2 = w)
      ∧ (r.1 = None → r.2 = w)) as Hid.
  { intros pid. cbv zeta. unfold SharedPaperService.get_paper_by_id.
    destruct (Redis.get_shared_paper w pid) as [c|]; [by repeat split|].
    destruct (PaperDao.get_paper_by_id w pid) as [p|];
      [|repeat split; try done; by intros [? ?]].
    destruct (negb _); [repeat split; try done; by intros [? ?]|].
    destruct (PaperDao.get_paper_questions w pid) as [[|q qs]|];
      cbn; repeat split; try done; by intros [? ?]. }
  split; [exact Hid|].
  intros code. cbv zeta. unfold SharedPaperService.get_paper_by_access_code.
  destruct (Redis.get_paper_id_by_access_code w code) as [pid|].
  - destruct (Hid pid) as (H1 & H2 & H3 & H4 & H5 & _ & H7). by repeat split.
  - destruct (PaperDao.get_paper_by_access_code w code) as [p|];
      [|by repeat split].
    destruct (negb _); [by repeat split|].
    destruct (Hid (paper_id p)) as (H1 & H2 & H3 & H4 & H5 & _ & H7).
    by repeat split.
Qed.

(** ** The papers table *)

Section PapersTable.

Lemma papers_update_first_find pid pid' status l :
  List.find (λ p, bool_decide (paper_id p = pid'))
    (PaperDao.update_first pid (PaperDao.set_status status) l)
  = if decide (pid' = pid)
    then PaperDao.set_status status
           <$> List.find (λ p, bool_decide (paper_id p = pid)) l
    else List.find (λ p, bool_decide (paper_id p = pid')) l.
Proof.
  induction l as [|p l IH]; [by case_decide|].
  cbn [PaperDao.update_first List.find].
  case_bool_decide as Hp.
  - cbn [List.find PaperDao.set_status paper_id]. case_decide as Hd.
    + subst pid'. by rewrite !bool_decide_eq_true_2.
    + rewrite (bool_decide_eq_false_2 (paper_id p = pid')) by congruence.
      reflexivity.
  - cbn [List.find]. rewrite IH. case_decide as Hd.
    + subst pid'. by rewrite !bool_decide_eq_false_2.
    + done.
Qed.

Lemma papers_update_first_columns pid status l :
  let l' := PaperDao.update_first pid (PaperDao.set_status status) l in
  paper_id <$> l' = paper_id <$> l
  ∧ paper_questions <$> l' = paper_questions <$> l
  ∧ paper_access_code <$> l' = paper_access_code <$> l
  ∧ paper_created_at <$> l' = paper_created_at <$> l
  ∧ paper_total_count <$> l' = paper_total_count <$> l
  ∧ paper_user_id <$> l' = paper_user_id <$> l.
Proof.
  induction l as [|p l IH]; [done|].
  cbn [PaperDao.update_first]. case_bool_decide; [done|].
  cbv zeta in IH. destruct IH as (H1 & H2 & H3 & H4 & H5 & H6).
  cbn. by rewrite H1, H2, H3, H4, H5, H6.
Qed.

Lemma remove_first_find_other {A} (key : A → string) (k k' : string) (l : list A) :
  k' ≠ k →
  List.find (λ x, bool_decide (key x = k'))
    (remove_first (λ x, bool_decide (key x = k)) l)
  = List.find (λ x, bool_decide (key x = k')) l.
Proof.
  intros Hne. induction l as [|x l IH]; [done|].
  cbn [remove_first List.find]. case_bool_decide as Hk.
  - rewrite (bool_decide_eq_false_2 (key x = k')) by congruence. done.
  - cbn [List.find]. by rewrite IH.
Qed.

Lemma remove_first_find_same {A} (key : A → string) (k : string) (l : list A) :
  NoDup (key <$> l) →
  List.find (λ x, bool_decide (key x = k))
    (remove_first (λ x, bool_decide (key x = k)) l) = None.
Proof.
  induction l as [|x l IH]; [done|].
  cbn [fmap list_fmap]. intros [Hx Hnd]%NoDup_cons.
  cbn [remove_first]. case_bool_decide as Hk.
  - apply find_none_not_elem. by rewrite <- Hk.
  - cbn [List.find]. rewrite bool_decide_eq_false_2 by done. by apply IH.
Qed.

Lemma remove_first_keys {A} (key : A → string) (P : A → bool) (l : list A) :
  NoDup (key <$> l) → NoDup (key <$> remove_first P l).
Proof.
  induction l as [|x l IH]; [done|].
  cbn [fmap list_fmap]. intros [Hx Hnd]%NoDup_cons.
  cbn [remove_first]. destruct (P x); [done|].
  cbn [fmap list_fmap]. apply NoDup_cons. split; [|by apply IH].
  intros Hin. apply Hx. clear -Hin.
  induction l as [|y l IH]; [done|].
  cbn [remove_first] in Hin. destruct (P y).
  - by right.
  - cbn in Hin. apply elem_of_cons in Hin as [->|Hin]; [by left|].
    right. by apply IH.
Qed.

Lemma answers_of_deleted_paper pid (rows : list UserAnswer) :
  List.filter (λ r, bool_decide (ua_paper_id r = pid))
    (List.filter (λ r, negb (bool_decide (ua_paper_id r = pid))) rows) = [].
Proof.
  induction rows as [|r rows IH]; [done|].
  cbn [List.filter]. case_bool_decide as Hr; cbn [negb]; [done|].
  cbn [List.filter]. by rewrite bool_decide_eq_false_2.
Qed.

Lemma answers_of_other_paper pid pid' (rows : list UserAnswer) :
  pid' ≠ pid →
  List.filter (λ r, bool_decide (ua_paper_id r = pid'))
    (List.filter (λ r, negb (bool_decide (ua_paper_id r = pid))) rows)
  = List.filter (λ r, bool_decide (ua_paper_id r = pid')) rows.
Proof.
  intros Hne. induction rows as [|r rows IH]; [done|].
  cbn [List.filter]. case_bool_decide as Hr; cbn [negb].
  - rewrite bool_decide_eq_false_2 by congruence. done.
  - cbn [List.filter]. by rewrite IH.
Qed.

Lemma no_answer_of_deleted_paper pid uid (rows : list UserAnswer) :
  List.find (UserAnswerDao.is_key pid uid)
    (List.filter (λ r, negb (bool_decide (ua_paper_id r = pid))) rows) = None.
Proof.
  induction rows as [|r rows IH]; [done|].
  cbn [List.filter]. case_bool_decide as Hr; cbn [negb]; [done|].
  cbn [List.find]. unfold UserAnswerDao.is_key at 1.
  by rewrite (bool_decide_eq_false_2 (ua_paper_id r = pid)).
Qed.

End PapersTable.

(** X22: under the table's key constraints, a successful create_paper
    means the id and the access code were both new; the keys stay
    unique, the new row is found by its id and by its code with the
    questions it was given, and rows under other ids are found as
    before.  A create_paper that raises has changed nothing, and the id
    or the code was already there. *)
Theorem create_paper_spec w pid questions total code user status :
  paper_keys_unique w →
  match PaperDao.create_paper w pid questions total code user status with
  | Returned paper w' =>
      PaperDao.get_paper_by_id w pid = None
      ∧ PaperDao.get_paper_by_access_code w code = None
      ∧ paper_keys_unique w'
      ∧ PaperDao.get_paper_by_id w' pid = Some paper
      ∧ PaperDao.get_paper_by_access_code w' code = Some paper
      ∧ PaperDao.get_paper_questions w' pid = Some questions
      ∧ paper_status paper = status
      ∧ (∀ pid', pid' ≠ pid →
                 PaperDao.get_paper_by_id w' pid' = PaperDao.get_paper_by_id w pid')
  | Raised e w' =>
      w' = w
      ∧ (is_Some (PaperDao.get_paper_by_id w pid)
         ∨ is_Some (PaperDao.get_paper_by_access_code w code))
  end.
Proof.
  intros Hkeys.
  destruct (PaperDao.create_paper w pid questions total code user status)
    as [paper w'|e w'] eqn:Hc; [|by apply create_paper_raised in Hc].
  pose proof (create_paper_keeps_keys _ _ _ _ _ _ _ _ _ Hkeys Hc) as Hk'.
  assert (PaperDao.get_paper_by_id w pid = None
          ∧ PaperDao.get_paper_by_access_code w code = None) as [Hid Hcode].
  { unfold PaperDao.create_paper in Hc.
    destruct (PaperDao.get_paper_by_id w pid) eqn:H1.
    { rewrite bool_decide_eq_true_2 in Hc by (by eexists). done. }
    destruct (PaperDao.get_paper_by_access_code w code) eqn:H2; [|done].
    rewrite (bool_decide_eq_true_2 (is_Some (Some _))) in Hc by (by eexists).
    by rewrite orb_true_r in Hc. }
  rewrite (create_paper_returned _ _ _ _ _ _ _ Hid Hcode) in Hc.
  injection Hc as <- <-.
  split; [done|]. split; [done|]. split; [done|].
  unfold PaperDao.get_paper_questions, PaperDao.get_paper_by_id,
    PaperDao.get_paper_by_access_code in *.
  cbn [db_papers with_db_papers with_clock].
  rewrite (find_app_fresh _ _ _ Hid), (find_app_fresh _ _ _ Hcode).
  cbn [paper_id paper_access_code]. rewrite !bool_decide_eq_true_2 by done.
  repeat (split; [done|]).
  intros pid' Hne.
  destruct (List.find (λ p, bool_decide (paper_id p = pid')) (db_papers w))
    as [p|] eqn:Hf.
  - by apply find_app_found.
  - rewrite (find_app_fresh _ _ _ Hf). cbn [paper_id].
    by rewrite bool_decide_eq_false_2 by congruence.
Qed.

Lemma create_paper_spec_witness :
  paper_keys_unique empty_world
  ∧ paper_keys_unique
      (outcome_world
         (PaperDao.create_paper empty_world sample_id example_questions 2
            sample_code None "active")).
Proof.
  assert (paper_keys_unique empty_world) as Hk by (split; constructor).
  split; [exact Hk|].
  pose proof (create_paper_spec empty_world sample_id example_questions 2
                sample_code None "active" Hk) as H.
  destruct (PaperDao.create_paper empty_world sample_id example_questions 2
              sample_code None "active") as [p w'|e w'].
  - cbn [outcome_world]. by destruct H as (_ & _ & H & _).
  - cbn [outcome_world]. destruct H as [-> _]. exact Hk.
Defined.

(** X23: update_paper_status reports whether the paper exists; when it
    does, the row found under that id afterwards is the old one with only
    its status replaced, every other column of every row and the rows
    under other ids are as before, and the cache is not touched - so a
    cached copy outlives the status change; when it does not, nothing
    changes. *)
Theorem update_paper_status_spec w pid status :
  let r := PaperDao.update_paper_status w pid status in
  (r.1 = true ↔ is_Some (PaperDao.get_paper_by_id w pid))
  ∧ (PaperDao.get_paper_by_id w pid = None → r.2 = w)
  ∧ PaperDao.get_paper_by_id r.2 pid
    = PaperDao.set_status status <$> PaperDao.get_paper_by_id w pid
  ∧ (∀ pid', pid' ≠ pid →
             PaperDao.get_paper_by_id r.2 pid' = PaperDao.get_paper_by_id w pid')
  ∧ paper_id <$> db_papers r.2 = paper_id <$> db_papers w
  ∧ paper_questions <$> db_papers r.2 = paper_questions <$> db_papers w
  ∧ paper_access_code <$> db_papers r.2 = paper_access_code <$> db_papers w
  ∧ db_user_answers r.2 = db_user_answers w
  ∧ redis_papers r.2 = redis_papers w
  ∧ redis_codes r.2 = redis_codes w.
Proof.
  cbv zeta. unfold PaperDao.update_paper_status.
  destruct (PaperDao.get_paper_by_id w pid) as [p|] eqn:Hp; cbn [fst snd].
  - pose proof (papers_update_first_columns pid status (db_papers w))
      as (H1 & H2 & H3 & _).
    split; [split; [by eexists | done]|]. split; [done|].
    unfold PaperDao.get_paper_by_id in *. cbn [db_papers with_db_papers].
    split.
    { rewrite papers_update_first_find, Hp. by case_decide. }
    split.
    { intros pid' Hne. rewrite papers_update_first_find. by case_decide. }
    by repeat split.
  - split; [split; [done | by intros [? ?]]|]. by repeat split.
Qed.

(** X24: deleting an existing paper, under the table's key constraints,
    removes its row and every answer row of that paper in one step and
    nothing else: the paper is no longer found, it has no answers left,
    rows and answers of other papers are as before and the keys stay
    unique.  The cache is not touched, so a cached copy of the deleted
    paper is still served. *)
Theorem delete_paper_cascades w pid p :
  paper_keys_unique w →
  PaperDao.get_paper_by_id w pid = Some p →
  let r := delete_paper w pid in
  r.1 = true
  ∧ PaperDao.get_paper_by_id r.2 pid = None
  ∧ get_paper_all_answers r.2 pid = []
  ∧ (∀ uid, UserAnswerDao.get_user_answer r.2 pid uid = None)
  ∧ (∀ pid', pid' ≠ pid →
             PaperDao.get_paper_by_id r.2 pid' = PaperDao.get_paper_by_id w pid'
             ∧ get_paper_all_answers r.2 pid' = get_paper_all_answers w pid')
  ∧ paper_keys_unique r.2
  ∧ (SharedPaperService.get_paper_by_id r.2 pid).1
    = (match Redis.get_shared_paper w pid with
       | Some _ => (SharedPaperService.get_paper_by_id w pid).1
       | None => None
       end).
Proof.
  intros [Hids Hcodes] Hp. cbv zeta. unfold delete_paper. rewrite Hp.
  cbn [fst snd].
  assert (PaperDao.get_paper_by_id
            (with_db_papers
               (with_db_user_answers w
                  (List.filter (λ r, negb (bool_decide (ua_paper_id r = pid)))
                     (db_user_answers w)))
               (remove_first (λ p0, bool_decide (paper_id p0 = pid))
                  (db_papers w))) pid = None) as Hgone.
  { unfold PaperDao.get_paper_by_id. cbn [db_papers with_db_papers].
    by apply (remove_first_find_same paper_id). }
  split; [done|]. split; [exact Hgone|].
  split; [apply answers_of_deleted_paper|].
  split; [intros uid; apply no_answer_of_deleted_paper|].
  split.
  { intros pid' Hne. split.
    - unfold PaperDao.get_paper_by_id. cbn [db_papers with_db_papers].
      by apply (remove_first_find_other paper_id).
    - by apply answers_of_other_paper. }
  split.
  { split; cbn [db_papers with_db_papers]; by apply remove_first_keys. }
  unfold SharedPaperService.get_paper_by_id at 1.
  rewrite Hgone. unfold Redis.get_shared_paper.
  cbn [redis_papers with_db_papers with_db_user_answers].
  unfold SharedPaperService.get_paper_by_id, Redis.get_shared_paper.
  by destruct (redis_papers w !! pid).
Qed.

Lemma delete_paper_cascades_witness :
  paper_keys_unique submitted_world
  ∧ get_paper_all_answers submitted_world sample_id ≠ []
  ∧ get_paper_all_answers (delete_paper submitted_world sample_id).2 sample_id
    = [].
Proof.
  assert (paper_keys_unique submitted_world) as Hk
    by (split; apply (bool_decide_unpack _); vm_compute; exact I).
  split; [exact Hk|]. split; [by vm_compute|].
  destruct (PaperDao.get_paper_by_id submitted_world sample_id) as [p|] eqn:Hp;
    [|vm_compute in Hp; discriminate Hp].
  exact (proj1 (proj2 (proj2 (delete_paper_cascades _ _ p Hk Hp)))).
Defined.

(** ** Deleting a submission *)

Section DeleteAnswer.

Import UserAnswerDao.

Lemma rows_for_remove_first_same pid uid rows :
  rows_for pid uid (remove_first (is_key pid uid) rows)
  = tail (rows_for pid uid rows).
Proof.
  unfold rows_for. induction rows as [|r rows IH]; [done|].
  cbn [remove_first List.filter]. destruct (is_key pid uid r) eqn:Hk; [done|].
  cbn [List.filter]. by rewrite Hk.
Qed.

Lemma rows_for_remove_first_other pid uid p u rows :
  (p, u) ≠ (pid, uid) →
  rows_for p u (remove_first (is_key pid uid) rows) = rows_for p u rows.
Proof.
  intros Hne. unfold rows_for. induction rows as [|r rows IH]; [done|].
  cbn [remove_first List.filter]. destruct (is_key pid uid r) eqn:Hk.
  - by rewrite (is_key_other _ _ _ _ _ Hne Hk).
  - cbn [List.filter]. by rewrite IH.
Qed.

Lemma remove_first_length {A} (P : A → bool) (l : list A) x :
  List.find P l = Some x → S (length (remove_first P l)) = length l.
Proof.
  induction l as [|y l IH]; [done|].
  cbn [List.find remove_first]. destruct (P y); [done|].
  intros H. cbn [length]. by rewrite IH.
Qed.

End DeleteAnswer.

(** X25: delete_user_answer returns true exactly when the key has a
    record and then removes one row, the one get_user_answer returns;
    rows of every other key are as before, and when the table has at
    most one record per key the key has none afterwards, so the next
    submit creates a new row rather than updating.  Without a record
    nothing changes. *)
Theorem delete_user_answer_spec w pid uid :
  let r := delete_user_answer w pid uid in
  (r.1 = true ↔ is_Some (UserAnswerDao.get_user_answer w pid uid))
  ∧ (UserAnswerDao.get_user_answer w pid uid = None → r.2 = w)
  ∧ (is_Some (UserAnswerDao.get_user_answer w pid uid) →
     S (length (db_user_answers r.2)) = length (db_user_answers w))
  ∧ rows_for pid uid (db_user_answers r.2)
    = tail (rows_for pid uid (db_user_answers w))
  ∧ (∀ p u, (p, u) ≠ (pid, uid) →
            rows_for p u (db_user_answers r.2) = rows_for p u (db_user_answers w))
  ∧ (at_most_one_per_key (db_user_answers w) →
     UserAnswerDao.get_user_answer r.2 pid uid = None
     ∧ at_most_one_per_key (db_user_answers r.2))
  ∧ db_papers r.2 = db_papers w
  ∧ redis_answers r.2 = redis_answers w.
Proof.
  cbv zeta. unfold delete_user_answer.
  destruct (UserAnswerDao.get_user_answer w pid uid) as [row|] eqn:Hrow;
    cbn [fst snd db_user_answers with_db_user_answers].
  - split; [split; [by eexists | done]|]. split; [done|].
    split; [intros _; by apply (remove_first_length _ _ row)|].
    split; [apply rows_for_remove_first_same|].
    split; [intros p u Hne; by apply rows_for_remove_first_other|].
    split; [|done].
    intros Hinv. split.
    + unfold UserAnswerDao.get_user_answer.
      cbn [db_user_answers with_db_user_answers].
      rewrite find_head_rows_for, rows_for_remove_first_same.
      specialize (Hinv pid uid).
      destruct (rows_for pid uid (db_user_answers w)) as [|x [|y rest]];
        [done|done|cbn in Hinv; lia].
    + intros p u. destruct (decide ((p, u) = (pid, uid))) as [[= -> ->]|Hne].
      * rewrite rows_for_remove_first_same. specialize (Hinv pid uid).
        destruct (rows_for pid uid (db_user_answers w)); cbn in *; lia.
      * rewrite rows_for_remove_first_other by done. apply Hinv.
  - split; [split; [done | by intros [? ?]]|]. split; [done|].
    split; [by intros [? ?]|].
    unfold UserAnswerDao.get_user_answer in Hrow.
    rewrite find_head_rows_for in Hrow.
    split; [by destruct (rows_for pid uid (db_user_answers w))|].
    split; [done|]. split; [|done].
    intros Hinv. split; [|done].
    unfold UserAnswerDao.get_user_answer. by rewrite find_head_rows_for.
Qed.

(** ** Cache round trips *)

(** X26: what is saved in the cache is read back: a saved paper under its
    id, a saved answer under its (paper, user) pair, and an access-code
    mapping under its code provided the paper id is not empty (an empty
    id reads back as a miss); a later save under the same key replaces
    the earlier one, saves under one key leave reads of other keys
    unchanged, and a deleted paper entry is a miss. *)
Theorem cache_round_trips w :
  (∀ pid data,
      Redis.get_shared_paper (Redis.save_shared_paper w pid data) pid = Some data
      ∧ (∀ data', Redis.save_shared_paper (Redis.save_shared_paper w pid data')
                    pid data
                  = Redis.save_shared_paper w pid data)
      ∧ (∀ pid', pid' ≠ pid →
                 Redis.get_shared_paper (Redis.save_shared_paper w pid data) pid'
                 = Redis.get_shared_paper w pid')
      ∧ Redis.get_shared_paper
          (Redis.delete_shared_paper (Redis.save_shared_paper w pid data) pid)
          pid = None)
  ∧ (∀ code pid,
        Redis.get_paper_id_by_access_code
          (Redis.save_access_code_mapping w code pid) code
        = (if PyStr.truthy pid then Some pid else None)
        ∧ (∀ code', code' ≠ code →
                    Redis.get_paper_id_by_access_code
                      (Redis.save_access_code_mapping w code pid) code'
                    = Redis.get_paper_id_by_access_code w code'))
  ∧ (∀ pid uid data,
        Redis.get_user_answer (Redis.save_user_answer w pid uid data) pid uid
        = Some data
        ∧ (∀ data', Redis.save_user_answer
                      (Redis.save_user_answer w pid uid data') pid uid data
                    = Redis.save_user_answer w pid uid data)).
Proof.
  split; [|split].
  - intros pid data.
    unfold Redis.get_shared_paper, Redis.save_shared_paper,
      Redis.delete_shared_paper. cbn.
    split; [apply lookup_insert_eq|].
    split; [intros data'; by rewrite insert_insert_eq|].
    split; [intros pid' Hne; by apply lookup_insert_ne|].
    apply lookup_delete_eq.
  - intros code pid.
    unfold Redis.get_paper_id_by_access_code, Redis.save_access_code_mapping.
    cbn. split; [by rewrite lookup_insert_eq|].
    intros code' Hne. by rewrite lookup_insert_ne.
  - intros pid uid data.
    unfold Redis.get_user_answer, Redis.save_user_answer. cbn.
    split; [apply lookup_insert_eq|].
    intros data'. by rewrite insert_insert_eq.
Qed.

(** ** The endpoints *)



(** X28: the two read endpoints answer 200 with the paper when the
    service finds it and 404 otherwise, the 404 leaving both stores as
    they were; an uncached paper that is missing or not active is a 404;
    and the answer, status and body, is the same for two worlds that
    differ only in the options' correctness flags and explanations. *)
Theorem read_endpoint_status w :
  (∀ pid,
      let r := get_shared_paper_by_id w pid in
      (∀ c, Redis.get_shared_paper w pid = Some c →
            r = (HttpOk {| gp_paper_id := cp_paper_id c;
                           gp_access_code := cp_access_code c;
                           gp_questions := hide_correct_answers (cp_questions c);
                           gp_total_count := length (cp_questions c);
                           gp_created_at := cp_created_at c |}, w))
      ∧ (Redis.get_shared_paper w pid = None →
         (∀ p, PaperDao.get_paper_by_id w pid = Some p →
               paper_status p ≠ "active") →
         r = (HttpError 404 "试题不存在或已失效", w))
      ∧ (∀ code detail, r.1 = HttpError code detail →
                        code = 404%nat ∧ r.2 = w))
  ∧ (∀ code,
        let r := get_shared_paper_by_access_code w code in
        ∀ status detail, r.1 = HttpError status detail →
                         status = 404%nat ∧ r.2 = w)
  ∧ (∀ w2, same_apart_from_answers w w2 →
           (∀ pid, (get_shared_paper_by_id w pid).1
                   = (get_shared_paper_by_id w2 pid).1)
           ∧ (∀ code, (get_shared_paper_by_access_code w code).1
                      = (get_shared_paper_by_access_code w2 code).1)).
Proof.
  split; [|split].
  - intros pid. cbv zeta. unfold get_shared_paper_by_id.
    split; [|split].
    + intros c Hc. unfold SharedPaperService.get_paper_by_id. rewrite Hc.
      unfold paper_response. cbn [fst snd pv_paper_id pv_access_code
        pv_questions pv_total_count pv_created_at].
      unfold hide_correct_answers. by rewrite length_fmap.
    + intros Hc Hp. unfold SharedPaperService.get_paper_by_id. rewrite Hc.
      destruct (PaperDao.get_paper_by_id w pid) as [p|]; [|done].
      by rewrite bool_decide_eq_false_2 by (by apply Hp).
    + intros code detail.
      pose proof (proj1 (reads_leave_durable_store_aux w) pid) as Hnone.
      destruct (SharedPaperService.get_paper_by_id w pid) as [[v|] w'];
        [done|]. cbn. intros [= <- _]. split; [done|]. by apply Hnone.
  - intros code. cbv zeta. unfold get_shared_paper_by_access_code.
    intros status detail.
    pose proof (proj2 (reads_leave_durable_store_aux w) code) as Hnone.
    destruct (SharedPaperService.get_paper_by_access_code w code)
      as [[v|] w']; [done|]. cbn. intros [= <- _]. split; [done|].
    by apply Hnone.
  - unfold same_apart_from_answers. intros w2 Heq. split.
    + intros pid. unfold get_shared_paper_by_id.
      pose proof (get_paper_by_id_scrub w pid) as H1.
      pose proof (get_paper_by_id_scrub w2 pid) as H2.
      rewrite Heq in H1.
      destruct (SharedPaperService.get_paper_by_id w pid) as [[v|] w'],
        (SharedPaperService.get_paper_by_id w2 pid) as [[v2|] w2'];
        cbn in *; congruence.
    + intros code. unfold get_shared_paper_by_access_code.
      pose proof (get_paper_by_access_code_scrub w code) as H1.
      pose proof (get_paper_by_access_code_scrub w2 code) as H2.
      rewrite Heq in H1.
      destruct (SharedPaperService.get_paper_by_access_code w code)
        as [[v|] w'],
        (SharedPaperService.get_paper_by_access_code w2 code) as [[v2|] w2'];
        cbn in *; congruence.
Qed.

(** ** The question generator's retry *)

(** X29: the question generator is called a second time only when the
    first call raised: any other first reply decides the outcome alone,
    and a first reply that is not a JSON object fails without a retry;
    after a first exception the second reply decides, and a second
    exception is the error raised.  Questions that come back keep their
    number, order, ids, texts and options, and their types are Chinese
    labels or strings the label table does not know. *)
Theorem generator_retried_once_after_exception :
  (∀ first second second',
      (∀ e, first ≠ GenRaises e) →
      generate_training_questions first second
      = generate_training_questions first second')
  ∧ (∀ t second,
        generate_training_questions (GenNotObject t) second
        = inl (AttributeError ("'" +:+ t +:+ "' object has no attribute 'get'")))
  ∧ (∀ e second third,
        (∀ e', second ≠ GenRaises e') →
        generate_training_questions (GenRaises e) second
        = generate_training_questions second third)
  ∧ (∀ e e', generate_training_questions (GenRaises e) (GenRaises e') = inl e')
  ∧ (∀ first second questions,
        generate_training_questions first second = inr questions →
        ∃ raw, (first = GenObject raw
                ∨ (∃ e, first = GenRaises e) ∧ second = GenObject raw)
               ∧ length questions = length raw
               ∧ question_id <$> questions = question_id <$> raw
               ∧ question_text <$> questions = question_text <$> raw
               ∧ options <$> questions = options <$> raw
               ∧ question_type <$> questions
                 = (convert_question_type_to_chinese ∘ question_type) <$> raw
               ∧ Forall (λ q, convert_question_type_to_chinese (question_type q)
                              = question_type q) questions).
Proof.
  split; [|split; [|split; [|split]]].
  - intros [e|t|raw] second second' Hne; [by destruct (Hne e) | done | done].
  - done.
  - intros e second third Hne.
    destruct second as [e2|t|raw]; [by destruct (Hne e2) | done | done].
  - done.
  - intros first second questions.
    assert (∀ raw,
      let qs := (λ q, set_question_type q
                        (convert_question_type_to_chinese (question_type q)))
                  <$> raw in
      length qs = length raw
      ∧ question_id <$> qs = question_id <$> raw
      ∧ question_text <$> qs = question_text <$> raw
      ∧ options <$> qs = options <$> raw
      ∧ question_type <$> qs
        = (convert_question_type_to_chinese ∘ question_type) <$> raw
      ∧ Forall (λ q, convert_question_type_to_chinese (question_type q)
                     = question_type q) qs) as Hshape.
    { intros raw. cbv zeta. rewrite length_fmap, <- !list_fmap_compose.
      repeat split; try done.
      apply Forall_fmap, Forall_forall. intros q _. cbn.
      apply convert_idempotent. }
    unfold generate_training_questions.
    destruct first as [e|t|raw].
    + destruct second as [e2|t|raw]; try done.
      intros [= <-]. exists raw. split; [right; eauto|]. apply Hshape.
    + done.
    + intros [= <-]. exists raw. split; [by left|]. apply Hshape.
Qed.

(** ** Object names *)

Section ObjectNames.

Lemma slash_free_cons c s :
  slash_free (String c s) ↔ c ≠ slash ∧ slash_free s.
Proof.
  unfold slash_free. cbn [PyStr.bytes String.list_ascii_of_string].
  rewrite not_elem_of_cons. unfold PyStr.bytes. naive_solver.
Qed.

Lemma split_slash_free s : slash_free s → PyStr.split slash s = [s].
Proof.
  induction s as [|c s IH]; [done|].
  intros [Hc Hs]%slash_free_cons. cbn [PyStr.split].
  rewrite (proj2 (Ascii.eqb_neq c slash)) by done.
  by rewrite IH.
Qed.

Lemma split_app_slash x r :
  slash_free x →
  PyStr.split slash (x +:+ String slash r) = x :: PyStr.split slash r.
Proof.
  induction x as [|c x IH]; intros Hx.
  - change ("" +:+ String slash r) with (String slash r).
    cbn [PyStr.split]. by rewrite Ascii.eqb_refl.
  - apply slash_free_cons in Hx as [Hc Hx].
    change (String c x +:+ String slash r)
      with (String c (x +:+ String slash r)).
    cbn [PyStr.split].
    rewrite (proj2 (Ascii.eqb_neq c slash)) by done.
    by rewrite IH.
Qed.

Lemma join_cons x y l :
  PyStr.join "/" (x :: y :: l) = x +:+ String slash (PyStr.join "/" (y :: l)).
Proof. reflexivity. Qed.

Lemma split_join l :
  l ≠ [] → Forall slash_free l → PyStr.split slash (PyStr.join "/" l) = l.
Proof.
  induction l as [|x l IH]; [done|]. intros _ [Hx Hl]%Forall_cons.
  destruct l as [|y l].
  - cbn [PyStr.join]. by apply split_slash_free.
  - rewrite join_cons, split_app_slash by done. f_equal. by apply IH.
Qed.

Lemma join_ends l z :
  last l = Some z → ∃ pre, PyStr.bytes (PyStr.join "/" l) = pre ++ PyStr.bytes z.
Proof.
  induction l as [|x l IH]; [done|].
  destruct l as [|y l].
  - intros [= <-]. by exists [].
  - intros Hl. destruct (IH Hl) as [pre Hpre].
    rewrite join_cons, bytes_app.
    change (PyStr.bytes (String slash (PyStr.join "/" (y :: l))))
      with (slash :: PyStr.bytes (PyStr.join "/" (y :: l))).
    rewrite Hpre. exists (PyStr.bytes x ++ slash :: pre).
    by rewrite <- app_assoc.
Qed.

Lemma lstrip_char_head c x l : x ≠ c → lstrip_char c (x :: l) = x :: l.
Proof.
  intros Hx. cbn [lstrip_char]. by rewrite (proj2 (Ascii.eqb_neq x c)).
Qed.

Lemma lstrip_char_same c l : lstrip_char c (c :: l) = lstrip_char c l.
Proof. cbn [lstrip_char]. by rewrite Ascii.eqb_refl. Qed.

Lemma slash_free_bytes s c : slash_free s → c ∈ PyStr.bytes s → c ≠ slash.
Proof. unfold slash_free. intros Hs Hc ->. done. Qed.

Lemma strip_char_inner (l : list Ascii.ascii) x y mid :
  l = x :: mid ++ [y] → x ≠ slash → y ≠ slash →
  strip_char slash (PyStr.of_bytes (slash :: l)) = PyStr.of_bytes l.
Proof.
  intros -> Hx Hy. unfold strip_char. rewrite bytes_of_bytes.
  rewrite lstrip_char_same, lstrip_char_head by done.
  change (x :: mid ++ [y]) with ((x :: mid) ++ [y]).
  rewrite rev_unit, lstrip_char_head by done.
  rewrite <- rev_unit. by rewrite rev_involutive.
Qed.

End ObjectNames.

(** X30: for a URL path /bucket/seg1/.../segn with a non-empty bucket
    name and a non-empty last segment, the object name is the segments
    after the bucket joined by slashes when there are at least two of
    them, and a file directly under the bucket (a single segment) is
    rejected with ValueError. *)
Theorem extract_object_name_spec (bucket z : string) (segs : list string)
    (url : string) :
  slash_free bucket → bucket ≠ "" →
  Forall slash_free segs → last segs = Some z → z ≠ "" →
  extract_object_name ("/" +:+ PyStr.join "/" (bucket :: segs)) url
  = if (2 <=? length segs)%nat
    then inr (PyStr.join "/" segs)
    else inl (ValueError ("URL格式不正确，无法解析object_name: " +:+ url)).
Proof.
  intros Hb Hbne Hsegs Hlast Hz.
  assert (strip_char slash ("/" +:+ PyStr.join "/" (bucket :: segs))
          = PyStr.join "/" (bucket :: segs)) as Hstrip.
  { destruct segs as [|s segs]; [done|].
    destruct (join_ends (s :: segs) z Hlast) as [pre Hpre].
    destruct bucket as [|b0 bucket]; [done|].
    apply slash_free_cons in Hb as [Hb0 Hb].
    assert (∃ zi y, PyStr.bytes z = zi ++ [y] ∧ y ≠ slash) as (zi & y & Hzy & Hy).
    { destruct (PyStr.bytes z) as [|c l] eqn:Hbz using rev_ind.
      - destruct z; [done | discriminate Hbz].
      - exists l, c. split; [done|].
        apply (slash_free_bytes z).
        + apply (proj1 (Forall_forall _ _) Hsegs).
          by apply last_Some_elem_of.
        + rewrite Hbz. apply elem_of_app. right. by left. }
    rewrite <- (of_bytes_bytes (PyStr.join "/" (String b0 bucket :: s :: segs))).
    change ("/" +:+ PyStr.of_bytes ?l) with (PyStr.of_bytes (slash :: l)).
    apply (strip_char_inner _ b0 y (PyStr.bytes bucket ++ slash :: pre ++ zi));
      [|done|done].
    rewrite join_cons, bytes_app.
    change (PyStr.bytes (String slash (PyStr.join "/" (s :: segs))))
      with (slash :: PyStr.bytes (PyStr.join "/" (s :: segs))).
    rewrite Hpre, Hzy.
    change (PyStr.bytes (String b0 bucket)) with (b0 :: PyStr.bytes bucket).
    cbn [app]. f_equal.
    rewrite <- (app_assoc (PyStr.bytes bucket) (slash :: pre ++ zi) [y]).
    cbn [app]. by rewrite <- (app_assoc pre zi [y]). }
  unfold extract_object_name. rewrite Hstrip.
  rewrite split_join; [|done|by constructor].
  cbn [length drop]. by destruct segs as [|s [|s' segs]].
Qed.

Lemma extract_object_name_spec_witness :
  extract_object_name "/cedc-smart-apps/ccla99/6ab1.docx" "u"
  = inr "ccla99/6ab1.docx".
Proof.
  apply (extract_object_name_spec "cedc-smart-apps" "6ab1.docx"
           ["ccla99"; "6ab1.docx"] "u").
  - unfold slash_free. apply (bool_decide_unpack _). vm_compute. exact I.
  - intros H. discriminate H.
  - unfold slash_free. apply (bool_decide_unpack _). vm_compute. exact I.
  - reflexivity.
  - intros H. discriminate H.
Defined.
